(** * Gateway, users service and orders service: a shallow embedding

    The development follows the three services of the repository:
    - [api_gateway/index.js]: rate limiters, circuit breakers, the
      request forwarder and the user-details aggregator;
    - [service_users/index.js]: the users store and its routes;
    - [service_orders/index.js]: the route table of the orders service.

    JavaScript objects used as records with optional fields are Rocq
    records with [option] fields; objects whose keys are data (the
    accumulator of [byStatus], the users store) are modelled with their
    own properties and with what a lookup inherits from
    [Object.prototype]; promises are modelled by their settlement.
    Everything that is not a pure function of its arguments
    (the network, the clock, token verification, password hashing, input
    validation) is an argument or a field of a record of collaborators. *)

From Stdlib Require Import ZArith Lia.
From stdpp Require Import base option list strings gmap fin_maps.

Open Scope string_scope.
Open Scope Z_scope.

Set Warnings "-register-all,-clear-no-such-hyp".

(** ** Envelopes *)

(** [error: { code, message }] *)
Record ErrorInfo := mkError { code : string; message : string }.

(** The uniform response body.  [data] and [error] are optional object
    properties; [D] is the payload type. *)
Record Envelope (D : Type) := mkEnvelope {
  success : bool;
  data : option D;
  error : option ErrorInfo
}.
Arguments mkEnvelope {D} _ _ _.
Arguments success {D} _.
Arguments data {D} _.
Arguments error {D} _.

(** [{ success: true, data: d }] *)
Definition ok {D} (d : D) : Envelope D := mkEnvelope true (Some d) None.

(** [{ success: false, error: { code: c, message: m } }] *)
Definition fail {D} (c m : string) : Envelope D :=
  mkEnvelope false None (Some (mkError c m)).

(** [result.error?.code]: [None] stands for [undefined]. *)
Definition errorCode {D} (e : Envelope D) : option string := code <$> error e.

(** An HTTP response: [res.status(s).json(body)]. *)
Record Response (B : Type) := mkResponse { status : Z; body : B }.
Arguments mkResponse {B} _ _.
Arguments status {B} _.
Arguments body {B} _.

(** [x === 'LITERAL'] where [x] may be [undefined]. *)
Definition is_code (x : option string) (lit : string) : bool :=
  match x with
  | Some c => bool_decide (c = lit)
  | None => false
  end.

(** ** Bearer credentials *)

(** The decoded token, [req.user]; [roles] may be absent. *)
Record Identity := mkIdentity {
  user_id : string;
  user_email : string;
  user_roles : option (list string)
}.

(** Scalar values found in the objects the services exchange. *)
Inductive JVal :=
  | JStr (s : string)
  | JNum (n : Z)
  | JStrs (l : list string).

#[export] Instance JVal_eq_dec : EqDecision JVal.
Proof. solve_decision. Defined.

(** A header value that is present and not the empty string. *)
Definition truthy (h : option string) : option string :=
  match h with
  | Some s => if bool_decide (s = "") then None else Some s
  | None => None
  end.

(** [s.startsWith(p)] *)
Fixpoint startsWith (s p : string) : bool :=
  match p, s with
  | EmptyString, _ => true
  | String a p', String b s' => Ascii.eqb a b && startsWith s' p'
  | String _ _, EmptyString => false
  end.

(** [s.substring(n)] *)
Fixpoint substringFrom (n : nat) (s : string) : string :=
  match n, s with
  | O, _ => s
  | S n', String _ s' => substringFrom n' s'
  | S _, EmptyString => EmptyString
  end.

(** A header that carries a token [jwt.verify] accepts. *)
Definition validBearer (jwtVerify : string → option Identity)
    (authorization : option string) : Prop :=
  ∃ token decoded,
    authorization = Some ("Bearer " ++ token) ∧ jwtVerify token = Some decoded.

(** ** The forwarder's status mapping ([forwardRequest], the [statusCode]
    conditional chain) *)

Module Forwarder.

Definition statusCode {D} (result : Envelope D) : Z :=
  if success result then 200
  else if is_code (errorCode result) "VALIDATION_ERROR" then 400
  else if is_code (errorCode result) "UNAUTHORIZED" then 401
  else if is_code (errorCode result) "FORBIDDEN" then 403
  else if is_code (errorCode result) "USER_NOT_FOUND"
          || is_code (errorCode result) "ORDER_NOT_FOUND" then 404
  else if is_code (errorCode result) "USER_EXISTS"
          || is_code (errorCode result) "EMAIL_EXISTS" then 409
  else 500.

(** The codes the conditional chain tests for. *)
Definition mappedCodes : list string :=
  [ "VALIDATION_ERROR"; "UNAUTHORIZED"; "FORBIDDEN";
    "USER_NOT_FOUND"; "ORDER_NOT_FOUND"; "USER_EXISTS"; "EMAIL_EXISTS" ].

(** The rows of the status table of the specification (section 6). *)
Definition tableCodes : list string :=
  [ "VALIDATION_ERROR"; "UNAUTHORIZED"; "INVALID_TOKEN"; "FORBIDDEN";
    "USER_NOT_FOUND"; "ORDER_NOT_FOUND"; "USER_EXISTS"; "EMAIL_EXISTS";
    "SERVICE_UNAVAILABLE"; "RATE_LIMIT_EXCEEDED" ].

(** Whether the envelope's code is one of [codes]; an absent code is in
    no list. *)
Definition code_in {D} (codes : list string) (e : Envelope D) : Prop :=
  ∃ c, errorCode e = Some c ∧ c ∈ codes.

(** [return res.status(statusCode).json(result)]: the envelope is relayed
    verbatim. *)
Definition respond {D} (result : Envelope D) : Response (Envelope D) :=
  mkResponse (statusCode result) result.

(** The [catch] branch of [forwardRequest]. *)
Definition forwardCatch {D} : Response (Envelope D) :=
  mkResponse 503 (fail "SERVICE_UNAVAILABLE" "Service temporarily unavailable").

End Forwarder.

(** ** Circuit fallbacks ([usersCircuit.fallback], [ordersCircuit.fallback]) *)

Inductive Service := Users | Orders.

#[export] Instance Service_eq_dec : EqDecision Service.
Proof. solve_decision. Defined.

Definition fallback {D} (s : Service) : Envelope D :=
  match s with
  | Users => fail "SERVICE_UNAVAILABLE" "Users service temporarily unavailable"
  | Orders => fail "SERVICE_UNAVAILABLE" "Orders service temporarily unavailable"
  end.

(** ** Settlements *)

(** What a backend does with a request of the gateway: it answers with
    an HTTP status and a JSON body, it cannot be reached, or it does not
    answer within the timeout. *)
Inductive Reply (D : Type) :=
  | Replied (reply_status : Z) (reply_body : Envelope D)
  | Unreachable
  | Silent.
Arguments Replied {D} _ _.
Arguments Unreachable {D}.
Arguments Silent {D}.

(** What [await axios({...})] yields in the circuit actions: a response
    whose [data] is the backend's JSON body, a rejection, or nothing
    within the breaker's [timeout]. *)
Inductive AxiosSettled (D : Type) :=
  | AxiosFulfilled (response_data : Envelope D)
  | AxiosRejected
  | AxiosPending.
Arguments AxiosFulfilled {D} _.
Arguments AxiosRejected {D}.
Arguments AxiosPending {D}.

(** The status check of [axios].  The circuit actions call
    [axios({ url, ...options, timeout: 5000 })] and the options built by
    the gateway ([method], [headers], [data], [params]) carry no
    [validateStatus], so the client's own check applies:
    [status >= 200 && status < 300]. *)
Definition validateStatus (status : Z) : bool :=
  (200 <=? status) && (status <? 300).

(** [await axios({ url, ...options, timeout: 5000 })]: the promise is
    fulfilled with the response when the reply's status passes
    [validateStatus] and rejected otherwise, as it is when no connection
    can be made. *)
Definition axios {D} (r : Reply D) : AxiosSettled D :=
  match r with
  | Replied st d => if validateStatus st then AxiosFulfilled d else AxiosRejected
  | Unreachable => AxiosRejected
  | Silent => AxiosPending
  end.

(** An element of the array [Promise.allSettled] resolves with:
    [{status: 'fulfilled', value}] or [{status: 'rejected', reason}].
    [value] may be [undefined]. *)
Inductive Settled (A : Type) :=
  | Fulfilled (value : option A)
  | Rejected.
Arguments Fulfilled {A} _.
Arguments Rejected {A}.

(** ** Circuit breaker *)

Module Breaker.

(** Modelled from the spec: the three states of a breaker (section 4.1);
    the [opossum] dependency that implements them is not part of the
    source tree. *)
Inductive State := Closed | Open | HalfOpen.

#[export] Instance State_eq_dec : EqDecision State.
Proof. solve_decision. Defined.

(** The fields of [circuitOptions], and the sample size below which the
    breaker does not open (the specification's "statistically meaningful
    sample"), which [circuitOptions] leaves to the library. *)
Record Config := mkConfig {
  timeout : Z;
  errorThresholdPercentage : Z;
  resetTimeout : Z;
  rollingCountTimeout : Z;
  rollingCountBuckets : Z;
  volumeThreshold : Z
}.

(** The options object of the source; it sets no volume threshold. *)
Definition circuitOptions : Config :=
  mkConfig 5000 50 30000 10000 10 0.

(** Modelled from the spec: one bucket of the rolling window (section
    4.1: the window is a duration and a bucket count; glossary: a
    time-bounded bucketed counter). *)
Record Bucket := mkBucket { successes : Z; failures : Z }.

(** Modelled from the spec: the breaker object itself is the [opossum]
    dependency, which is not part of the source tree.  Section 3 gives
    the state ([state], rolling statistics, [lastOpenedAt]), section 4.1
    the transitions.  [window] holds the buckets of the rolling window,
    newest first; [windowStart] is the time the newest bucket began. *)
Record Breaker := mkBreaker {
  state : State;
  window : list Bucket;
  windowStart : Z;
  lastOpenedAt : option Z
}.

(** Modelled from the spec: [rollingStats.successCount], the successes
    of the buckets in the window. *)
Definition successCount (b : Breaker) : Z :=
  foldr (λ k acc, successes k + acc) 0 (window b).

(** Modelled from the spec: [rollingStats.failureCount], the failures
    of the buckets in the window. *)
Definition failureCount (b : Breaker) : Z :=
  foldr (λ k acc, failures k + acc) 0 (window b).

(** Modelled from the spec: a breaker starts closed, with an empty
    window. *)
Definition initial (now : Z) : Breaker :=
  mkBreaker Closed [mkBucket 0 0] now None.

(** Modelled from the spec: the events a breaker emits (the source
    listens to [open], [halfOpen] and [close]) and the per-call records
    of the rolling window. *)
Inductive Event :=
  | EvOpen | EvHalfOpen | EvClose
  | EvSuccess | EvFailure | EvTimeout | EvReject.

#[export] Instance Event_eq_dec : EqDecision Event.
Proof. solve_decision. Defined.

(** Modelled from the spec: what a call through the breaker came to:
    the action returned a value, it threw, or it did not settle within
    [timeout]. *)
Inductive Outcome (D : Type) :=
  | Completed (v : Envelope D)
  | Threw
  | TimedOut.
Arguments Completed {D} _.
Arguments Threw {D}.
Arguments TimedOut {D}.

(** The circuit action of the source:
    [async (url, options) => { const response = await axios(...); return response.data; }]
    It returns the body without looking at it, and a rejection of
    [axios] propagates. *)
Definition action {D} (ax : AxiosSettled D) : Outcome D :=
  match ax with
  | AxiosFulfilled d => Completed d
  | AxiosRejected => Threw
  | AxiosPending => TimedOut
  end.

(** Modelled from the spec: the duration of one bucket,
    [rollingCountTimeout / rollingCountBuckets]. *)
Definition bucketWidth (cfg : Config) : Z :=
  rollingCountTimeout cfg / rollingCountBuckets cfg.

(** Modelled from the spec: the rolling window at time [now].  For
    every bucket duration that has passed since the newest bucket began,
    an empty bucket is put in front and the window is cut back to
    [rollingCountBuckets] buckets, so the counts are those of the last
    [rollingCountTimeout]. *)
Definition roll (cfg : Config) (now : Z) (b : Breaker) : Breaker :=
  let width := bucketWidth cfg in
  let elapsed := (now - windowStart b) / width in
  if (0 <? width) && (0 <? elapsed)
  then mkBreaker (state b)
         (take (Z.to_nat (rollingCountBuckets cfg))
            (replicate (Z.to_nat (Z.min elapsed (rollingCountBuckets cfg)))
               (mkBucket 0 0) ++ window b)%list)
         (windowStart b + elapsed * width) (lastOpenedAt b)
  else b.

(** Modelled from the spec: a record added to the newest bucket. *)
Definition tally (k : Bucket) (b : Breaker) : Breaker :=
  mkBreaker (state b)
    (match window b with
     | h :: t =>
         mkBucket (successes h + successes k) (failures h + failures k) :: t
     | [] => [k]
     end)
    (windowStart b) (lastOpenedAt b).

(** Modelled from the spec: a transition. *)
Definition setState (st : State) (b : Breaker) : Breaker :=
  mkBreaker st (window b) (windowStart b) (lastOpenedAt b).

(** Modelled from the spec: the transition to [Open], stamped. *)
Definition opened (now : Z) (b : Breaker) : Breaker :=
  mkBreaker Open (window b) (windowStart b) (Some now).

(** Modelled from the spec: the error rate of the window exceeds the
    threshold on a sample of at least [volumeThreshold] calls. *)
Definition tripped (cfg : Config) (b : Breaker) : bool :=
  (volumeThreshold cfg <=? successCount b + failureCount b)
  && (errorThresholdPercentage cfg * (successCount b + failureCount b)
      <? 100 * failureCount b).

(** Modelled from the spec: whether a call is let through to the
    backend. *)
Inductive Admission := Pass | ShortCircuit.

(** Modelled from the spec: admission of a call.  [Closed] passes;
    [Open] short-circuits until [resetTimeout] has elapsed, then
    half-opens and lets one trial through; while that trial is in flight
    ([HalfOpen]) every other call is short-circuited. *)
Definition enter (cfg : Config) (now : Z) (b : Breaker)
  : Breaker * Admission * list Event :=
  match state b with
  | Closed => (b, Pass, [])
  | HalfOpen => (b, ShortCircuit, [EvReject])
  | Open =>
      match lastOpenedAt b with
      | Some t =>
          if t + resetTimeout cfg <=? now
          then (setState HalfOpen b, Pass, [EvHalfOpen])
          else (b, ShortCircuit, [EvReject])
      | None => (b, ShortCircuit, [EvReject])
      end
  end.

(** Modelled from the spec: recording a success.  A trial that succeeds
    closes the breaker. *)
Definition recordSuccess (cfg : Config) (now : Z) (b : Breaker)
  : Breaker * list Event :=
  let c := tally (mkBucket 1 0) (roll cfg now b) in
  match state c with
  | HalfOpen => (setState Closed c, [EvSuccess; EvClose])
  | _ => (c, [EvSuccess])
  end.

(** Modelled from the spec: recording a failure.  A failed trial reopens
    the breaker; a closed breaker opens when the window trips. *)
Definition recordFailure (cfg : Config) (now : Z) (ev : Event) (b : Breaker)
  : Breaker * list Event :=
  let c := tally (mkBucket 0 1) (roll cfg now b) in
  match state c with
  | HalfOpen => (opened now c, [ev; EvOpen])
  | Closed =>
      if tripped cfg c then (opened now c, [ev; EvOpen]) else (c, [ev])
  | Open => (c, [ev])
  end.

(** Modelled from the spec: completion of a call that was let through.
    A call whose action returned is a success whatever the envelope it
    returned says; an action that threw or did not settle in time is a
    failure answered by the fallback. *)
Definition complete {D} (cfg : Config) (fb : Envelope D) (now : Z)
    (b : Breaker) (o : Outcome D) : Breaker * Envelope D * list Event :=
  match o with
  | Completed v =>
      let '(b', evs) := recordSuccess cfg now b in (b', v, evs)
  | Threw =>
      let '(b', evs) := recordFailure cfg now EvFailure b in (b', fb, evs)
  | TimedOut =>
      let '(b', evs) := recordFailure cfg now EvTimeout b in (b', fb, evs)
  end.

(** Modelled from the spec: the result of [invoke] ([circuit.fire] in
    the source): the new breaker, the value the promise resolves with,
    the events, and whether the action was run. *)
Record Fired (D : Type) := mkFired {
  breaker : Breaker;
  value : Envelope D;
  events : list Event;
  attempted : bool
}.
Arguments mkFired {D} _ _ _ _.
Arguments breaker {D} _.
Arguments value {D} _.
Arguments events {D} _.
Arguments attempted {D} _.

(** Modelled from the spec: [invoke].  [ax] is how the request of the
    action settles; it is consulted only when the call is let
    through. *)
Definition fire {D} (cfg : Config) (fb : Envelope D) (now : Z)
    (b : Breaker) (ax : AxiosSettled D) : Fired D :=
  match enter cfg now b with
  | (b1, ShortCircuit, evs) => mkFired b1 fb evs false
  | (b1, Pass, evs) =>
      let '(b2, v, evs') := complete cfg fb now b1 (action ax) in
      mkFired b2 v (evs ++ evs') true
  end.

(** Modelled from the spec: the records of the rolling window that
    count as failures. *)
Definition isFailure (ev : Event) : bool :=
  match ev with
  | EvFailure | EvTimeout => true
  | _ => false
  end.

End Breaker.

(** ** Rate limiter *)

Module RateLimiter.

(** The options object passed to [rateLimit({...})]. *)
Record Options (B : Type) := mkOptions {
  windowMs : Z;
  max : Z;
  message : B
}.
Arguments mkOptions {B} _ _ _.
Arguments windowMs {B} _.
Arguments max {B} _.
Arguments message {B} _.

(** Modelled from the spec: the limiter itself is the
    [express-rate-limit] dependency, which is not part of the source
    tree.  Section 4.4: a window counter keyed by client address. *)
Record Entry := mkEntry { count : Z; windowStart : Z }.

(** Modelled from the spec: the outcome of [check]. *)
Inductive Verdict := Allow | Deny.

#[export] Instance Verdict_eq_dec : EqDecision Verdict.
Proof. solve_decision. Defined.

(** Modelled from the spec: the client's entry at time [now]; the count
    returns to zero once the window has rolled over. *)
Definition current {B} (o : Options B) (now : Z) (key : string)
    (hits : gmap string Entry) : Entry :=
  match hits !! key with
  | Some e => if windowStart e + windowMs o <=? now then mkEntry 0 now else e
  | None => mkEntry 0 now
  end.

(** Modelled from the spec: [check(clientKey)].  Up to [max] requests
    per window are counted and allowed; past that the request is denied
    and the count not incremented further. *)
Definition check {B} (o : Options B) (now : Z) (key : string)
    (hits : gmap string Entry) : gmap string Entry * Verdict :=
  let e := current o now key hits in
  if max o <=? count e
  then (<[key := e]> hits, Deny)
  else (<[key := mkEntry (count e + 1) (windowStart e)]> hits, Allow).

(** Modelled from the spec: the denial, HTTP 429 with the configured
    message. *)
Definition denied {B} (o : Options B) : Response B :=
  mkResponse 429 (message o).

End RateLimiter.

(** ** Plain objects

    The accumulators and stores of the source are objects created by
    [{}]: reading [obj[k]] finds the object's own property [k] and, when
    there is none, the member [k] of [Object.prototype]. *)

Module Js.

(** The names of the members of [Object.prototype]. *)
Definition objectPrototype : list string :=
  [ "constructor"; "__defineGetter__"; "__defineSetter__"; "hasOwnProperty";
    "__lookupGetter__"; "__lookupSetter__"; "isPrototypeOf";
    "propertyIsEnumerable"; "toString"; "valueOf"; "__proto__";
    "toLocaleString" ].

(** [k] names a member every plain object inherits. *)
Definition inherited (k : string) : bool :=
  bool_decide (k ∈ objectPrototype).

(** [String(({})[k])] for an inherited [k]: the members are built-in
    functions, [constructor] is [Object], and [__proto__] reads
    [Object.prototype] itself. *)
Definition inheritedText (k : string) : string :=
  if bool_decide (k = "__proto__") then "[object Object]"
  else "function "
       ++ (if bool_decide (k = "constructor") then "Object" else k)
       ++ "() { [native code] }".

(** The value of a decimal digit. *)
Definition digit (c : Ascii.ascii) : option Z :=
  let n := Z.of_N (Ascii.N_of_ascii c) in
  if (48 <=? n) && (n <=? 57) then Some (n - 48) else None.

(** The number a string of decimal digits denotes, after [acc]. *)
Fixpoint decimal (acc : Z) (s : string) : option Z :=
  match s with
  | EmptyString => Some acc
  | String c s' =>
      match digit c with
      | Some d => decimal (10 * acc + d) s'
      | None => None
      end
  end.

(** The array index a property name is, if any: the canonical decimal
    numeral of an integer from 0 to 2^32 - 2. *)
Definition index (k : string) : option Z :=
  match k with
  | EmptyString => None
  | String c _ =>
      match decimal 0 k with
      | Some n =>
          if (n <=? 4294967294)
             && (bool_decide (k = "0") || negb (bool_decide (digit c = Some 0)))
          then Some n
          else None
      | None => None
      end
  end.

(** Where a new own property [k] goes in the enumeration of an object
    ([Object.keys], [Object.values]): array indices come first, in
    ascending order; the other names follow in the order they were
    created.  [before k k'] says that the new [k] comes before the
    existing [k']. *)
Definition before (k k' : string) : bool :=
  match index k, index k' with
  | Some i, Some j => i <? j
  | Some _, None => true
  | None, _ => false
  end.

End Js.

(** ** Route paths

    Express compares the literal parts of a route path with the request
    path without regard to the case of the letters A to Z
    ([case sensitive routing] is off unless an application sets it, and
    none of the three does). *)

Module Express.

Definition lowerChar (c : Ascii.ascii) : Ascii.ascii :=
  let n := Ascii.N_of_ascii c in
  if ((65 <=? n) && (n <=? 90))%N then Ascii.ascii_of_N (n + 32) else c.

Fixpoint lower (s : string) : string :=
  match s with
  | EmptyString => EmptyString
  | String c s' => String (lowerChar c) (lower s')
  end.

(** The segment [s] of a request path matches the literal segment [lit]
    of a route path, which is written in lower case. *)
Definition matches (lit s : string) : bool := bool_decide (lower s = lit).


End Express.

(** ** Gateway *)

Module Gateway.

(** An order as the orders service stores it. *)
Record Order := mkOrder {
  order_id : string;
  order_userId : string;
  order_status : string;
  order_totalAmount : Z
}.

Record Pagination := mkPagination {
  page : option Z;
  limit : option Z;
  total : option Z;
  totalPages : option Z
}.

(** The payload of [GET /v1/orders]: [{ orders, pagination }]. *)
Record OrdersData := mkOrdersData {
  orders : option (list Order);
  pagination : option Pagination
}.

(** A value of [byStatus]: a count, or the text the reducer leaves
    where [+ 1] met something that is not a number. *)
Inductive Count := Num (n : Z) | Text (s : string).

#[export] Instance Count_eq_dec : EqDecision Count.
Proof. solve_decision. Defined.

(** [ordersSummary: { total, byStatus }] *)
Record Summary := mkSummary {
  summary_total : Z;
  byStatus : gmap string Count
}.

(** The [data] of the envelopes that pass through the gateway. *)
Inductive Payload :=
  | PObject (o : gmap string JVal)
  | POrders (d : OrdersData)
  | PDetails (user : option Payload) (details_orders : list Order)
             (ordersSummary : Summary)
  | PCircuits (users_state orders_state : string)
  | POther (tag : string).

Definition Body := Envelope Payload.

(** [p.orders] *)
Definition orders_of (p : Payload) : option (list Order) :=
  match p with
  | POrders d => orders d
  | PDetails _ os _ => Some os
  | _ => None
  end.

(** [p.pagination?.total] *)
Definition total_of (p : Payload) : option Z :=
  match p with
  | POrders d => pagination d ≫= total
  | _ => None
  end.

(** The options object handed to [circuit.fire(url, options)]. *)
Record FireOptions := mkFireOptions {
  fo_method : string;
  fo_headers : list (string * string);
  fo_data : option Payload;
  fo_params : list (string * string)
}.

(** One call of [circuit.fire]. *)
Record FireCall := mkFireCall {
  fc_circuit : Service;
  fc_url : string;
  fc_options : FireOptions
}.

(** An inbound request.  [path] is the list of path segments,
    [uuid] the value [uuidv4()] would produce, [now] the arrival time,
    [ip] the client address the limiters key on; [req_body] is the body
    as [express.json()] parsed it. *)
Record Request := mkRequest {
  method : string;
  path : list string;
  authorization : option string;
  x_request_id : option string;
  uuid : string;
  req_body : option Payload;
  query : list (string * string);
  ip : string;
  now : Z
}.

(** What the gateway does not compute itself: [jwt.verify] with the
    gateway's secret ([None] when it throws) and [circuit.fire] over
    some state [C] of the two circuits. *)
Record Externals (C : Type) := mkExternals {
  jwtVerify : string → option Identity;
  fire : FireCall → C → Settled Body * C
}.
Arguments mkExternals {C} _ _.
Arguments jwtVerify {C} _ _.
Arguments fire {C} _ _ _.

(** The mutable state of the gateway process, with the log of the calls
    of [circuit.fire] made so far. *)
Record World (C : Type) := mkWorld {
  circuits : C;
  fired : list FireCall;
  limiterHits : gmap string RateLimiter.Entry;
  authLimiterHits : gmap string RateLimiter.Entry
}.
Arguments mkWorld {C} _ _ _ _.
Arguments circuits {C} _.
Arguments fired {C} _.
Arguments limiterHits {C} _.
Arguments authLimiterHits {C} _.

Definition Result (C : Type) : Type := Response Body * World C.

(** [limiter] *)
Definition limiter : RateLimiter.Options Body :=
  RateLimiter.mkOptions (15 * 60 * 1000) 100
    (fail "RATE_LIMIT_EXCEEDED" "Too many requests, please try again later.").

(** [authLimiter] *)
Definition authLimiter : RateLimiter.Options Body :=
  RateLimiter.mkOptions (15 * 60 * 1000) 5
    (fail "RATE_LIMIT_EXCEEDED"
       "Too many authentication attempts, please try again later.").

(** [req.id = req.headers['x-request-id'] || uuidv4()] *)
Definition req_id (req : Request) : string :=
  match x_request_id req with
  | Some h => if bool_decide (h = "") then uuid req else h
  | None => uuid req
  end.

(** The outcome of [verifyToken]: a rejection, or [req.user]. *)
Definition verifyToken {C} (x : Externals C) (req : Request)
  : Response Body + Identity :=
  match truthy (authorization req) with
  | None => inl (mkResponse 401 (fail "UNAUTHORIZED" "No token provided"))
  | Some authHeader =>
      if startsWith authHeader "Bearer "
      then
        match jwtVerify x (substringFrom 7 authHeader) with
        | Some decoded => inr decoded
        | None =>
            inl (mkResponse 401
                   (fail "INVALID_TOKEN" "Invalid or expired token"))
        end
      else inl (mkResponse 401 (fail "UNAUTHORIZED" "No token provided"))
  end.

(** [circuit.fire(url, options)], logged. *)
Definition doFire {C} (x : Externals C) (call : FireCall) (w : World C)
  : Settled Body * World C :=
  let '(r, c) := fire x call (circuits w) in
  (r, mkWorld c (fired w ++ [call]) (limiterHits w) (authLimiterHits w)).

(** [forwardRequest(circuit, url, req, res)].  Reading [result.success]
    of an [undefined] result throws, as does a rejected [fire]: both end
    in the [catch] branch. *)
Definition forwardRequest {C} (x : Externals C) (circuit : Service)
    (url : string) (req : Request) (w : World C) : Result C :=
  let headers :=
    ([("X-Request-ID", req_id req); ("Content-Type", "application/json")]
     ++ match truthy (authorization req) with
        | Some a => [("Authorization", a)]
        | None => []
        end)%list in
  let options :=
    mkFireOptions (method req) headers
      (if bool_decide (method req ≠ "GET") && bool_decide (method req ≠ "HEAD")
       then req_body req else None)
      (query req) in
  match doFire x (mkFireCall circuit url options) w with
  | (Fulfilled (Some result), w') => (Forwarder.respond result, w')
  | (Fulfilled None, w') => (Forwarder.forwardCatch, w')
  | (Rejected, w') => (Forwarder.forwardCatch, w')
  end.

(** *** The aggregator, [GET /v1/users/:userId/details] *)

(** [req.user.roles?.includes('admin')]; [undefined] when there are no
    roles, which [!] turns into [true]. *)
Definition includesAdmin (u : Identity) : bool :=
  match user_roles u with
  | Some rs => bool_decide ("admin" ∈ rs)
  | None => false
  end.

(** [req.user.id !== userId && !req.user.roles?.includes('admin')] *)
Definition accessDenied (u : Identity) (userId : string) : bool :=
  bool_decide (user_id u ≠ userId) && negb (includesAdmin u).

(** [r.status === 'rejected' || !r.value?.success] *)
Definition lookupFailed (r : Settled Body) : bool :=
  match r with
  | Rejected => true
  | Fulfilled None => true
  | Fulfilled (Some e) => negb (success e)
  end.

(** [r.value.data], read once [lookupFailed r] is false. *)
Definition dataOf (r : Settled Body) : option Payload :=
  match r with
  | Fulfilled (Some e) => data e
  | _ => None
  end.

(** [{ orders: [], pagination: { total: 0 } }] *)
Definition emptyOrders : Payload :=
  POrders (mkOrdersData (Some []) (Some (mkPagination None None (Some 0) None))).

(** [(acc[k] || 0) + 1] on the accumulator, which starts as [{}].  An
    own count is incremented; a key that is neither own nor inherited
    reads [undefined] and gives 1; an inherited member is an object, to
    which [+ 1] appends the character 1 after converting it to a string,
    as it does to a text already stored.  [__proto__] is never an own
    property. *)
Definition bump (acc : gmap string Count) (k : string) : Count :=
  match (if bool_decide (k = "__proto__") then None else acc !! k) with
  | Some (Num n) => Num (n + 1)
  | Some (Text s) => if bool_decide (s = "") then Num 1 else Text (s ++ "1")
  | None =>
      if Js.inherited k then Text (Js.inheritedText k ++ "1") else Num 1
  end.

(** [acc[k] = v] for a primitive [v]: an own property is written, except
    under [__proto__], whose setter ignores values that are not
    objects. *)
Definition assign (k : string) (v : Count) (acc : gmap string Count)
  : gmap string Count :=
  if bool_decide (k = "__proto__") then acc else <[k := v]> acc.

(** The reducer of [byStatus]:
    [acc[order.status] = (acc[order.status] || 0) + 1]. *)
Definition countStatus (acc : gmap string Count) (order : Order)
  : gmap string Count :=
  assign (order_status order) (bump acc (order_status order)) acc.

(** [orders.reduce(countStatus, {})] *)
Definition histogram (os : list Order) : gmap string Count :=
  foldl countStatus ∅ os.




(** The handler from the [if] on [userResult] on.  A successful orders
    envelope without [data] makes [ordersData.orders] throw, which the
    [catch] turns into 500. *)
Definition compose (userResult ordersResult : Settled Body) : Response Body :=
  if lookupFailed userResult
  then mkResponse 404 (fail "USER_NOT_FOUND" "User not found")
  else
    let userData := dataOf userResult in
    let ordersData :=
      if negb (lookupFailed ordersResult)
      then dataOf ordersResult
      else Some emptyOrders in
    match ordersData with
    | None => mkResponse 500 (fail "INTERNAL_ERROR" "Internal server error")
    | Some od =>
        let os := default [] (orders_of od) in
        mkResponse 200
          (ok (PDetails userData os
                 (mkSummary (default 0 (total_of od)) (histogram os))))
    end.

(** The headers both lookups carry. *)
Definition detailsHeaders (req : Request) : list (string * string) :=
  ([("X-Request-ID", req_id req)]
   ++ match authorization req with
      | Some a => [("Authorization", a)]
      | None => []
      end)%list.

(** [usersCircuit.fire(`/v1/users/${userId}`, { method: 'GET', headers })] *)
Definition userLookup (userId : string) (req : Request) : FireCall :=
  mkFireCall Users ("/v1/users/" ++ userId)
    (mkFireOptions "GET" (detailsHeaders req) None []).

(** [ordersCircuit.fire('/v1/orders', { method: 'GET', headers, params: { userId } })] *)
Definition ordersLookup (userId : string) (req : Request) : FireCall :=
  mkFireCall Orders "/v1/orders"
    (mkFireOptions "GET" (detailsHeaders req) None [("userId", userId)]).

(** The handler.  Both calls of [Promise.allSettled([...])] are started
    before either settles; the circuits are independent, so the calls
    are threaded through the state one after the other. *)
Definition userDetails {C} (x : Externals C) (userId : string)
    (user : Identity) (req : Request) (w : World C) : Result C :=
  if accessDenied user userId
  then (mkResponse 403 (fail "FORBIDDEN" "Access denied"), w)
  else
    let '(userResult, w1) := doFire x (userLookup userId req) w in
    let '(ordersResult, w2) := doFire x (ordersLookup userId req) w1 in
    (compose userResult ordersResult, w2).

(** *** Routes *)

(** The routes in the order they are registered.  [route m p] is the
    first route registered for the verb [m] that the path [p] matches:
    [m] is the verb the routes are looked up under, which for a [HEAD]
    request is [GET] (see [routingVerb]); [p] holds the segments of the
    path, none of them empty, as the handlers receive them in
    [req.params]. *)
Inductive Route :=
  | Health | Status
  | Register | Login
  | ProfileGet | ProfilePut | UsersList | UserById (userId : string)
  | OrdersCreate | OrdersList
  | OrderGet (orderId : string) | OrderPut (orderId : string)
  | OrderDelete (orderId : string)
  | UserDetails (userId : string)
  | NotFound.

Definition route (m : string) (p : list string) : Route :=
  let verb x := bool_decide (m = x) in
  match p with
  | [a] =>
      if verb "GET" && Express.matches "health" a then Health
      else if verb "GET" && Express.matches "status" a then Status
      else NotFound
  | [a; b] =>
      if negb (Express.matches "v1" a) then NotFound
      else if Express.matches "users" b
      then (if verb "GET" then UsersList else NotFound)
      else if Express.matches "orders" b
      then (if verb "POST" then OrdersCreate
            else if verb "GET" then OrdersList
            else NotFound)
      else NotFound
  | [a; b; c] =>
      if negb (Express.matches "v1" a) then NotFound
      else if Express.matches "users" b
      then (if verb "POST" && Express.matches "register" c then Register
            else if verb "POST" && Express.matches "login" c then Login
            else if verb "GET" && Express.matches "profile" c then ProfileGet
            else if verb "PUT" && Express.matches "profile" c then ProfilePut
            else if verb "GET" then UserById c
            else NotFound)
      else if Express.matches "orders" b
      then (if verb "GET" then OrderGet c
            else if verb "PUT" then OrderPut c
            else if verb "DELETE" then OrderDelete c
            else NotFound)
      else NotFound
  | [a; b; c; d] =>
      if verb "GET" && Express.matches "v1" a && Express.matches "users" b
         && Express.matches "details" d
      then UserDetails c
      else NotFound
  | _ => NotFound
  end.

(** The circuit a forwarded route goes through and the backend URL. *)
Definition target (r : Route) : option (Service * string) :=
  match r with
  | Register => Some (Users, "/v1/users/register")
  | Login => Some (Users, "/v1/users/login")
  | ProfileGet | ProfilePut => Some (Users, "/v1/users/profile")
  | UsersList => Some (Users, "/v1/users")
  | UserById userId => Some (Users, "/v1/users/" ++ userId)
  | OrdersCreate | OrdersList => Some (Orders, "/v1/orders")
  | OrderGet orderId | OrderPut orderId | OrderDelete orderId =>
      Some (Orders, "/v1/orders/" ++ orderId)
  | _ => None
  end.

(** The routes registered with [authLimiter]. *)
Definition strictLimited (r : Route) : bool :=
  match r with
  | Register | Login => true
  | _ => false
  end.

(** [app.use('/v1/', limiter)]: the general limiter sees every path
    under [/v1/]. *)
Definition underV1 (p : list string) : bool :=
  match p with
  | a :: _ => Express.matches "v1" a
  | [] => false
  end.

Definition setLimiterHits {C} (h : gmap string RateLimiter.Entry) (w : World C)
  : World C :=
  mkWorld (circuits w) (fired w) h (authLimiterHits w).

Definition setAuthLimiterHits {C} (h : gmap string RateLimiter.Entry)
    (w : World C) : World C :=
  mkWorld (circuits w) (fired w) (limiterHits w) h.

(** What is left of a request once the general limiter has let it
    through: the route's own middleware, then its handler; [verb] is
    the verb the route is looked up under.  Of the bodies of [/health]
    and [/status] only the two circuit states are kept. *)
Definition dispatchAs {C} (verb : string) (x : Externals C)
    (circuitState : Service → C → string)
    (req : Request) (w : World C) : Result C :=
  match route verb (path req) with
  | Health | Status =>
      (mkResponse 200
         (ok (PCircuits (circuitState Users (circuits w))
                (circuitState Orders (circuits w)))), w)
  | NotFound => (mkResponse 404 (fail "NOT_FOUND" "Endpoint not found"), w)
  | UserDetails userId =>
      match verifyToken x req with
      | inl rejection => (rejection, w)
      | inr user => userDetails x userId user req w
      end
  | r =>
      match target r with
      | None => (mkResponse 404 (fail "NOT_FOUND" "Endpoint not found"), w)
      | Some (circuit, url) =>
          if strictLimited r
          then
            match RateLimiter.check authLimiter (now req) (ip req)
                    (authLimiterHits w) with
            | (h, RateLimiter.Deny) =>
                (RateLimiter.denied authLimiter, setAuthLimiterHits h w)
            | (h, RateLimiter.Allow) =>
                forwardRequest x circuit url req (setAuthLimiterHits h w)
            end
          else
            match verifyToken x req with
            | inl rejection => (rejection, w)
            | inr _ => forwardRequest x circuit url req w
            end
      end
  end.

(** The verb a request's routes are looked up under.  Express serves a
    [HEAD] request through the routes registered for [GET] when none is
    registered for [HEAD], and the gateway registers none. *)
Definition routingVerb (m : string) : string :=
  if bool_decide (m = "HEAD") then "GET" else m.

Definition dispatch {C} (x : Externals C) (circuitState : Service → C → string)
    (req : Request) (w : World C) : Result C :=
  dispatchAs (routingVerb (method req)) x circuitState req w.

(** The general limiter, then the routes looked up under [verb]. *)
Definition appAs {C} (verb : string) (x : Externals C)
    (circuitState : Service → C → string)
    (req : Request) (w : World C) : Result C :=
  if underV1 (path req)
  then
    match RateLimiter.check limiter (now req) (ip req) (limiterHits w) with
    | (h, RateLimiter.Deny) =>
        (RateLimiter.denied limiter, setLimiterHits h w)
    | (h, RateLimiter.Allow) =>
        dispatchAs verb x circuitState req (setLimiterHits h w)
    end
  else dispatchAs verb x circuitState req w.

(** The application from the general limiter on: what the limiters and
    handlers pass to [res.status(...).json(...)] or [res.send(...)]. *)
Definition app {C} (x : Externals C) (circuitState : Service → C → string)
    (req : Request) (w : World C) : Result C :=
  appAs (routingVerb (method req)) x circuitState req w.



(** *** The two circuits of the gateway

    [usersCircuit] and [ordersCircuit] with their fallbacks, over a
    network that answers each call with [net]. *)
Record Circuits := mkCircuits {
  usersCircuit : Breaker.Breaker;
  ordersCircuit : Breaker.Breaker;
  transport : list FireCall
}.

Definition circuitOf (s : Service) (c : Circuits) : Breaker.Breaker :=
  match s with
  | Users => usersCircuit c
  | Orders => ordersCircuit c
  end.

Definition setCircuit (s : Service) (b : Breaker.Breaker) (c : Circuits)
  : Circuits :=
  match s with
  | Users => mkCircuits b (ordersCircuit c) (transport c)
  | Orders => mkCircuits (usersCircuit c) b (transport c)
  end.

(** [circuit.fire] on the breaker of the call; [net] is what the
    backends reply, [transport] logs the calls that reached the
    network. *)
Definition breakerFire (net : FireCall → Reply Payload) (clock : Z)
    (call : FireCall) (c : Circuits) : Settled Body * Circuits :=
  let s := fc_circuit call in
  let f := Breaker.fire Breaker.circuitOptions (fallback s) clock
             (circuitOf s c) (axios (net call)) in
  let c' := setCircuit s (Breaker.breaker f) c in
  (Fulfilled (Some (Breaker.value f)),
   if Breaker.attempted f
   then mkCircuits (usersCircuit c') (ordersCircuit c')
          (transport c' ++ [call])
   else c').

Definition stateName (st : Breaker.State) : string :=
  match st with
  | Breaker.Closed => "CLOSED"
  | Breaker.Open => "OPEN"
  | Breaker.HalfOpen => "HALF_OPEN"
  end.

Definition breakerState (s : Service) (c : Circuits) : string :=
  stateName (Breaker.state (circuitOf s c)).

End Gateway.

(** ** The backends' [authMiddleware] *)

(** [authMiddleware(req, res, next)]: the rejection it sends, or the
    decoded token it stores in [req.user] before calling [next()]. *)
Definition authMiddleware {B} (jwtVerify : string → option Identity)
    (authorization : option string) : Response (Envelope B) + Identity :=
  match truthy authorization with
  | None => inl (mkResponse 401 (fail "UNAUTHORIZED" "No token provided"))
  | Some authHeader =>
      if startsWith authHeader "Bearer "
      then
        match jwtVerify (substringFrom 7 authHeader) with
        | Some decoded => inr decoded
        | None =>
            inl (mkResponse 401
                   (fail "INVALID_TOKEN" "Invalid or expired token"))
        end
      else inl (mkResponse 401 (fail "UNAUTHORIZED" "No token provided"))
  end.

(** ** Users service *)

Module UsersService.

(** A stored user: an object with the properties [id], [email],
    [passwordHash], [name], [roles], [createdAt], [updatedAt]. *)
Abbreviation User := (gmap string JVal).

(** [usersDb]: an object keyed by user id; its own properties are kept
    in the order of [Object.values]. *)
Abbreviation Db := (list (string * gmap string JVal)).

(** [value] of [registerSchema.validate] *)
Record RegisterValue := mkRegisterValue {
  reg_email : string;
  reg_password : string;
  reg_name : string;
  reg_roles : option (list string)
}.

(** [value] of [loginSchema.validate] *)
Record LoginValue := mkLoginValue {
  login_email : string;
  login_password : string
}.

Record Pagination := mkPagination {
  page : Z;
  limit : Z;
  total : Z;
  totalPages : Z
}.

(** The [data] of the service's success envelopes. *)
Inductive Payload :=
  | PHealth
  | PRegistered (user : User)
  | PLogin (token : string) (user : User)
  | PUser (user : User)
  | PUsers (users : list User) (pagination : Pagination).

Definition Body := Envelope Payload.

(** The user objects a payload carries. *)
Definition usersOf (p : Payload) : list User :=
  match p with
  | PHealth => []
  | PRegistered u => [u]
  | PLogin _ u => [u]
  | PUser u => [u]
  | PUsers us _ => us
  end.

(** An inbound request.  [query_page] and [query_limit] are the results
    of [parseInt] ([None] for [NaN]); [uuid] is what [uuidv4()] returns
    in the [register] handler, [timestamp] is [new Date().toISOString()]. *)
Record Request := mkRequest {
  method : string;
  path : list string;
  authorization : option string;
  req_body : gmap string JVal;
  query_page : option Z;
  query_limit : option Z;
  query_role : option string;
  uuid : string;
  timestamp : string
}.

(** What the service takes from its libraries and from the middleware
    module: token verification and signing, the [requireRole]
    middleware (its rejection, or [None] for [next()]), the three
    validation schemas (an error message or the validated value) and
    password hashing.  [requireRole] is not in the source tree: it is
    taken as a middleware that either calls [next()] or answers with an
    error envelope of its choice. *)
Record Externals := mkExternals {
  jwtVerify : string → option Identity;
  jwtSign : option JVal → option JVal → option JVal → string;
  requireRole : list string → option Identity → option (Z * ErrorInfo);
  validateRegister : gmap string JVal → string + RegisterValue;
  validateLogin : gmap string JVal → string + LoginValue;
  validateUpdate : gmap string JVal → string + gmap string JVal;
  bcryptHash : string → string;
  bcryptCompare : string → string → bool
}.

(** The own property [id] of [usersDb]. *)
Definition own (id : string) (db : Db) : option User :=
  snd <$> List.find (λ kv, bool_decide (fst kv = id)) db.

(** [usersDb[id]]: the own property [id] or, when there is none, the
    member [id] of [Object.prototype], an object that has no enumerable
    property of its own and none of the properties the handlers read
    ([id], [email]). *)
Definition findUserById (id : string) (db : Db) : option User :=
  match own id db with
  | Some u => Some u
  | None => if Js.inherited id then Some ∅ else None
  end.

(** [Object.values(usersDb).find(user => user.email === email)] *)
Definition findUserByEmail (email : string) (db : Db) : option User :=
  snd <$> List.find (λ kv, bool_decide (snd kv !! "email" = Some (JStr email))) db.

(** The value of the own property [id] replaced. *)
Fixpoint overwrite (id : string) (user : User) (db : Db) : Db :=
  match db with
  | [] => []
  | (k, u) :: rest =>
      if bool_decide (k = id) then (k, user) :: rest
      else (k, u) :: overwrite id user rest
  end.

(** A new own property put where the enumeration has it. *)
Fixpoint place (id : string) (user : User) (db : Db) : Db :=
  match db with
  | [] => [(id, user)]
  | (k, u) :: rest =>
      if Js.before id k then (id, user) :: (k, u) :: rest
      else (k, u) :: place id user rest
  end.

(** [usersDb[id] = user]: an existing key keeps its place, a new one
    goes where [Object.values] will list it.  The ids written are those
    [uuidv4()] returns and the [id] of stored users; under the name
    [__proto__] the assignment would replace the prototype of [usersDb]
    instead of adding a property, which is not modelled. *)
Definition put (id : string) (user : User) (db : Db) : Db :=
  if bool_decide (id ∈ fst <$> db) then overwrite id user db
  else place id user db.

(** [const { passwordHash, ...userWithoutPassword } = user;
     return userWithoutPassword;] *)
Definition sanitizeUser (user : User) : User := delete "passwordHash" user.

(** [generateToken(user)] *)
Definition generateToken (x : Externals) (user : User) : string :=
  jwtSign x (user !! "id") (user !! "email") (user !! "roles").

(** [parseInt(q) || d] *)
Definition orDefault (q : option Z) (d : Z) : Z :=
  match q with
  | Some n => if n =? 0 then d else n
  | None => d
  end.

(** [l.slice(start, end)] with JavaScript's treatment of negative and
    out-of-range indices. *)
Definition slice {A} (l : list A) (start stop : Z) : list A :=
  let len := Z.of_nat (length l) in
  let clamp i := if i <? 0 then Z.max (len + i) 0 else Z.min i len in
  let k := clamp start in
  let f := clamp stop in
  take (Z.to_nat (f - k)) (drop (Z.to_nat k) l).

(** [Math.ceil(n / d)] for integers, [d] not zero. *)
Definition ceilDiv (n d : Z) : Z := - ((- n) `div` d).

Definition internalError : Response Body :=
  mkResponse 500 (fail "INTERNAL_ERROR" "Internal server error").

Definition userNotFound : Response Body :=
  mkResponse 404 (fail "USER_NOT_FOUND" "User not found").

(** [POST /v1/users/register] *)
Definition register (x : Externals) (req : Request) (db : Db)
  : Response Body * Db :=
  match validateRegister x (req_body req) with
  | inl msg => (mkResponse 400 (fail "VALIDATION_ERROR" msg), db)
  | inr value =>
      match findUserByEmail (reg_email value) db with
      | Some _ =>
          (mkResponse 409
             (fail "USER_EXISTS" "User with this email already exists"), db)
      | None =>
          let userId := uuid req in
          let roles := default ["user"] (reg_roles value) in
          let newUser : User :=
            <["updatedAt" := JStr (timestamp req)]>
            (<["createdAt" := JStr (timestamp req)]>
            (<["roles" := JStrs roles]>
            (<["name" := JStr (reg_name value)]>
            (<["passwordHash" := JStr (bcryptHash x (reg_password value))]>
            (<["email" := JStr (reg_email value)]>
            (<["id" := JStr userId]> ∅)))))) in
          let shown : User :=
            <["createdAt" := JStr (timestamp req)]>
            (<["roles" := JStrs roles]>
            (<["name" := JStr (reg_name value)]>
            (<["email" := JStr (reg_email value)]>
            (<["id" := JStr userId]> ∅)))) in
          (mkResponse 201 (ok (PRegistered shown)), put userId newUser db)
      end
  end.

(** [POST /v1/users/login].  [bcrypt.compare] throws on a hash that is
    not a string, which the handler's [catch] answers with 500. *)
Definition login (x : Externals) (req : Request) (db : Db)
  : Response Body * Db :=
  match validateLogin x (req_body req) with
  | inl msg => (mkResponse 400 (fail "VALIDATION_ERROR" msg), db)
  | inr value =>
      let invalid : Response Body :=
        mkResponse 401
          (fail "INVALID_CREDENTIALS" "Invalid email or password") in
      match findUserByEmail (login_email value) db with
      | None => (invalid, db)
      | Some user =>
          match user !! "passwordHash" with
          | Some (JStr hash) =>
              if bcryptCompare x (login_password value) hash
              then (mkResponse 200
                      (ok (PLogin (generateToken x user) (sanitizeUser user))),
                    db)
              else (invalid, db)
          | _ => (internalError, db)
          end
      end
  end.

(** [GET /v1/users/profile], past [authMiddleware] *)
Definition getProfile (user : Identity) (db : Db) : Response Body * Db :=
  match findUserById (user_id user) db with
  | None => (userNotFound, db)
  | Some u => (mkResponse 200 (ok (PUser (sanitizeUser u))), db)
  end.

(** The key of [usersDb[user.id] = updatedUser]. *)
Definition keyOf (user : User) : string :=
  match user !! "id" with
  | Some (JStr i) => i
  | _ => "undefined"
  end.

(** [value.email && value.email !== user.email]; the schema makes
    [value.email] a string when it is present. *)
Definition emailChanges (value user : User) : option string :=
  match value !! "email" with
  | Some (JStr e) =>
      if bool_decide (e = "") then None
      else if bool_decide (user !! "email" = Some (JStr e)) then None
      else Some e
  | _ => None
  end.

(** [PUT /v1/users/profile], past [authMiddleware].
    [{ ...user, ...value, updatedAt }]: the properties of [value]
    override those of [user]. *)
Definition updateProfile (x : Externals) (user : Identity) (req : Request)
    (db : Db) : Response Body * Db :=
  match validateUpdate x (req_body req) with
  | inl msg => (mkResponse 400 (fail "VALIDATION_ERROR" msg), db)
  | inr value =>
      match findUserById (user_id user) db with
      | None => (userNotFound, db)
      | Some u =>
          let taken :=
            match emailChanges value u with
            | Some e => bool_decide (is_Some (findUserByEmail e db))
            | None => false
            end in
          if taken
          then (mkResponse 409 (fail "EMAIL_EXISTS" "Email already in use"), db)
          else
            let updatedUser : User :=
              <["updatedAt" := JStr (timestamp req)]> (value ∪ u) in
            (mkResponse 200 (ok (PUser (sanitizeUser updatedUser))),
             put (keyOf u) updatedUser db)
      end
  end.

(** [user.roles.includes(role)]; [None] when [user.roles] is not an
    array and the call throws. *)
Definition hasRole (role : string) (u : User) : option bool :=
  match u !! "roles" with
  | Some (JStrs rs) => Some (bool_decide (role ∈ rs))
  | _ => None
  end.

(** [users.filter(user => user.roles.includes(role))] *)
Fixpoint filterByRole (role : string) (us : list User) : option (list User) :=
  match us with
  | [] => Some []
  | u :: rest =>
      match hasRole role u, filterByRole role rest with
      | Some keep, Some rest' => Some (if keep then u :: rest' else rest')
      | _, _ => None
      end
  end.

(** [GET /v1/users], past [authMiddleware] and [requireRole(['admin'])] *)
Definition listUsers (req : Request) (db : Db) : Response Body * Db :=
  let page := orDefault (query_page req) 1 in
  let limit := orDefault (query_limit req) 10 in
  let all := snd <$> db in
  let filtered :=
    match truthy (query_role req) with
    | Some role => filterByRole role all
    | None => Some all
    end in
  match filtered with
  | None => (internalError, db)
  | Some users =>
      let paginatedUsers := slice users ((page - 1) * limit) (page * limit) in
      let n := Z.of_nat (length users) in
      (mkResponse 200
         (ok (PUsers (sanitizeUser <$> paginatedUsers)
                (mkPagination page limit n (ceilDiv n limit)))), db)
  end.

(** [GET /v1/users/:userId] ("for internal service calls"): no
    middleware is registered on this route. *)
Definition getUserById (userId : string) (db : Db) : Response Body * Db :=
  match findUserById userId db with
  | None => (userNotFound, db)
  | Some u => (mkResponse 200 (ok (PUser (sanitizeUser u))), db)
  end.

(** The routes in the order they are registered. *)
Inductive Route :=
  | Health | Register | Login | ProfileGet | ProfilePut | UsersList
  | UserById (userId : string)
  | NoRoute.

Definition route (m : string) (p : list string) : Route :=
  let verb x := bool_decide (m = x) in
  match p with
  | [a; b] =>
      if verb "GET" && Express.matches "users" a && Express.matches "health" b
      then Health
      else if verb "GET" && Express.matches "v1" a && Express.matches "users" b
      then UsersList
      else NoRoute
  | [a; b; c] =>
      if negb (Express.matches "v1" a && Express.matches "users" b) then NoRoute
      else if verb "POST" && Express.matches "register" c then Register
      else if verb "POST" && Express.matches "login" c then Login
      else if verb "GET" && Express.matches "profile" c then ProfileGet
      else if verb "PUT" && Express.matches "profile" c then ProfilePut
      else if verb "GET" then UserById c
      else NoRoute
  | _ => NoRoute
  end.

(** The users routes the specification lists as requiring
    authentication (section 6): [GET/PUT /v1/users/profile],
    [GET /v1/users], [GET /v1/users/:id]. *)
Definition listedProtected (r : Route) : bool :=
  match r with
  | ProfileGet | ProfilePut | UsersList | UserById _ => true
  | _ => false
  end.

(** The middleware registered on each route, in order. *)
Inductive Middleware := AuthMiddleware | RequireRole (roles : list string).

#[export] Instance Middleware_eq_dec : EqDecision Middleware.
Proof. solve_decision. Defined.

Definition middleware (r : Route) : list Middleware :=
  match r with
  | ProfileGet | ProfilePut => [AuthMiddleware]
  | UsersList => [AuthMiddleware; RequireRole ["admin"]]
  | _ => []
  end.

(** The chain begins with [authMiddleware]. *)
Definition AuthMiddleware_first (ms : list Middleware) : Prop :=
  match ms with
  | AuthMiddleware :: _ => True
  | _ => False
  end.

(** Runs the middleware chain: a rejection, or [req.user] as the chain
    leaves it. *)
Fixpoint runMiddleware (x : Externals) (req : Request) (ms : list Middleware)
    (user : option Identity) : Response Body + option Identity :=
  match ms with
  | [] => inr user
  | AuthMiddleware :: rest =>
      match authMiddleware (jwtVerify x) (authorization req) with
      | inl rejection => inl rejection
      | inr decoded => runMiddleware x req rest (Some decoded)
      end
  | RequireRole roles :: rest =>
      match requireRole x roles user with
      | Some (st, err) => inl (mkResponse st (mkEnvelope false None (Some err)))
      | None => runMiddleware x req rest user
      end
  end.

(** The handler of a route; [user] is [req.user]. *)
Definition handler (x : Externals) (r : Route) (user : option Identity)
    (req : Request) (db : Db) : option (Response Body * Db) :=
  match r, user with
  | Health, _ => Some (mkResponse 200 (ok PHealth), db)
  | Register, _ => Some (register x req db)
  | Login, _ => Some (login x req db)
  | ProfileGet, Some u => Some (getProfile u db)
  | ProfilePut, Some u => Some (updateProfile x u req db)
  | UsersList, _ => Some (listUsers req db)
  | UserById userId, _ => Some (getUserById userId db)
  | ProfileGet, None | ProfilePut, None => Some (internalError, db)
  | NoRoute, _ => None
  end.

(** The application.  [None]: no route of the service matches, the
    request is left to the framework. *)
Definition app (x : Externals) (req : Request) (db : Db)
  : option (Response Body * Db) :=
  let r := route (method req) (path req) in
  match r with
  | NoRoute => None
  | _ =>
      match runMiddleware x req (middleware r) None with
      | inl rejection => Some (rejection, db)
      | inr user => handler x r user req db
      end
  end.

(** The user objects of a response body. *)
Definition carried (r : Response Body) : list User :=
  match data (body r) with
  | Some p => usersOf p
  | None => []
  end.

(** No user object of the response has a [passwordHash] property. *)
Definition hashFree (r : Response Body) : Prop :=
  ∀ u, u ∈ carried r → u !! "passwordHash" = None.

End UsersService.

(** ** Orders service: routes and middleware *)

Module OrdersService.

(** The routes in the order they are registered. *)
Inductive Route :=
  | Health
  | OrdersCreate
  | OrderGet (orderId : string)
  | OrdersList
  | OrderPut (orderId : string)
  | OrderDelete (orderId : string)
  | NoRoute.

Definition route (m : string) (p : list string) : Route :=
  let verb x := bool_decide (m = x) in
  match p with
  | [a; b] =>
      if verb "GET" && Express.matches "orders" a && Express.matches "health" b
      then Health
      else if negb (Express.matches "v1" a && Express.matches "orders" b)
      then NoRoute
      else if verb "POST" then OrdersCreate
      else if verb "GET" then OrdersList
      else NoRoute
  | [a; b; c] =>
      if negb (Express.matches "v1" a && Express.matches "orders" b) then NoRoute
      else if verb "GET" then OrderGet c
      else if verb "PUT" then OrderPut c
      else if verb "DELETE" then OrderDelete c
      else NoRoute
  | _ => NoRoute
  end.

(** The orders routes the specification lists as requiring
    authentication (section 6): [POST/GET /v1/orders],
    [GET/PUT/DELETE /v1/orders/:id]. *)
Definition listedProtected (r : Route) : bool :=
  match r with
  | OrdersCreate | OrderGet _ | OrdersList | OrderPut _ | OrderDelete _ => true
  | Health | NoRoute => false
  end.

(** Whether [authMiddleware] is registered on the route. *)
Definition authenticated (r : Route) : bool :=
  match r with
  | OrdersCreate | OrderGet _ | OrdersList | OrderPut _ | OrderDelete _ => true
  | Health | NoRoute => false
  end.

(** An inbound request; [rest] is everything the handlers read besides
    the route and the credential. *)
Record Request (R : Type) := mkRequest {
  method : string;
  path : list string;
  authorization : option string;
  rest : R
}.
Arguments mkRequest {R} _ _ _ _.
Arguments method {R} _.
Arguments path {R} _.
Arguments authorization {R} _.
Arguments rest {R} _.

(** The application over the route handlers [handle], which receive
    [req.user] and the orders store. *)
Definition app {R P S} (jwtVerify : string → option Identity)
    (handle : Route → option Identity → Request R → S → Response (Envelope P) * S)
    (req : Request R) (db : S) : option (Response (Envelope P) * S) :=
  let r := route (method req) (path req) in
  match r with
  | NoRoute => None
  | _ =>
      if authenticated r
      then
        match authMiddleware jwtVerify (authorization req) with
        | inl rejection => Some (rejection, db)
        | inr decoded => Some (handle r (Some decoded) req db)
        end
      else Some (handle r None req db)
  end.

End OrdersService.

(** ** Scenarios

    Concrete collaborators and requests on which the services are run. *)

Module Scenario.

Definition alice : Identity :=
  mkIdentity "u1" "alice@example.com" (Some ["user"]).

Definition root : Identity :=
  mkIdentity "u0" "root@example.com" (Some ["admin"]).

(** A verifier that knows two tokens. *)
Definition jwtVerify (token : string) : option Identity :=
  if bool_decide (token = "alice-token") then Some alice
  else if bool_decide (token = "root-token") then Some root
  else None.

Definition aliceProfile : gmap string JVal :=
  <["name" := JStr "Alice"]>
  (<["email" := JStr "alice@example.com"]> (<["id" := JStr "u1"]> ∅)).

Definition aliceOrders : list Gateway.Order :=
  [ Gateway.mkOrder "o1" "u1" "created" 200;
    Gateway.mkOrder "o2" "u1" "completed" 50;
    Gateway.mkOrder "o3" "u1" "created" 10 ].

(** A network on which both backends answer. *)
Definition netUp (call : Gateway.FireCall) : Reply Gateway.Payload :=
  match Gateway.fc_circuit call with
  | Users => Replied 200 (ok (Gateway.PObject aliceProfile))
  | Orders =>
      Replied 200
        (ok (Gateway.POrders
               (Gateway.mkOrdersData (Some aliceOrders)
                  (Some (Gateway.mkPagination (Some 1) (Some 10) (Some 3)
                           (Some 1))))))
  end.

(** The users backend answers, the orders backend is unreachable. *)
Definition netOrdersDown (call : Gateway.FireCall) : Reply Gateway.Payload :=
  match Gateway.fc_circuit call with
  | Users => Replied 200 (ok (Gateway.PObject aliceProfile))
  | Orders => Unreachable
  end.

(** No backend is reachable. *)
Definition netDown (call : Gateway.FireCall) : Reply Gateway.Payload :=
  Unreachable.

(** The users service refuses a registration whose email is taken:
    [res.status(409).json({ success: false, error: { code: 'USER_EXISTS', ... } })]. *)
Definition userExists : Reply Gateway.Payload :=
  Replied 409 (fail "USER_EXISTS" "User with this email already exists").

(** A network on which the users service answers every call that way. *)
Definition netConflict (call : Gateway.FireCall) : Reply Gateway.Payload :=
  userExists.



Definition externals (net : Gateway.FireCall → Reply Gateway.Payload)
    (clock : Z) : Gateway.Externals Gateway.Circuits :=
  Gateway.mkExternals jwtVerify (Gateway.breakerFire net clock).

(** The gateway just started. *)
Definition world0 : Gateway.World Gateway.Circuits :=
  Gateway.mkWorld
    (Gateway.mkCircuits (Breaker.initial 0) (Breaker.initial 0) [])
    [] ∅ ∅.

Definition detailsRequest (token userId : string) (t : Z) : Gateway.Request :=
  Gateway.mkRequest "GET" ["v1"; "users"; userId; "details"]
    (Some ("Bearer " ++ token)) None "req-1" None [] "10.0.0.7" t.

Definition registerRequest (t : Z) : Gateway.Request :=
  Gateway.mkRequest "POST" ["v1"; "users"; "register"] None None "req-2"
    (Some (Gateway.PObject aliceProfile)) [] "10.0.0.7" t.

(** The gateway run on a list of requests, each stamped with its
    arrival time. *)
Definition run (net : Gateway.FireCall → Reply Gateway.Payload)
    (reqs : list Gateway.Request) (w : Gateway.World Gateway.Circuits)
  : Gateway.World Gateway.Circuits :=
  foldl (λ w req,
           snd (Gateway.app (externals net (Gateway.now req))
                  Gateway.breakerState req w)) w reqs.

(** *** The users service *)

(** Alice as the users service stores her. *)
Definition storedAlice : gmap string JVal :=
  <["roles" := JStrs ["user"]]>
  (<["passwordHash" := JStr "hash:secret1"]> aliceProfile).

Definition usersDb1 : list (string * gmap string JVal) := [("u1", storedAlice)].

Definition readString (o : gmap string JVal) (k : string) : option string :=
  match o !! k with
  | Some (JStr v) => Some v
  | _ => None
  end.

Definition usersExternals : UsersService.Externals :=
  UsersService.mkExternals
    jwtVerify
    (λ _ _ _, "signed-token")
    (λ roles user,
       match user with
       | Some u =>
           if bool_decide (Exists (λ r, r ∈ default [] (user_roles u)) roles)
           then None
           else Some (403, mkError "FORBIDDEN" "Insufficient permissions")
       | None => Some (401, mkError "UNAUTHORIZED" "No token provided")
       end)
    (λ b,
       match readString b "email", readString b "password", readString b "name" with
       | Some e, Some pw, Some n =>
           inr (UsersService.mkRegisterValue e pw n None)
       | _, _, _ => inl "invalid registration"
       end)
    (λ b,
       match readString b "email", readString b "password" with
       | Some e, Some pw => inr (UsersService.mkLoginValue e pw)
       | _, _ => inl "invalid credentials"
       end)
    (λ b, if bool_decide (b = ∅) then inl "empty update" else inr b)
    (λ pw, "hash:" ++ pw)
    (λ pw h, bool_decide (h = "hash:" ++ pw)).

Definition usersRequest (m : string) (p : list string)
    (auth : option string) (b : gmap string JVal) : UsersService.Request :=
  UsersService.mkRequest m p auth b None None None "u9"
    "2024-01-01T00:00:00.000Z".

Definition loginBody : gmap string JVal :=
  <["password" := JStr "secret1"]>
  (<["email" := JStr "alice@example.com"]> ∅).

End Scenario.

(** ** Orders service: handlers *)

Module OrdersHandlers.

(** An order as [POST /v1/orders] builds it.  [I] is the type of the
    validated [items], [A] that of [totalAmount]. *)
Record Order (I A : Type) := mkOrder {
  o_id : string;
  o_userId : string;
  o_items : I;
  o_status : string;
  o_totalAmount : A;
  o_createdAt : string;
  o_updatedAt : string
}.
Arguments mkOrder {I A} _ _ _ _ _ _ _.
Arguments o_id {I A} _.
Arguments o_userId {I A} _.
Arguments o_items {I A} _.
Arguments o_status {I A} _.
Arguments o_totalAmount {I A} _.
Arguments o_createdAt {I A} _.
Arguments o_updatedAt {I A} _.

(** The [data] of the success envelopes of the four handlers below. *)
Inductive Payload (I A : Type) :=
  | POrder (order : Order I A)
  | PCancelled (note : string) (order : Order I A).
Arguments POrder {I A} _.
Arguments PCancelled {I A} _ _.

(** What the handlers read of a request besides the route and the
    credential: the JSON body, [req.id], the value [uuidv4()] returns
    and [new Date().toISOString()]. *)
Record Rest (B : Type) := mkRest {
  r_body : B;
  r_id : string;
  r_uuid : string;
  r_timestamp : string
}.
Arguments mkRest {B} _ _ _ _.
Arguments r_body {B} _.
Arguments r_id {B} _.
Arguments r_uuid {B} _.
Arguments r_timestamp {B} _.

(** What the handlers take from their libraries: the two validation
    schemas (an error message or the validated value), the sum
    [calculateTotal] computes in floating point, and [axios.get] towards
    the users service (a URL path and headers to a settlement whose
    value is [response.data]). *)
Record Externals (B I A U : Type) := mkExternals {
  validateCreate : B → string + I;
  validateUpdate : B → string + string;
  calculateTotal : I → A;
  axiosGet : string → list (string * string) → Settled (Envelope U)
}.
Arguments mkExternals {B I A U} _ _ _ _.
Arguments validateCreate {B I A U} _ _.
Arguments validateUpdate {B I A U} _ _.
Arguments calculateTotal {B I A U} _ _.
Arguments axiosGet {B I A U} _ _ _.

(** [ordersDb[orderId]] over the own properties of [ordersDb].  The
    members every object inherits from [Object.prototype] are not
    orders and are not found here; the theorems about order ids taken
    from a request are stated for ids that name none of them
    ([Js.inherited]). *)
Definition findOrderById {I A} (orderId : string)
    (db : list (string * Order I A)) : option (Order I A) :=
  snd <$> List.find (λ kv, bool_decide (fst kv = orderId)) db.

(** [ordersDb[id] = order]: an existing key keeps its place.  None of
    the handlers below enumerates the store, so the entries are kept in
    the order they were created. *)
Fixpoint put {I A} (id : string) (order : Order I A)
    (db : list (string * Order I A)) : list (string * Order I A) :=
  match db with
  | [] => [(id, order)]
  | (k, o) :: rest =>
      if bool_decide (k = id) then (k, order) :: rest
      else (k, o) :: put id order rest
  end.

(** [checkUserExists(userId, requestId)]: [response.data.success], or
    [false] when the call throws (a rejection, or a response without a
    body). *)
Definition checkUserExists {B I A U} (x : Externals B I A U)
    (userId requestId : string) : bool :=
  match axiosGet x ("/v1/users/" ++ userId) [("X-Request-ID", requestId)] with
  | Fulfilled (Some e) => success e
  | Fulfilled None => false
  | Rejected => false
  end.

(** [req.user.roles && req.user.roles.includes(role)] *)
Definition hasRole (role : string) (u : Identity) : bool :=
  match user_roles u with
  | Some rs => bool_decide (role ∈ rs)
  | None => false
  end.

Definition orderNotFound {I A} : Response (Envelope (Payload I A)) :=
  mkResponse 404 (fail "ORDER_NOT_FOUND" "Order not found").

(** [POST /v1/orders], past [authMiddleware] *)
Definition createOrder {B I A U} (x : Externals B I A U) (user : Identity)
    (rest : Rest B) (db : list (string * Order I A))
  : Response (Envelope (Payload I A)) * list (string * Order I A) :=
  match validateCreate x (r_body rest) with
  | inl msg => (mkResponse 400 (fail "VALIDATION_ERROR" msg), db)
  | inr items =>
      if negb (checkUserExists x (user_id user) (r_id rest))
      then (mkResponse 404 (fail "USER_NOT_FOUND" "User not found"), db)
      else
        let orderId := r_uuid rest in
        let newOrder :=
          mkOrder orderId (user_id user) items "created"
            (calculateTotal x items) (r_timestamp rest) (r_timestamp rest) in
        (mkResponse 201 (ok (POrder newOrder)), put orderId newOrder db)
  end.

(** [GET /v1/orders/:orderId], past [authMiddleware] *)
Definition getOrder {I A} (user : Identity) (orderId : string)
    (db : list (string * Order I A))
  : Response (Envelope (Payload I A)) * list (string * Order I A) :=
  match findOrderById orderId db with
  | None => (orderNotFound, db)
  | Some order =>
      let isOwner := bool_decide (o_userId order = user_id user) in
      let isAdmin := hasRole "admin" user in
      if negb isOwner && negb isAdmin
      then (mkResponse 403 (fail "FORBIDDEN" "Access denied to this order"), db)
      else (mkResponse 200 (ok (POrder order)), db)
  end.

(** [PUT /v1/orders/:orderId], past [authMiddleware] *)
Definition updateOrder {B I A U} (x : Externals B I A U) (user : Identity)
    (orderId : string) (rest : Rest B) (db : list (string * Order I A))
  : Response (Envelope (Payload I A)) * list (string * Order I A) :=
  match validateUpdate x (r_body rest) with
  | inl msg => (mkResponse 400 (fail "VALIDATION_ERROR" msg), db)
  | inr newStatus =>
      match findOrderById orderId db with
      | None => (orderNotFound, db)
      | Some order =>
          let isOwner := bool_decide (o_userId order = user_id user) in
          let isAdmin := hasRole "admin" user in
          let isManager := hasRole "manager" user in
          if negb isOwner && negb isAdmin && negb isManager
          then (mkResponse 403
                  (fail "FORBIDDEN" "Access denied to update this order"), db)
          else if isOwner && negb isAdmin && negb isManager
                  && negb (bool_decide (newStatus = "cancelled"))
          then (mkResponse 403
                  (fail "FORBIDDEN" "You can only cancel your orders"), db)
          else
            let updatedOrder :=
              mkOrder (o_id order) (o_userId order) (o_items order) newStatus
                (o_totalAmount order) (o_createdAt order) (r_timestamp rest) in
            (mkResponse 200 (ok (POrder updatedOrder)),
             put (o_id order) updatedOrder db)
      end
  end.

(** [DELETE /v1/orders/:orderId], past [authMiddleware] *)
Definition cancelOrder {B I A} (user : Identity) (orderId : string)
    (rest : Rest B) (db : list (string * Order I A))
  : Response (Envelope (Payload I A)) * list (string * Order I A) :=
  match findOrderById orderId db with
  | None => (orderNotFound, db)
  | Some order =>
      let isOwner := bool_decide (o_userId order = user_id user) in
      let isAdmin := hasRole "admin" user in
      if negb isOwner && negb isAdmin
      then (mkResponse 403
              (fail "FORBIDDEN" "Access denied to cancel this order"), db)
      else if bool_decide (o_status order = "completed")
      then (mkResponse 400
              (fail "INVALID_OPERATION" "Cannot cancel completed order"), db)
      else if bool_decide (o_status order = "cancelled")
      then (mkResponse 400
              (fail "INVALID_OPERATION" "Order already cancelled"), db)
      else
        let updatedOrder :=
          mkOrder (o_id order) (o_userId order) (o_items order) "cancelled"
            (o_totalAmount order) (o_createdAt order) (r_timestamp rest) in
        (mkResponse 200
           (ok (PCancelled "Order cancelled successfully" updatedOrder)),
         put (o_id order) updatedOrder db)
  end.

(** The store keys its orders by their [id]. *)
Definition keyed {I A} (db : list (string * Order I A)) : Prop :=
  ∀ k o, (k, o) ∈ db → o_id o = k.

(** The fields of an order no handler rewrites. *)
Definition sameIdentity {I A} (o o' : Order I A) : Prop :=
  o_id o' = o_id o ∧ o_userId o' = o_userId o ∧ o_items o' = o_items o
  ∧ o_totalAmount o' = o_totalAmount o ∧ o_createdAt o' = o_createdAt o.

End OrdersHandlers.

(** ** Requests between the services *)

Module Wire.

Import Stdlib.Strings.Ascii.

Definition space : ascii := " "%char.
Definition slash : ascii := "/"%char.
Definition question : ascii := "?"%char.
Definition hash : ascii := "#"%char.

(** The value of a header in a list of headers. *)
Definition header (name : string) (hs : list (string * string))
  : option string :=
  snd <$> List.find (λ kv, bool_decide (fst kv = name)) hs.

(** [s.split(sep)] for a one-character separator. *)
Fixpoint split (sep : Ascii.ascii) (s : string) : list string :=
  match s with
  | EmptyString => [EmptyString]
  | String c s' =>
      if Ascii.eqb c sep then EmptyString :: split sep s'
      else
        match split sep s' with
        | piece :: pieces => String c piece :: pieces
        | [] => [String c EmptyString]
        end
  end.

(** The path of a URL: what comes before the first [?] or [#]. *)
Fixpoint pathOf (url : string) : string :=
  match url with
  | EmptyString => EmptyString
  | String c rest =>
      if Ascii.eqb c question || Ascii.eqb c hash then EmptyString
      else String c (pathOf rest)
  end.

(** The segments of the path of a URL. *)
Definition segments (url : string) : list string :=
  filter (λ piece, piece ≠ "") (split slash (pathOf url)).

(** The characters a path segment can be pasted into a URL with and
    read back unchanged whatever the case rules of the router: the
    letters a to z, the digits, [-] and [_]. *)
Definition plainChar (c : ascii) : bool :=
  let n := N_of_ascii c in
  ((97 <=? n) && (n <=? 122) || (48 <=? n) && (n <=? 57)
   || (n =? 45) || (n =? 95))%N.

Fixpoint allChars (p : ascii → bool) (s : string) : bool :=
  match s with
  | EmptyString => true
  | String c rest => p c && allChars p rest
  end.

(** A non-empty segment of such characters, as the ids [uuidv4()]
    returns are. *)
Definition plain (s : string) : bool :=
  negb (bool_decide (s = "")) && allChars plainChar s.

(** No character of [s] is [c]. *)
Fixpoint free (c : Ascii.ascii) (s : string) : Prop :=
  match s with
  | EmptyString => True
  | String a s' => a ≠ c ∧ free c s'
  end.


(** The routes of the gateway registered with [verifyToken]. *)
Definition tokenRequired (r : Gateway.Route) : bool :=
  match r with
  | Gateway.ProfileGet | Gateway.ProfilePut | Gateway.UsersList
  | Gateway.UserById _ | Gateway.OrdersCreate | Gateway.OrdersList
  | Gateway.OrderGet _ | Gateway.OrderPut _ | Gateway.OrderDelete _
  | Gateway.UserDetails _ => true
  | _ => false
  end.



(** [authenticateToken] of the orders router: the token is the second
    piece of the header split on spaces. *)
Definition authenticateToken {B} (jwtVerify : string → option Identity)
    (authorization : option string) : Response (Envelope B) + Identity :=
  let token :=
    match truthy authorization with
    | Some authHeader => truthy (split space authHeader !! 1%nat)
    | None => None
    end in
  match token with
  | None => inl (mkResponse 401 (fail "UNAUTHORIZED" "No token provided"))
  | Some t =>
      match jwtVerify t with
      | Some decoded => inr decoded
      | None =>
          inl (mkResponse 401 (fail "INVALID_TOKEN" "Invalid or expired token"))
      end
  end.

(** How the status a backend sends with an envelope compares with the
    status the gateway's mapping gives that envelope: the same, or a
    creation (201) that the gateway turns into 200, or a refusal whose
    code and status are one of the pairs of [unmapped], which the
    gateway turns into 500. *)
Definition agrees {D} (unmapped : list (string * Z))
    (r : Response (Envelope D)) : Prop :=
  Forwarder.statusCode (body r) = status r
  ∨ (success (body r) = true ∧ status r = 201
     ∧ Forwarder.statusCode (body r) = 200)
  ∨ (success (body r) = false ∧ Forwarder.statusCode (body r) = 500
     ∧ ∃ c, errorCode (body r) = Some c ∧ (c, status r) ∈ unmapped).

(** The users service as [axios.get] reaches it from the orders
    service: a [GET] of the path with the given headers on the store
    [db].  [validateStatus] is the option of that name of [axios]: a
    response whose status it refuses is a rejection.  A path no route
    matches gets the framework's 404 page, which has no envelope. *)
Definition usersOverHttp (validateStatus : Z → bool)
    (x : UsersService.Externals) (db : list (string * gmap string JVal))
    (url : string) (headers : list (string * string))
  : Settled (Envelope UsersService.Payload) :=
  let req :=
    UsersService.mkRequest "GET" (segments url) (header "Authorization" headers)
      ∅ None None None "" "" in
  match UsersService.app x req db with
  | Some (r, _) =>
      if validateStatus (status r) then Fulfilled (Some (body r)) else Rejected
  | None => if validateStatus 404 then Fulfilled None else Rejected
  end.

End Wire.

(** ** The users store *)

Module UsersStore.

(** The keys of [usersDb]. *)
Definition keys (db : list (string * gmap string JVal)) : list string :=
  fst <$> db.



(** What [updateProfileSchema] guarantees of a validated value: its
    only properties are [name] and [email], and [email] is a non-empty
    string. *)
Definition updateSchema (value : gmap string JVal) : Prop :=
  (∀ k, is_Some (value !! k) → k = "name" ∨ k = "email")
  ∧ (∀ j, value !! "email" = Some j → ∃ e, j = JStr e ∧ e ≠ "").

(** The user object [POST /v1/users/register] stores for a validated
    [value]. *)
Definition newUser (x : UsersService.Externals) (req : UsersService.Request)
    (value : UsersService.RegisterValue) : gmap string JVal :=
  <["updatedAt" := JStr (UsersService.timestamp req)]>
  (<["createdAt" := JStr (UsersService.timestamp req)]>
  (<["roles" := JStrs (default ["user"] (UsersService.reg_roles value))]>
  (<["name" := JStr (UsersService.reg_name value)]>
  (<["passwordHash" :=
       JStr (UsersService.bcryptHash x (UsersService.reg_password value))]>
  (<["email" := JStr (UsersService.reg_email value)]>
  (<["id" := JStr (UsersService.uuid req)]> ∅)))))).

(** The users [GET /v1/users] pages through: all of them, or those that
    have the role asked for; [None] when the filter throws. *)
Definition selected (req : UsersService.Request)
    (db : list (string * gmap string JVal)) : option (list (gmap string JVal)) :=
  match truthy (UsersService.query_role req) with
  | Some role => UsersService.filterByRole role (snd <$> db)
  | None => Some (snd <$> db)
  end.

End UsersStore.

(** ** Further scenarios *)

Module Fixtures.

Definition bobBody : gmap string JVal :=
  <["name" := JStr "Bob"]>
  (<["password" := JStr "hunter22"]>
  (<["email" := JStr "bob@example.com"]> ∅)).

Definition bobValue : UsersService.RegisterValue :=
  UsersService.mkRegisterValue "bob@example.com" "hunter22" "Bob" None.

Definition registerBob : UsersService.Request :=
  Scenario.usersRequest "POST" ["v1"; "users"; "register"] None bobBody.

Definition loginBob (password : string) : UsersService.Request :=
  Scenario.usersRequest "POST" ["v1"; "users"; "login"] None
    (<["password" := JStr password]>
     (<["email" := JStr "bob@example.com"]> ∅)).

Definition loginNobody : UsersService.Request :=
  Scenario.usersRequest "POST" ["v1"; "users"; "login"] None
    (<["password" := JStr "whatever"]>
     (<["email" := JStr "nobody@example.com"]> ∅)).

(** A validator for profile updates that keeps [name] and [email] only
    and refuses an empty email. *)
Definition validateUpdate (b : gmap string JVal) : string + gmap string JVal :=
  match Scenario.readString b "name", Scenario.readString b "email" with
  | None, None => inl "at least one of name, email is required"
  | Some n, None => inr {["name" := JStr n]}
  | n, Some e =>
      if bool_decide (e = "") then inl "email must be a valid email"
      else
        inr (match n with
             | Some n => <["name" := JStr n]> {["email" := JStr e]}
             | None => {["email" := JStr e]}
             end)
  end.

Definition usersExternals : UsersService.Externals :=
  UsersService.mkExternals
    (UsersService.jwtVerify Scenario.usersExternals)
    (UsersService.jwtSign Scenario.usersExternals)
    (UsersService.requireRole Scenario.usersExternals)
    (UsersService.validateRegister Scenario.usersExternals)
    (UsersService.validateLogin Scenario.usersExternals)
    validateUpdate
    (UsersService.bcryptHash Scenario.usersExternals)
    (UsersService.bcryptCompare Scenario.usersExternals).

Definition renameAlice : UsersService.Request :=
  Scenario.usersRequest "PUT" ["v1"; "users"; "profile"]
    (Some "Bearer alice-token")
    (<["roles" := JStrs ["admin"]]> (<["name" := JStr "Alice B."]> ∅)).

End Fixtures.

(** ** The orders store *)

Module OrdersStore.

(** The order a success payload carries. *)
Definition orderOf {I A} (p : OrdersHandlers.Payload I A)
  : OrdersHandlers.Order I A :=
  match p with
  | OrdersHandlers.POrder o => o
  | OrdersHandlers.PCancelled _ o => o
  end.

(** A request to one of the four order routes, past [authMiddleware]. *)
Inductive Call :=
  | Create
  | Read (orderId : string)
  | Update (orderId : string)
  | Cancel (orderId : string).

(** The handler of each route. *)
Definition handle {B I A U} (x : OrdersHandlers.Externals B I A U)
    (c : Call) (user : Identity) (rest : OrdersHandlers.Rest B)
    (db : list (string * OrdersHandlers.Order I A))
  : Response (Envelope (OrdersHandlers.Payload I A))
    * list (string * OrdersHandlers.Order I A) :=
  match c with
  | Create => OrdersHandlers.createOrder x user rest db
  | Read orderId => OrdersHandlers.getOrder user orderId db
  | Update orderId => OrdersHandlers.updateOrder x user orderId rest db
  | Cancel orderId => OrdersHandlers.cancelOrder user orderId rest db
  end.

End OrdersStore.

(** ** Scenarios for the orders service *)

Module OrderFixtures.

(** The status check [axios] applies by default. *)
Definition validateStatus (s : Z) : bool := (200 <=? s) && (s <? 300).

(** Bodies are raw strings, items are counted, amounts are integers;
    user lookups go to the users service on [Scenario.usersDb1]. *)
Definition externals
  : OrdersHandlers.Externals string nat Z UsersService.Payload :=
  OrdersHandlers.mkExternals
    (λ b, if bool_decide (b = "") then inl "items is required"
          else inr (String.length b))
    (λ b, if bool_decide (b ∈ ["created"; "in_progress"; "completed"; "cancelled"])
          then inr b else inl "status must be one of the known statuses")
    (λ n, 100 * Z.of_nat n)
    (Wire.usersOverHttp validateStatus Scenario.usersExternals Scenario.usersDb1).

Definition rest (b : string) : OrdersHandlers.Rest string :=
  OrdersHandlers.mkRest b "req-7" "o9" "2024-02-02T00:00:00.000Z".

Definition order (id owner status : string) : OrdersHandlers.Order nat Z :=
  OrdersHandlers.mkOrder id owner 2%nat status 200 "2024-01-01T00:00:00.000Z"
    "2024-01-01T00:00:00.000Z".

Definition ordersDb1 : list (string * OrdersHandlers.Order nat Z) :=
  [("o1", order "o1" "u1" "created");
   ("o2", order "o2" "u1" "completed");
   ("o3", order "o3" "u5" "in_progress")].

Definition manager : Identity :=
  mkIdentity "u3" "mia@example.com" (Some ["manager"]).

End OrderFixtures.

(** * Properties *)

(** Case analysis on the tests of a route table. *)
Ltac split_route :=
  repeat (match goal with
          | |- context [Express.matches ?l ?s] =>
              destruct (Express.matches l s) eqn:?
          | |- context [bool_decide ?P] => destruct (bool_decide P) eqn:?
          end; simpl in *).

(** ** The gateway application *)

Lemma app_eq C (x : Gateway.Externals C) cs req w :
  Gateway.app x cs req w =
    if Gateway.underV1 (Gateway.path req)
    then
      match RateLimiter.check Gateway.limiter (Gateway.now req) (Gateway.ip req)
              (Gateway.limiterHits w) with
      | (h, RateLimiter.Deny) =>
          (RateLimiter.denied Gateway.limiter, Gateway.setLimiterHits h w)
      | (h, RateLimiter.Allow) =>
          Gateway.dispatch x cs req (Gateway.setLimiterHits h w)
      end
    else Gateway.dispatch x cs req w.
Proof. reflexivity. Qed.

Lemma route_HEAD p : Gateway.route "HEAD" p = Gateway.NotFound.
Proof.
  unfold Gateway.route.
  destruct p as [|a [|b [|c [|d [|? ?]]]]]; simpl; try done;
    repeat (match goal with
            | |- context [Express.matches ?l ?s] =>
                destruct (Express.matches l s)
            end; simpl); done.
Qed.

(** A request that one of the registered routes serves under its own
    method is looked up under that method. *)
Lemma routed_verb m p :
  Gateway.route m p ≠ Gateway.NotFound → Gateway.routingVerb m = m.
Proof.
  intros Hr. unfold Gateway.routingVerb. case_bool_decide as Hm; [|done].
  subst m. by rewrite route_HEAD in Hr.
Qed.

Lemma dispatch_routed C (x : Gateway.Externals C) cs req w :
  Gateway.route (Gateway.method req) (Gateway.path req) ≠ Gateway.NotFound →
  Gateway.dispatch x cs req w
  = Gateway.dispatchAs (Gateway.method req) x cs req w.
Proof. intros Hr. unfold Gateway.dispatch. by rewrite (routed_verb _ _ Hr). Qed.

(** ** Codes and credentials *)

Lemma is_code_true x lit : is_code x lit = true ↔ x = Some lit.
Proof.
  destruct x as [c|]; simpl; [|split; discriminate].
  rewrite bool_decide_eq_true. split; congruence.
Qed.

Lemma is_code_false x lit : x ≠ Some lit → is_code x lit = false.
Proof.
  intros Hne. destruct (is_code x lit) eqn:E; [|done].
  apply is_code_true in E. done.
Qed.

Lemma errorCode_fail D (c m : string) : errorCode (@fail D c m) = Some c.
Proof. reflexivity. Qed.

(** ** The status mapping *)

Lemma statusCode_success D (e : Envelope D) :
  success e = true → Forwarder.statusCode e = 200.
Proof. unfold Forwarder.statusCode. by intros ->. Qed.

Lemma statusCode_unmapped D (e : Envelope D) :
  success e = false →
  ¬ Forwarder.code_in Forwarder.mappedCodes e →
  Forwarder.statusCode e = 500.
Proof.
  intros Hs Hno. unfold Forwarder.statusCode. rewrite Hs.
  assert (Hc : ∀ c, c ∈ Forwarder.mappedCodes → is_code (errorCode e) c = false).
  { intros c Hin. apply is_code_false. intros Heq. apply Hno. by exists c. }
  rewrite !Hc; [done | unfold Forwarder.mappedCodes; rewrite !elem_of_cons; tauto ..].
Qed.

Lemma mapped_in_table (c : string) :
  c ∈ Forwarder.mappedCodes → c ∈ Forwarder.tableCodes.
Proof.
  unfold Forwarder.mappedCodes, Forwarder.tableCodes.
  rewrite !elem_of_cons. naive_solver.
Qed.

Lemma statusCode_range D (e : Envelope D) :
  Forwarder.statusCode e ∈ [200; 400; 401; 403; 404; 409; 500].
Proof.
  unfold Forwarder.statusCode.
  repeat match goal with
         | |- context [if ?b then _ else _] => destruct b
         end; rewrite !elem_of_cons; tauto.
Qed.

(** C3.  The status mapping is a total function of the envelope: every
    envelope gets one of seven statuses; a successful envelope gets 200;
    a failed one with code VALIDATION_ERROR gets 400; a failed one whose
    code is in no row of the table (whether the rows are those the
    conditional chain tests or those of the specification's table, and
    also when the envelope has no code at all) gets 500. *)
Theorem statusCode_total_deterministic D (e : Envelope D) :
  Forwarder.statusCode e ∈ [200; 400; 401; 403; 404; 409; 500]
  ∧ (success e = true → Forwarder.statusCode e = 200)
  ∧ (success e = false → errorCode e = Some "VALIDATION_ERROR" →
     Forwarder.statusCode e = 400)
  ∧ (success e = false → ¬ Forwarder.code_in Forwarder.mappedCodes e →
     Forwarder.statusCode e = 500)
  ∧ (success e = false → ¬ Forwarder.code_in Forwarder.tableCodes e →
     Forwarder.statusCode e = 500).
Proof.
  split; [apply statusCode_range|].
  split; [apply statusCode_success|].
  split.
  { intros Hs Hc. unfold Forwarder.statusCode. rewrite Hs, Hc. reflexivity. }
  split; [apply statusCode_unmapped|].
  intros Hs Hno. apply statusCode_unmapped; [done|].
  intros (c & Hc & Hin). apply Hno. exists c. split; [done|].
  by apply mapped_in_table.
Qed.

Lemma statusCode_total_deterministic_witness :
  Forwarder.statusCode (ok (D:=unit) tt) = 200
  ∧ Forwarder.statusCode (fail (D:=unit) "VALIDATION_ERROR" "email is required") = 400
  ∧ Forwarder.statusCode (fail (D:=unit) "INVALID_OPERATION" "Order already cancelled") = 500
  ∧ Forwarder.statusCode (mkEnvelope (D:=unit) false None None) = 500.
Proof.
  split; [apply (statusCode_total_deterministic unit (ok tt)); reflexivity|].
  split.
  { apply (statusCode_total_deterministic unit
             (fail "VALIDATION_ERROR" "email is required")); reflexivity. }
  split.
  { apply (statusCode_total_deterministic unit
             (fail "INVALID_OPERATION" "Order already cancelled"));
      [reflexivity|].
    intros (c & Hc & Hin). injection Hc as <-.
    apply list_elem_of_In in Hin. simpl in Hin.
    repeat destruct Hin as [Hin|Hin]; done. }
  apply (statusCode_total_deterministic unit (mkEnvelope false None None));
    [reflexivity|].
  intros (c & Hc & _). discriminate Hc.
Defined.

(** An unreachable users backend, seen from a client with a valid
    token: the breaker answers with its fallback and the gateway sends
    it with status 500. *)
Example forward_unreachable_backend :
  fst (Gateway.app (Scenario.externals Scenario.netDown 1000)
         Gateway.breakerState
         (Gateway.mkRequest "GET" ["v1"; "users"; "profile"]
            (Some "Bearer alice-token") None "req-3" None [] "10.0.0.7" 1000)
         Scenario.world0)
  = mkResponse 500 (fallback Users).
Proof. vm_compute. reflexivity. Qed.

(** C2.  The fallback envelope of either circuit, code
    SERVICE_UNAVAILABLE, goes through the status mapping to 500: the
    conditional chain has no case for that code.  Only the [catch]
    branch of the forwarder pairs the code with 503. *)
Theorem fallback_status_is_500 D (s : Service) :
  errorCode (fallback (D:=D) s) = Some "SERVICE_UNAVAILABLE"
  ∧ Forwarder.respond (fallback (D:=D) s) = mkResponse 500 (fallback s)
  ∧ status (Forwarder.forwardCatch (D:=D)) = 503
  ∧ errorCode (body (Forwarder.forwardCatch (D:=D))) = Some "SERVICE_UNAVAILABLE".
Proof. destruct s; repeat split. Qed.

(** ** Circuit breaker *)

Lemma validateStatus_spec st :
  validateStatus st = true ↔ 200 ≤ st < 300.
Proof. unfold validateStatus. rewrite andb_true_iff. lia. Qed.

Lemma roll_state cfg now b :
  Breaker.state (Breaker.roll cfg now b) = Breaker.state b.
Proof. unfold Breaker.roll. by destruct (_ && _). Qed.

Lemma enter_closed cfg now b :
  Breaker.state b = Breaker.Closed →
  Breaker.enter cfg now b = (b, Breaker.Pass, []).
Proof. unfold Breaker.enter. by intros ->. Qed.

Lemma tally_failureCount k b :
  Breaker.failureCount (Breaker.tally k b)
  = Breaker.failureCount b + Breaker.failures k.
Proof.
  unfold Breaker.failureCount, Breaker.tally. simpl.
  destruct (Breaker.window b); simpl; lia.
Qed.

Lemma tally_successCount k b :
  Breaker.successCount (Breaker.tally k b)
  = Breaker.successCount b + Breaker.successes k.
Proof.
  unfold Breaker.successCount, Breaker.tally. simpl.
  destruct (Breaker.window b); simpl; lia.
Qed.

Lemma recordSuccess_closed cfg now b :
  Breaker.state b = Breaker.Closed →
  Breaker.recordSuccess cfg now b =
    (Breaker.tally (Breaker.mkBucket 1 0) (Breaker.roll cfg now b),
     [Breaker.EvSuccess]).
Proof.
  intros Hst. unfold Breaker.recordSuccess.
  assert (Breaker.state (Breaker.tally (Breaker.mkBucket 1 0)
                           (Breaker.roll cfg now b)) = Breaker.Closed) as ->
    by (simpl; by rewrite roll_state).
  done.
Qed.

Lemma recordFailure_closed cfg now ev b :
  Breaker.state b = Breaker.Closed →
  Breaker.recordFailure cfg now ev b =
    let c := Breaker.tally (Breaker.mkBucket 0 1) (Breaker.roll cfg now b) in
    if Breaker.tripped cfg c
    then (Breaker.opened now c, [ev; Breaker.EvOpen])
    else (c, [ev]).
Proof.
  intros Hst. unfold Breaker.recordFailure.
  assert (Breaker.state (Breaker.tally (Breaker.mkBucket 0 1)
                           (Breaker.roll cfg now b)) = Breaker.Closed) as ->
    by (simpl; by rewrite roll_state).
  done.
Qed.

Lemma fire_closed D cfg (fb : Envelope D) now b ax :
  Breaker.state b = Breaker.Closed →
  Breaker.fire cfg fb now b ax =
    let '(b2, v, evs) := Breaker.complete cfg fb now b (Breaker.action ax) in
    Breaker.mkFired b2 v evs true.
Proof.
  intros Hst. unfold Breaker.fire. rewrite enter_closed by done.
  by destruct (Breaker.complete _ _ _ _ _) as [[? ?] ?].
Qed.

(** A breaker through its cycle: a call that cannot reach the backend
    opens it, the next call is answered by the fallback without reaching
    the network, and after [resetTimeout] a trial that completes closes
    it again. *)
Example breaker_cycle :
  let e : Envelope unit := ok tt in
  let fb : Envelope unit := fallback Users in
  let f1 := Breaker.fire Breaker.circuitOptions fb 10 (Breaker.initial 0)
              (axios Unreachable) in
  let f2 := Breaker.fire Breaker.circuitOptions fb 20 (Breaker.breaker f1)
              (axios (Replied 200 e)) in
  let f3 := Breaker.fire Breaker.circuitOptions fb 30010 (Breaker.breaker f2)
              (axios (Replied 200 e)) in
  (Breaker.state (Breaker.breaker f1), Breaker.value f1, Breaker.events f1)
  = (Breaker.Open, fb, [Breaker.EvFailure; Breaker.EvOpen])
  ∧ (Breaker.state (Breaker.breaker f2), Breaker.value f2, Breaker.attempted f2)
    = (Breaker.Open, fb, false)
  ∧ (Breaker.state (Breaker.breaker f3), Breaker.value f3, Breaker.events f3)
    = (Breaker.Closed, e,
       [Breaker.EvHalfOpen; Breaker.EvSuccess; Breaker.EvClose]).
Proof. vm_compute. repeat split. Qed.

(** The window rolls bucket by bucket: with buckets of one second, a
    failure recorded at 500 ms is still counted at 9 999 ms and has left
    the window at 10 000 ms, while the success recorded at 1 500 ms
    stays until 11 000 ms. *)
Example window_rolls_by_bucket :
  let cfg := Breaker.mkConfig 5000 50 30000 10000 10 5 in
  let fb : Envelope unit := fallback Users in
  let f1 := Breaker.fire cfg fb 500 (Breaker.initial 0) (axios Unreachable) in
  let f2 := Breaker.fire cfg fb 1500 (Breaker.breaker f1)
              (axios (Replied 200 (ok tt))) in
  let at_ t := Breaker.roll cfg t (Breaker.breaker f2) in
  (Breaker.successCount (at_ 9999), Breaker.failureCount (at_ 9999)) = (1, 1)
  ∧ (Breaker.successCount (at_ 10000), Breaker.failureCount (at_ 10000)) = (1, 0)
  ∧ (Breaker.successCount (at_ 10999), Breaker.failureCount (at_ 10999)) = (1, 0)
  ∧ (Breaker.successCount (at_ 11000), Breaker.failureCount (at_ 11000)) = (0, 0).
Proof. vm_compute. repeat split. Qed.

(** A registration whose email is taken, sent through the gateway just
    started: the users service answers 409 [USER_EXISTS], the client of
    the gateway gets the fallback of the users circuit with status 500,
    and the users circuit is open. *)
Example duplicate_registration_opens_users_circuit :
  let r := Gateway.app (Scenario.externals Scenario.netConflict 1000)
             Gateway.breakerState (Scenario.registerRequest 1000)
             Scenario.world0 in
  fst r = mkResponse 500 (fallback Users)
  ∧ Gateway.breakerState Users (Gateway.circuits (snd r)) = "OPEN"
  ∧ Gateway.breakerState Orders (Gateway.circuits (snd r)) = "CLOSED".
Proof. vm_compute. repeat split. Qed.

(** C1.  What a closed breaker does with a reply of the backend.  The
    circuit action leaves the status check of [axios] at its default, so
    the envelope alone does not decide: a reply whose status is between
    200 and 299 is a breaker-level success whatever its envelope says
    (the caller gets the envelope, the breaker stays closed, no failure
    is counted), and a reply with any other status - the backends send
    every envelope whose [success] is false with a status from 400 up -
    makes the action throw: the breaker records a failure, the caller
    gets the fallback in place of the envelope, the failure count of the
    window goes up by one, and the breaker opens when the window trips.
    So a business failure is counted as a breaker failure. *)
Theorem refused_status_is_breaker_failure D cfg (fb : Envelope D) now b
    (st : Z) (e : Envelope D) :
  Breaker.state b = Breaker.Closed →
  let f := Breaker.fire cfg fb now b (axios (Replied st e)) in
  let c := Breaker.tally (Breaker.mkBucket 0 1) (Breaker.roll cfg now b) in
  Breaker.attempted f = true
  ∧ (200 ≤ st < 300 →
       Breaker.value f = e
       ∧ Breaker.state (Breaker.breaker f) = Breaker.Closed
       ∧ Breaker.events f = [Breaker.EvSuccess]
       ∧ Breaker.failureCount (Breaker.breaker f)
         = Breaker.failureCount (Breaker.roll cfg now b))
  ∧ (¬ 200 ≤ st < 300 →
       Breaker.value f = fb
       ∧ Breaker.failureCount (Breaker.breaker f)
         = Breaker.failureCount (Breaker.roll cfg now b) + 1
       ∧ (∃ evs, Breaker.events f = Breaker.EvFailure :: evs)
       ∧ Breaker.state (Breaker.breaker f)
         = (if Breaker.tripped cfg c then Breaker.Open else Breaker.Closed)).
Proof.
  intros Hst f c. subst f c.
  rewrite fire_closed by done. unfold axios.
  destruct (validateStatus st) eqn:Hv.
  - apply validateStatus_spec in Hv.
    cbn [Breaker.action Breaker.complete].
    rewrite recordSuccess_closed by done.
    cbn [Breaker.attempted Breaker.value Breaker.breaker Breaker.events].
    split; [done|]. split; [|intros Hn; by destruct Hn].
    intros _. split; [done|]. split; [|split; [done|]].
    + cbn [Breaker.tally Breaker.state]. by rewrite roll_state.
    + rewrite tally_failureCount. cbn [Breaker.failures]. lia.
  - assert (Hn : ¬ 200 ≤ st < 300).
    { intros H%validateStatus_spec. congruence. }
    cbn [Breaker.action Breaker.complete].
    rewrite recordFailure_closed by done. cbv zeta.
    pose proof (tally_failureCount (Breaker.mkBucket 0 1)
                  (Breaker.roll cfg now b)) as Hf.
    cbn [Breaker.failures] in Hf.
    destruct (Breaker.tripped cfg _) eqn:Ht;
      cbn [Breaker.attempted Breaker.value Breaker.breaker Breaker.events];
      (split; [done|]); (split; [intros H; by destruct Hn|]);
      intros _; (split; [done|]); (split; [|split; [by eexists|]]).
    + exact Hf.
    + done.
    + exact Hf.
    + cbn [Breaker.tally Breaker.state]. by rewrite roll_state.
Qed.

Lemma refused_status_is_breaker_failure_witness :
  let e : Envelope unit := fail "USER_EXISTS" "User with this email already exists" in
  let f := Breaker.fire Breaker.circuitOptions (fallback Users) 1000
             (Breaker.initial 0) (axios (Replied 409 e)) in
  Breaker.value f = fallback Users
  ∧ Breaker.failureCount (Breaker.breaker f) = 1
  ∧ Breaker.state (Breaker.breaker f) = Breaker.Open.
Proof.
  intros e f.
  destruct (refused_status_is_breaker_failure unit Breaker.circuitOptions
              (fallback Users) 1000 (Breaker.initial 0) 409 e)
    as (_ & _ & Hrefused); [reflexivity|].
  destruct Hrefused as (Hv & Hf & _ & Hs); [lia|].
  split; [exact Hv|]. split; [exact Hf|]. exact Hs.
Defined.

(** ** The status histogram *)












(** ** The aggregator *)

Lemma compose_user_failed (userResult ordersResult : Settled Gateway.Body) :
  Gateway.lookupFailed userResult = true →
  Gateway.compose userResult ordersResult
  = mkResponse 404 (fail "USER_NOT_FOUND" "User not found").
Proof. unfold Gateway.compose. by intros ->. Qed.

Lemma compose_orders_failed (userResult ordersResult : Settled Gateway.Body) :
  Gateway.lookupFailed userResult = false →
  Gateway.lookupFailed ordersResult = true →
  Gateway.compose userResult ordersResult
  = mkResponse 200
      (ok (Gateway.PDetails (Gateway.dataOf userResult) []
             (Gateway.mkSummary 0 ∅))).
Proof. unfold Gateway.compose. by intros -> ->. Qed.


Lemma userDetails_allowed C (x : Gateway.Externals C) userId user req w :
  Gateway.accessDenied user userId = false →
  fst (Gateway.userDetails x userId user req w)
  = Gateway.compose
      (fst (Gateway.fire x (Gateway.userLookup userId req) (Gateway.circuits w)))
      (fst (Gateway.fire x (Gateway.ordersLookup userId req)
              (snd (Gateway.fire x (Gateway.userLookup userId req)
                      (Gateway.circuits w))))).
Proof.
  intros Hok. unfold Gateway.userDetails, Gateway.doFire. rewrite Hok.
  destruct (Gateway.fire x (Gateway.userLookup userId req) _) as [ur c1].
  simpl.
  by destruct (Gateway.fire x (Gateway.ordersLookup userId req) c1) as [or c2].
Qed.

Lemma accessDenied_true user userId :
  user_id user ≠ userId →
  (∀ rs, user_roles user = Some rs → "admin" ∉ rs) →
  Gateway.accessDenied user userId = true.
Proof.
  intros Hid Hroles. unfold Gateway.accessDenied, Gateway.includesAdmin.
  rewrite bool_decide_eq_true_2 by done. simpl.
  destruct (user_roles user) as [rs|]; [|done].
  by rewrite bool_decide_eq_false_2 by by apply Hroles.
Qed.

Lemma route_details_underV1 m p userId :
  Gateway.route m p = Gateway.UserDetails userId → Gateway.underV1 p = true.
Proof.
  unfold Gateway.route, Gateway.underV1.
  destruct p as [|a [|b [|c [|d [|? ?]]]]]; split_route; try discriminate; done.
Qed.

Lemma dispatch_details_denied C (x : Gateway.Externals C) cs req w userId user :
  Gateway.route (Gateway.method req) (Gateway.path req)
  = Gateway.UserDetails userId →
  Gateway.verifyToken x req = inr user →
  Gateway.accessDenied user userId = true →
  Gateway.dispatch x cs req w
  = (mkResponse 403 (fail "FORBIDDEN" "Access denied"), w).
Proof.
  intros Hr Hv Hd. rewrite dispatch_routed by (by rewrite Hr).
  unfold Gateway.dispatchAs, Gateway.userDetails.
  by rewrite Hr, Hv, Hd.
Qed.

(** C4.  On [GET /v1/users/:userId/details], a caller whose verified
    identity is not [userId] and whose roles, if any, do not include
    admin is answered 403 FORBIDDEN once the general limiter has let the
    request through; whatever the limiter decides, [circuit.fire] is not
    called and the state of the circuits is left as it was. *)
Theorem details_forbidden_without_backend_call C (x : Gateway.Externals C)
    (circuitState : Service → C → string) req w userId user :
  Gateway.route (Gateway.method req) (Gateway.path req)
  = Gateway.UserDetails userId →
  Gateway.verifyToken x req = inr user →
  user_id user ≠ userId →
  (∀ rs, user_roles user = Some rs → "admin" ∉ rs) →
  let r := Gateway.app x circuitState req w in
  Gateway.fired (snd r) = Gateway.fired w
  ∧ Gateway.circuits (snd r) = Gateway.circuits w
  ∧ (snd (RateLimiter.check Gateway.limiter (Gateway.now req) (Gateway.ip req)
            (Gateway.limiterHits w)) = RateLimiter.Allow →
     status (fst r) = 403
     ∧ body (fst r) = fail "FORBIDDEN" "Access denied").
Proof.
  intros Hr Hv Hid Hroles r. subst r.
  pose proof (accessDenied_true _ _ Hid Hroles) as Hd.
  rewrite app_eq. rewrite (route_details_underV1 _ _ _ Hr).
  destruct (RateLimiter.check _ _ _ _) as [h [|]]; simpl.
  - rewrite (dispatch_details_denied _ _ _ _ _ _ _ Hr Hv Hd). simpl. done.
  - repeat split; done.
Qed.

Lemma details_forbidden_without_backend_call_witness :
  let req := Scenario.detailsRequest "alice-token" "u2" 1000 in
  let r := Gateway.app (Scenario.externals Scenario.netUp 1000)
             Gateway.breakerState req Scenario.world0 in
  status (fst r) = 403
  ∧ errorCode (body (fst r)) = Some "FORBIDDEN"
  ∧ Gateway.fired (snd r) = []
  ∧ Gateway.transport (Gateway.circuits (snd r)) = [].
Proof.
  intros req r.
  destruct (details_forbidden_without_backend_call Gateway.Circuits
              (Scenario.externals Scenario.netUp 1000) Gateway.breakerState
              req Scenario.world0 "u2" Scenario.alice)
    as (Hf & Hc & Hs).
  - reflexivity.
  - reflexivity.
  - discriminate.
  - intros rs [= <-]. rewrite list_elem_of_singleton. discriminate.
  - destruct Hs as [Hst Hb]; [reflexivity|].
    fold r in Hf, Hc, Hst, Hb.
    split; [exact Hst|]. split; [by rewrite Hb|].
    split; [exact Hf|]. by rewrite Hc.
Defined.

(** C5.  When the caller may see the user and the user lookup is
    rejected, resolves with nothing, or resolves with an envelope whose
    [success] is false, the aggregator answers 404 USER_NOT_FOUND; the
    answer is the same for every settlement of the orders lookup. *)
Theorem user_lookup_failure_is_404 C (x : Gateway.Externals C) userId user
    req w :
  Gateway.accessDenied user userId = false →
  Gateway.lookupFailed
    (fst (Gateway.fire x (Gateway.userLookup userId req) (Gateway.circuits w)))
  = true →
  fst (Gateway.userDetails x userId user req w)
  = mkResponse 404 (fail "USER_NOT_FOUND" "User not found")
  ∧ ∀ ordersResult : Settled Gateway.Body,
      Gateway.compose
        (fst (Gateway.fire x (Gateway.userLookup userId req)
                (Gateway.circuits w)))
        ordersResult
      = mkResponse 404 (fail "USER_NOT_FOUND" "User not found").
Proof.
  intros Hok Hfail. split.
  - rewrite userDetails_allowed by done. by apply compose_user_failed.
  - intros ordersResult. by apply compose_user_failed.
Qed.

Lemma user_lookup_failure_is_404_witness :
  let req := Scenario.detailsRequest "alice-token" "u1" 1000 in
  fst (Gateway.userDetails (Scenario.externals Scenario.netDown 1000) "u1"
         Scenario.alice req Scenario.world0)
  = mkResponse 404 (fail "USER_NOT_FOUND" "User not found").
Proof.
  intros req.
  apply (user_lookup_failure_is_404 Gateway.Circuits
           (Scenario.externals Scenario.netDown 1000) "u1" Scenario.alice req
           Scenario.world0); reflexivity.
Defined.

(** C6.  When the caller may see the user, the user lookup resolves with
    a successful envelope and the orders lookup is rejected, resolves
    with nothing, or resolves with an envelope whose [success] is false,
    the aggregator answers 200 with the user's data, an empty list of
    orders, a total of 0 and an empty histogram. *)
Theorem orders_lookup_failure_degrades C (x : Gateway.Externals C) userId
    user req w :
  Gateway.accessDenied user userId = false →
  Gateway.lookupFailed
    (fst (Gateway.fire x (Gateway.userLookup userId req) (Gateway.circuits w)))
  = false →
  Gateway.lookupFailed
    (fst (Gateway.fire x (Gateway.ordersLookup userId req)
            (snd (Gateway.fire x (Gateway.userLookup userId req)
                    (Gateway.circuits w)))))
  = true →
  fst (Gateway.userDetails x userId user req w)
  = mkResponse 200
      (ok (Gateway.PDetails
             (Gateway.dataOf
                (fst (Gateway.fire x (Gateway.userLookup userId req)
                        (Gateway.circuits w))))
             []
             (Gateway.mkSummary 0 ∅))).
Proof.
  intros Hok Hu Ho. rewrite userDetails_allowed by done.
  by apply compose_orders_failed.
Qed.

Lemma orders_lookup_failure_degrades_witness :
  let req := Scenario.detailsRequest "alice-token" "u1" 1000 in
  fst (Gateway.userDetails (Scenario.externals Scenario.netOrdersDown 1000)
         "u1" Scenario.alice req Scenario.world0)
  = mkResponse 200
      (ok (Gateway.PDetails (Some (Gateway.PObject Scenario.aliceProfile)) []
             (Gateway.mkSummary 0 ∅))).
Proof.
  intros req.
  apply (orders_lookup_failure_degrades Gateway.Circuits
           (Scenario.externals Scenario.netOrdersDown 1000) "u1"
           Scenario.alice req Scenario.world0); reflexivity.
Defined.





(** ** The rate limiters *)

Lemma check_full B (o : RateLimiter.Options B) now key
    (hits : gmap string RateLimiter.Entry) e :
  hits !! key = Some e →
  RateLimiter.max o ≤ RateLimiter.count e →
  now < RateLimiter.windowStart e + RateLimiter.windowMs o →
  RateLimiter.check o now key hits = (<[key := e]> hits, RateLimiter.Deny).
Proof.
  intros Hk Hmax Hwin. unfold RateLimiter.check, RateLimiter.current.
  rewrite Hk.
  destruct (Z.leb_spec (RateLimiter.windowStart e + RateLimiter.windowMs o) now);
    [lia|].
  by destruct (Z.leb_spec (RateLimiter.max o) (RateLimiter.count e)); [|lia].
Qed.

Lemma check_counts B (o : RateLimiter.Options B) now key
    (hits hits' : gmap string RateLimiter.Entry) :
  RateLimiter.check o now key hits = (hits', RateLimiter.Allow) →
  RateLimiter.count <$> hits' !! key
  = Some (RateLimiter.count (RateLimiter.current o now key hits) + 1).
Proof.
  unfold RateLimiter.check. destruct (_ <=? _); [discriminate|].
  intros [= <-]. by rewrite lookup_insert_eq.
Qed.

Lemma denied_envelope B (o : RateLimiter.Options B) :
  status (RateLimiter.denied o) = 429
  ∧ body (RateLimiter.denied o) = RateLimiter.message o.
Proof. done. Qed.

Lemma strictLimited_target r :
  Gateway.strictLimited r = true →
  (r = Gateway.Register ∧ Gateway.target r = Some (Users, "/v1/users/register"))
  ∨ (r = Gateway.Login ∧ Gateway.target r = Some (Users, "/v1/users/login")).
Proof. destruct r; try discriminate; intros _; [left|right]; done. Qed.

Lemma dispatch_strict_denied C (x : Gateway.Externals C) cs req w e :
  Gateway.strictLimited (Gateway.route (Gateway.method req) (Gateway.path req))
  = true →
  Gateway.authLimiterHits w !! Gateway.ip req = Some e →
  5 ≤ RateLimiter.count e →
  Gateway.now req
  < RateLimiter.windowStart e + RateLimiter.windowMs Gateway.authLimiter →
  Gateway.dispatch x cs req w
  = (RateLimiter.denied Gateway.authLimiter,
     Gateway.setAuthLimiterHits
       (<[Gateway.ip req := e]> (Gateway.authLimiterHits w)) w).
Proof.
  intros Hr Hk Hc Hwin.
  rewrite dispatch_routed
    by (intros Hn; rewrite Hn in Hr; discriminate Hr).
  unfold Gateway.dispatchAs.
  destruct (strictLimited_target _ Hr) as [[Hroute Ht]|[Hroute Ht]];
    rewrite Hroute in *; rewrite Ht; simpl Gateway.strictLimited; cbv iota;
    by rewrite (check_full _ Gateway.authLimiter _ _ _ e Hk Hc Hwin).
Qed.

(** The strict limiter over one client: five requests pass, the sixth
    is denied, and a request after the window has rolled over passes
    again. *)
Example strict_window :
  let step (acc : gmap string RateLimiter.Entry * list RateLimiter.Verdict)
           (t : Z) :=
    let '(h, v) := RateLimiter.check Gateway.authLimiter t "10.0.0.7" (fst acc) in
    (h, (snd acc ++ [v])%list) in
  snd (foldl step (∅, []) [0; 1; 2; 3; 4; 5; 899999; 900000])
  = [RateLimiter.Allow; RateLimiter.Allow; RateLimiter.Allow;
     RateLimiter.Allow; RateLimiter.Allow; RateLimiter.Deny;
     RateLimiter.Deny; RateLimiter.Allow].
Proof. vm_compute. reflexivity. Qed.

(** C8.  Once the strict limiter has counted five requests of a client
    in the current window, the next request of that client to the
    registration or login path within the window is answered 429 with
    code RATE_LIMIT_EXCEEDED, [circuit.fire] is not called and the state
    of the circuits is left as it was.  When the general limiter lets
    the request through, the body is the strict limiter's message and
    the count stays where it was. *)
Theorem sixth_strict_request_denied C (x : Gateway.Externals C)
    (circuitState : Service → C → string) req w e :
  Gateway.strictLimited (Gateway.route (Gateway.method req) (Gateway.path req))
  = true →
  Gateway.authLimiterHits w !! Gateway.ip req = Some e →
  5 ≤ RateLimiter.count e →
  Gateway.now req
  < RateLimiter.windowStart e + RateLimiter.windowMs Gateway.authLimiter →
  let r := Gateway.app x circuitState req w in
  status (fst r) = 429
  ∧ success (body (fst r)) = false
  ∧ errorCode (body (fst r)) = Some "RATE_LIMIT_EXCEEDED"
  ∧ Gateway.fired (snd r) = Gateway.fired w
  ∧ Gateway.circuits (snd r) = Gateway.circuits w
  ∧ (snd (RateLimiter.check Gateway.limiter (Gateway.now req) (Gateway.ip req)
            (Gateway.limiterHits w)) = RateLimiter.Allow →
     body (fst r) = RateLimiter.message Gateway.authLimiter
     ∧ Gateway.authLimiterHits (snd r) !! Gateway.ip req = Some e).
Proof.
  intros Hr Hk Hc Hwin r. subst r. rewrite app_eq.
  destruct (Gateway.underV1 _).
  - destruct (RateLimiter.check Gateway.limiter _ _ _) as [h [|]] eqn:Hg; simpl.
    + rewrite (dispatch_strict_denied _ x circuitState req
                 (Gateway.setLimiterHits h w) e Hr Hk Hc Hwin).
      simpl. repeat split; try done. by rewrite lookup_insert_eq.
    + repeat split; done.
  - rewrite (dispatch_strict_denied _ x circuitState req w e Hr Hk Hc Hwin).
    simpl. repeat split; try done. by rewrite lookup_insert_eq.
Qed.

Lemma sixth_strict_request_denied_witness :
  let five :=
    Scenario.run Scenario.netUp
      (Scenario.registerRequest <$> [0; 1000; 2000; 3000; 899000])
      Scenario.world0 in
  let r := Gateway.app (Scenario.externals Scenario.netUp 899999)
             Gateway.breakerState (Scenario.registerRequest 899999) five in
  length (Gateway.fired five) = 5%nat
  ∧ status (fst r) = 429
  ∧ errorCode (body (fst r)) = Some "RATE_LIMIT_EXCEEDED"
  ∧ length (Gateway.fired (snd r)) = 5%nat.
Proof.
  intros five r.
  assert (H5 : length (Gateway.fired five) = 5%nat) by (vm_compute; reflexivity).
  destruct (sixth_strict_request_denied Gateway.Circuits
              (Scenario.externals Scenario.netUp 899999) Gateway.breakerState
              (Scenario.registerRequest 899999) five (RateLimiter.mkEntry 5 0))
    as (Hs & _ & Hc & Hf & _).
  - reflexivity.
  - vm_compute; reflexivity.
  - simpl; lia.
  - vm_compute; reflexivity.
  - fold r in Hs, Hc, Hf.
    split; [exact H5|]. split; [exact Hs|]. split; [exact Hc|].
    by rewrite Hf.
Defined.

(** ** Credentials at the backends *)

Lemma startsWith_split s p :
  startsWith s p = true → s = p ++ substringFrom (String.length p) s.
Proof.
  revert s. induction p as [|a p IH]; intros s; [done|].
  destruct s as [|b s]; [discriminate|]. simpl.
  intros [Hab Hp]%andb_prop. apply Ascii.eqb_eq in Hab as ->.
  change (String b s = String b (p ++ substringFrom (String.length p) s)).
  f_equal. by apply IH.
Qed.

Lemma truthy_Some h v : truthy h = Some v → h = Some v.
Proof.
  unfold truthy. destruct h as [s|]; [|discriminate].
  by case_bool_decide; [discriminate|].
Qed.

Lemma authMiddleware_accepts B jwtVerify authorization decoded :
  authMiddleware (B:=B) jwtVerify authorization = inr decoded →
  validBearer jwtVerify authorization.
Proof.
  unfold authMiddleware.
  destruct (truthy authorization) as [h|] eqn:Ht; [|discriminate].
  destruct (startsWith h "Bearer ") eqn:Hp; [|discriminate].
  destruct (jwtVerify (substringFrom 7 h)) as [d|] eqn:Hv; [|discriminate].
  intros _. exists (substringFrom 7 h), d. split; [|done].
  apply truthy_Some in Ht as ->. f_equal.
  by apply (startsWith_split h "Bearer ").
Qed.

Lemma authMiddleware_rejects B jwtVerify authorization :
  ¬ validBearer jwtVerify authorization →
  ∃ r : Response (Envelope B),
    authMiddleware jwtVerify authorization = inl r
    ∧ status r = 401 ∧ success (body r) = false ∧ data (body r) = None
    ∧ (errorCode (body r) = Some "UNAUTHORIZED"
       ∨ errorCode (body r) = Some "INVALID_TOKEN").
Proof.
  intros Hno.
  destruct (authMiddleware (B:=B) jwtVerify authorization) as [r|d] eqn:Ha.
  - exists r. split; [done|]. unfold authMiddleware in Ha.
    destruct (truthy authorization) as [h|].
    + destruct (startsWith h "Bearer ").
      * destruct (jwtVerify _); [discriminate|].
        injection Ha as <-. simpl. auto.
      * injection Ha as <-. simpl. auto.
    + injection Ha as <-. simpl. auto.
  - destruct Hno. by eapply authMiddleware_accepts.
Qed.

Lemma users_app_rejects x req db :
  UsersService.AuthMiddleware_first
    (UsersService.middleware
       (UsersService.route (UsersService.method req) (UsersService.path req))) →
  ¬ validBearer (UsersService.jwtVerify x) (UsersService.authorization req) →
  ∃ r, UsersService.app x req db = Some (r, db)
       ∧ status r = 401 ∧ success (body r) = false ∧ data (body r) = None.
Proof.
  intros Hfirst Hno. unfold UsersService.app.
  destruct (authMiddleware_rejects UsersService.Payload _ _ Hno)
    as (r & Hr & Hst & Hs & Hd & _).
  exists r.
  destruct (UsersService.route _ _) eqn:Hroute; simpl in Hfirst; try done;
    simpl; by rewrite Hr.
Qed.

Lemma orders_app_rejects R P S (jwtVerify : string → option Identity)
    (handle : OrdersService.Route → option Identity → OrdersService.Request R →
              S → Response (Envelope P) * S)
    (req : OrdersService.Request R) (db : S) :
  OrdersService.listedProtected
    (OrdersService.route (OrdersService.method req) (OrdersService.path req))
  = true →
  ¬ validBearer jwtVerify (OrdersService.authorization req) →
  ∃ r, OrdersService.app jwtVerify handle req db = Some (r, db)
       ∧ status r = 401 ∧ success (body r) = false.
Proof.
  intros Hp Hno. unfold OrdersService.app.
  destruct (authMiddleware_rejects P _ _ Hno) as (r & Hr & Hst & Hs & _).
  exists r.
  destruct (OrdersService.route _ _); try discriminate; simpl; by rewrite Hr.
Qed.

(** C7, as stated, fails on the users service: [GET /v1/users/u1]
    without any [Authorization] header is not rejected; the service
    answers 200 with the user. *)
Lemma user_by_id_served_without_token :
  let req := Scenario.usersRequest "GET" ["v1"; "users"; "u1"] None ∅ in
  UsersService.listedProtected
    (UsersService.route (UsersService.method req) (UsersService.path req))
  = true
  ∧ ¬ validBearer (UsersService.jwtVerify Scenario.usersExternals)
        (UsersService.authorization req)
  ∧ UsersService.app Scenario.usersExternals req Scenario.usersDb1
    = Some (mkResponse 200
              (ok (UsersService.PUser
                     (UsersService.sanitizeUser Scenario.storedAlice))),
            Scenario.usersDb1)
  ∧ ¬ ∃ r db', UsersService.app Scenario.usersExternals req Scenario.usersDb1
               = Some (r, db') ∧ status r = 401.
Proof.
  intros req. split; [reflexivity|]. split.
  { intros (token & decoded & Habs & _). discriminate Habs. }
  assert (Happ : UsersService.app Scenario.usersExternals req Scenario.usersDb1
    = Some (mkResponse 200
              (ok (UsersService.PUser
                     (UsersService.sanitizeUser Scenario.storedAlice))),
            Scenario.usersDb1)) by (vm_compute; reflexivity).
  split; [exact Happ|].
  intros (r & db' & Hr & Hst). rewrite Happ in Hr.
  injection Hr as <- _. discriminate Hst.
Qed.

(** C7, amended.  Every route on which a backend registers
    [authMiddleware] rejects a request without a valid bearer token
    with 401 and leaves its store untouched: on the users service these
    are [GET/PUT /v1/users/profile] and [GET /v1/users], that is the
    listed routes other than [GET /v1/users/:userId]; on the orders
    service all the listed routes.  [GET /v1/users/:userId] runs no
    middleware: its answer is that of the lookup, whatever the
    credential. *)
Theorem backends_verify_credentials_where_registered :
  (∀ x req db,
     UsersService.listedProtected
       (UsersService.route (UsersService.method req) (UsersService.path req))
     = true →
     (∀ userId,
        UsersService.route (UsersService.method req) (UsersService.path req)
        ≠ UsersService.UserById userId) →
     ¬ validBearer (UsersService.jwtVerify x) (UsersService.authorization req) →
     ∃ r, UsersService.app x req db = Some (r, db)
          ∧ status r = 401 ∧ success (body r) = false)
  ∧ (∀ R P S (jwtVerify : string → option Identity)
       (handle : OrdersService.Route → option Identity →
                 OrdersService.Request R → S → Response (Envelope P) * S)
       (req : OrdersService.Request R) (db : S),
       OrdersService.listedProtected
         (OrdersService.route (OrdersService.method req)
            (OrdersService.path req))
       = true →
       ¬ validBearer jwtVerify (OrdersService.authorization req) →
       ∃ r, OrdersService.app jwtVerify handle req db = Some (r, db)
            ∧ status r = 401 ∧ success (body r) = false)
  ∧ (∀ x req db userId,
       UsersService.route (UsersService.method req) (UsersService.path req)
       = UsersService.UserById userId →
       UsersService.app x req db
       = Some (UsersService.getUserById userId db)).
Proof.
  split; [|split].
  - intros x req db Hp Hne Hno.
    destruct (users_app_rejects x req db) as (r & Hr & Hst & Hs & _);
      [|done|by exists r].
    destruct (UsersService.route _ _) eqn:Hroute; try discriminate; try done.
    by destruct (Hne userId).
  - intros. by apply orders_app_rejects.
  - intros x req db userId Hroute. unfold UsersService.app.
    by rewrite Hroute.
Qed.

Lemma backends_verify_credentials_where_registered_witness :
  (∃ r, UsersService.app Scenario.usersExternals
          (Scenario.usersRequest "GET" ["v1"; "users"; "profile"]
             (Some "Bearer forged") ∅)
          Scenario.usersDb1
        = Some (r, Scenario.usersDb1)
        ∧ status r = 401 ∧ success (body r) = false)
  ∧ (∃ r, OrdersService.app (R:=unit) (P:=unit) Scenario.jwtVerify
            (λ _ _ _ db, (mkResponse 200 (ok tt), db))
            (OrdersService.mkRequest "DELETE" ["v1"; "orders"; "o1"] None tt)
            (@nil unit)
          = Some (r, [])
          ∧ status r = 401 ∧ success (body r) = false)
  ∧ UsersService.app Scenario.usersExternals
      (Scenario.usersRequest "GET" ["v1"; "users"; "u7"] None ∅)
      Scenario.usersDb1
    = Some (UsersService.getUserById "u7" Scenario.usersDb1).
Proof.
  destruct backends_verify_credentials_where_registered as (Hu & Ho & Hid).
  split; [|split].
  - apply Hu; [reflexivity|discriminate|].
    intros (token & decoded & Ha & Hv).
    simpl in Ha. injection Ha as Ht.
    change (("" ++ token)%string) with token in Ht. subst token.
    vm_compute in Hv. discriminate Hv.
  - apply Ho; [reflexivity|].
    intros (token & decoded & Ha & _). discriminate Ha.
  - apply Hid. reflexivity.
Defined.

(** ** Sanitised users *)

Lemma sanitizeUser_no_hash (u : gmap string JVal) :
  UsersService.sanitizeUser u !! "passwordHash" = None.
Proof. apply lookup_delete_eq. Qed.

Lemma sanitizeUser_keeps (u : gmap string JVal) k :
  k ≠ "passwordHash" → UsersService.sanitizeUser u !! k = u !! k.
Proof. intros Hk. unfold UsersService.sanitizeUser. by rewrite lookup_delete_ne. Qed.

Lemma hashFree_fail st c m : UsersService.hashFree (mkResponse st (fail c m)).
Proof. intros u Hin. by apply elem_of_nil in Hin. Qed.

Lemma hashFree_user st (u : gmap string JVal) :
  UsersService.hashFree (mkResponse st (ok (UsersService.PUser (UsersService.sanitizeUser u)))).
Proof.
  intros v Hin. apply list_elem_of_singleton in Hin as ->.
  apply sanitizeUser_no_hash.
Qed.

Lemma register_hashFree x req db : UsersService.hashFree (fst (UsersService.register x req db)).
Proof.
  unfold UsersService.register.
  destruct (UsersService.validateRegister x _) as [msg|value];
    [apply hashFree_fail|].
  destruct (UsersService.findUserByEmail _ db); [apply hashFree_fail|].
  intros u Hin. apply list_elem_of_singleton in Hin as ->.
  by rewrite !lookup_insert_ne, lookup_empty.
Qed.

Lemma login_hashFree x req db : UsersService.hashFree (fst (UsersService.login x req db)).
Proof.
  unfold UsersService.login.
  destruct (UsersService.validateLogin x _) as [msg|value];
    [apply hashFree_fail|].
  destruct (UsersService.findUserByEmail _ db) as [user|];
    [|apply hashFree_fail].
  destruct (user !! "passwordHash") as [[hash| |]|]; try apply hashFree_fail.
  destruct (UsersService.bcryptCompare x _ hash); [|apply hashFree_fail].
  intros u Hin. apply list_elem_of_singleton in Hin as ->.
  apply sanitizeUser_no_hash.
Qed.

Lemma getProfile_hashFree user db :
  UsersService.hashFree (fst (UsersService.getProfile user db)).
Proof.
  unfold UsersService.getProfile.
  destruct (UsersService.findUserById _ db);
    [apply hashFree_user|apply hashFree_fail].
Qed.

Lemma updateProfile_hashFree x user req db :
  UsersService.hashFree (fst (UsersService.updateProfile x user req db)).
Proof.
  unfold UsersService.updateProfile.
  destruct (UsersService.validateUpdate x _) as [msg|value];
    [apply hashFree_fail|].
  destruct (UsersService.findUserById _ db) as [u|]; [|apply hashFree_fail].
  destruct (match UsersService.emailChanges value u with
            | Some e => _ | None => _ end);
    [apply hashFree_fail|apply hashFree_user].
Qed.

Lemma listUsers_hashFree req db :
  UsersService.hashFree (fst (UsersService.listUsers req db)).
Proof.
  unfold UsersService.listUsers.
  destruct (match truthy (UsersService.query_role req) with
            | Some role => _ | None => _ end) as [users|];
    [|apply hashFree_fail].
  intros u Hin. unfold UsersService.carried in Hin. simpl in Hin.
  apply list_elem_of_fmap in Hin as (v & -> & _).
  apply sanitizeUser_no_hash.
Qed.

Lemma getUserById_hashFree userId db :
  UsersService.hashFree (fst (UsersService.getUserById userId db)).
Proof.
  unfold UsersService.getUserById.
  destruct (UsersService.findUserById _ db);
    [apply hashFree_user|apply hashFree_fail].
Qed.

Lemma runMiddleware_rejection_hashFree x req ms user r :
  UsersService.runMiddleware x req ms user = inl r → UsersService.hashFree r.
Proof.
  revert user. induction ms as [|m ms IH]; intros user; [discriminate|].
  destruct m as [|roles]; simpl.
  - unfold authMiddleware.
    destruct (truthy _) as [h|].
    + destruct (startsWith h "Bearer ").
      * destruct (UsersService.jwtVerify x _); [apply IH|].
        intros [= <-]. apply hashFree_fail.
      * intros [= <-]. apply hashFree_fail.
    + intros [= <-]. apply hashFree_fail.
  - destruct (UsersService.requireRole x roles user) as [[st err]|];
      [|apply IH].
    intros [= <-] u Hin. by apply elem_of_nil in Hin.
Qed.

Lemma handler_hashFree x r user req db resp db' :
  UsersService.handler x r user req db = Some (resp, db') →
  UsersService.hashFree resp.
Proof.
  destruct r, user; simpl; intros H; try discriminate H;
    apply (inj Some) in H; apply (f_equal fst) in H; simpl in H; subst resp.
  all: first [ apply register_hashFree | apply login_hashFree
             | apply getProfile_hashFree | apply updateProfile_hashFree
             | apply listUsers_hashFree | apply getUserById_hashFree
             | apply hashFree_fail
             | (intros v Hv; by apply elem_of_nil in Hv) ].
Qed.

Lemma app_hashFree x req db r db' :
  UsersService.app x req db = Some (r, db') → UsersService.hashFree r.
Proof.
  unfold UsersService.app.
  destruct (UsersService.runMiddleware x req _ None) as [rej|user] eqn:Hm.
  - destruct (UsersService.route _ _); [| | | | | | |discriminate];
      intros [= <- <-]; by eapply runMiddleware_rejection_hashFree.
  - destruct (UsersService.route _ _); [| | | | | | |discriminate];
      apply handler_hashFree.
Qed.

(** C10.  No user object in any response body of the users service has
    a [passwordHash] property: not those of login, of the profile read
    and update, of the users list and of the lookup by id (which pass the
    stored user through [sanitizeUser]), nor that of registration. *)
Theorem responses_carry_no_passwordHash x req db r db' p u :
  UsersService.app x req db = Some (r, db') →
  data (body r) = Some p →
  u ∈ UsersService.usersOf p →
  u !! "passwordHash" = None.
Proof.
  intros Happ Hdata Hin.
  apply (app_hashFree _ _ _ _ _ Happ).
  unfold UsersService.carried. by rewrite Hdata.
Qed.

Lemma responses_carry_no_passwordHash_witness :
  let req := Scenario.usersRequest "POST" ["v1"; "users"; "login"] None
               Scenario.loginBody in
  Scenario.storedAlice !! "passwordHash" = Some (JStr "hash:secret1")
  ∧ UsersService.app Scenario.usersExternals req Scenario.usersDb1
    = Some (mkResponse 200
              (ok (UsersService.PLogin "signed-token"
                     (UsersService.sanitizeUser Scenario.storedAlice))),
            Scenario.usersDb1)
  ∧ UsersService.sanitizeUser Scenario.storedAlice !! "passwordHash" = None.
Proof.
  intros req.
  assert (Happ : UsersService.app Scenario.usersExternals req Scenario.usersDb1
    = Some (mkResponse 200
              (ok (UsersService.PLogin "signed-token"
                     (UsersService.sanitizeUser Scenario.storedAlice))),
            Scenario.usersDb1)) by (vm_compute; reflexivity).
  split; [vm_compute; reflexivity|]. split; [exact Happ|].
  apply (responses_carry_no_passwordHash Scenario.usersExternals req
           Scenario.usersDb1 _ _ _ _ Happ eq_refl).
  simpl. apply list_elem_of_singleton. reflexivity.
Defined.


(** * Further properties *)

(** ** The gateway's token check and its forwarded calls *)

Lemma verifyToken_is_authMiddleware C (x : Gateway.Externals C) req :
  Gateway.verifyToken x req
  = authMiddleware (Gateway.jwtVerify x) (Gateway.authorization req).
Proof. reflexivity. Qed.

Lemma tokenRequired_underV1 m p :
  Wire.tokenRequired (Gateway.route m p) = true → Gateway.underV1 p = true.
Proof.
  unfold Gateway.route, Gateway.underV1.
  destruct p as [|a [|b [|c [|d [|? ?]]]]]; split_route; try discriminate; done.
Qed.

Lemma dispatch_token_rejected C (x : Gateway.Externals C) cs req w rej :
  Wire.tokenRequired (Gateway.route (Gateway.method req) (Gateway.path req))
  = true →
  Gateway.verifyToken x req = inl rej →
  Gateway.dispatch x cs req w = (rej, w).
Proof.
  intros Hr Hv.
  rewrite dispatch_routed by (intros Hn; rewrite Hn in Hr; discriminate Hr).
  unfold Gateway.dispatchAs.
  destruct (Gateway.route _ _); try discriminate Hr; simpl; by rewrite Hv.
Qed.

(** X1.  On every gateway route registered with [verifyToken], a request
    without a valid bearer token makes no call of [circuit.fire] and
    leaves the circuits as they were; once the general limiter has let
    it through, it is answered 401 with code UNAUTHORIZED or
    INVALID_TOKEN. *)
Theorem gateway_rejects_without_token C (x : Gateway.Externals C)
    (circuitState : Service → C → string) req w :
  Wire.tokenRequired (Gateway.route (Gateway.method req) (Gateway.path req))
  = true →
  ¬ validBearer (Gateway.jwtVerify x) (Gateway.authorization req) →
  let r := Gateway.app x circuitState req w in
  Gateway.fired (snd r) = Gateway.fired w
  ∧ Gateway.circuits (snd r) = Gateway.circuits w
  ∧ Gateway.authLimiterHits (snd r) = Gateway.authLimiterHits w
  ∧ (snd (RateLimiter.check Gateway.limiter (Gateway.now req) (Gateway.ip req)
            (Gateway.limiterHits w)) = RateLimiter.Allow →
     status (fst r) = 401 ∧ success (body (fst r)) = false
     ∧ (errorCode (body (fst r)) = Some "UNAUTHORIZED"
        ∨ errorCode (body (fst r)) = Some "INVALID_TOKEN")).
Proof.
  intros Hr Hno r. subst r.
  destruct (authMiddleware_rejects Gateway.Payload _ _ Hno)
    as (rej & Hrej & Hst & Hs & _ & Hc).
  rewrite <-verifyToken_is_authMiddleware in Hrej.
  rewrite app_eq. rewrite (tokenRequired_underV1 _ _ Hr).
  destruct (RateLimiter.check _ _ _ _) as [h [|]]; simpl.
  - rewrite (dispatch_token_rejected _ _ _ _ _ _ Hr Hrej). simpl. done.
  - repeat split; done.
Qed.

Lemma gateway_rejects_without_token_witness :
  let req :=
    Gateway.mkRequest "DELETE" ["v1"; "orders"; "o1"] (Some "Bearer expired")
      None "req-4" None [] "10.0.0.7" 1000 in
  let r := Gateway.app (Scenario.externals Scenario.netUp 1000)
             Gateway.breakerState req Scenario.world0 in
  status (fst r) = 401 ∧ Gateway.fired (snd r) = [].
Proof.
  intros req r.
  destruct (gateway_rejects_without_token Gateway.Circuits
              (Scenario.externals Scenario.netUp 1000) Gateway.breakerState
              req Scenario.world0) as (Hf & _ & _ & Hs).
  - reflexivity.
  - intros (token & decoded & Ha & Hv).
    simpl in Ha. injection Ha as Ht.
    change (("" ++ token)%string) with token in Ht. subst token.
    vm_compute in Hv. discriminate Hv.
  - destruct Hs as (Hst & _); [reflexivity|].
    split; [exact Hst|exact Hf].
Defined.

Lemma doFire_world C (x : Gateway.Externals C) call w :
  Gateway.fired (snd (Gateway.doFire x call w)) = (Gateway.fired w ++ [call])%list
  ∧ Gateway.limiterHits (snd (Gateway.doFire x call w)) = Gateway.limiterHits w
  ∧ Gateway.authLimiterHits (snd (Gateway.doFire x call w))
    = Gateway.authLimiterHits w
  ∧ fst (Gateway.doFire x call w) = fst (Gateway.fire x call (Gateway.circuits w))
  ∧ Gateway.circuits (snd (Gateway.doFire x call w))
    = snd (Gateway.fire x call (Gateway.circuits w)).
Proof.
  unfold Gateway.doFire. by destruct (Gateway.fire x call _) as [r c].
Qed.

(** The one call [forwardRequest] makes, and what it answers. *)
Lemma forwardRequest_call C (x : Gateway.Externals C) circuit url req w :
  ∃ call,
    Gateway.fired (snd (Gateway.forwardRequest x circuit url req w))
    = (Gateway.fired w ++ [call])%list
    ∧ Gateway.fc_circuit call = circuit
    ∧ Gateway.fc_url call = url
    ∧ Gateway.fo_method (Gateway.fc_options call) = Gateway.method req
    ∧ Gateway.fo_params (Gateway.fc_options call) = Gateway.query req
    ∧ Wire.header "X-Request-ID" (Gateway.fo_headers (Gateway.fc_options call))
      = Some (Gateway.req_id req)
    ∧ Wire.header "Authorization" (Gateway.fo_headers (Gateway.fc_options call))
      = truthy (Gateway.authorization req)
    ∧ (Gateway.method req = "GET" ∨ Gateway.method req = "HEAD" →
       Gateway.fo_data (Gateway.fc_options call) = None)
    ∧ (Gateway.method req ≠ "GET" → Gateway.method req ≠ "HEAD" →
       Gateway.fo_data (Gateway.fc_options call) = Gateway.req_body req)
    ∧ Gateway.limiterHits (snd (Gateway.forwardRequest x circuit url req w))
      = Gateway.limiterHits w
    ∧ Gateway.authLimiterHits (snd (Gateway.forwardRequest x circuit url req w))
      = Gateway.authLimiterHits w
    ∧ (∀ e, fst (Gateway.fire x call (Gateway.circuits w)) = Fulfilled (Some e) →
            fst (Gateway.forwardRequest x circuit url req w)
            = mkResponse (Forwarder.statusCode e) e)
    ∧ (fst (Gateway.fire x call (Gateway.circuits w)) = Rejected
       ∨ fst (Gateway.fire x call (Gateway.circuits w)) = Fulfilled None →
       fst (Gateway.forwardRequest x circuit url req w)
       = mkResponse 503
           (fail "SERVICE_UNAVAILABLE" "Service temporarily unavailable")).
Proof.
  set (opts :=
    Gateway.mkFireOptions (Gateway.method req)
      ([("X-Request-ID", Gateway.req_id req);
        ("Content-Type", "application/json")]
       ++ match truthy (Gateway.authorization req) with
          | Some a => [("Authorization", a)]
          | None => []
          end)%list
      (if bool_decide (Gateway.method req ≠ "GET")
          && bool_decide (Gateway.method req ≠ "HEAD")
       then Gateway.req_body req else None)
      (Gateway.query req)).
  exists (Gateway.mkFireCall circuit url opts).
  destruct (doFire_world C x (Gateway.mkFireCall circuit url opts) w)
    as (Hf & Hl & Ha & Hfst & _).
  unfold Gateway.forwardRequest. fold opts.
  rewrite <-Hfst.
  destruct (Gateway.doFire x (Gateway.mkFireCall circuit url opts) w)
    as [[[e|]|] w']; simpl in *;
    (split; [exact Hf|]); (split; [done|]); (split; [done|]);
    (split; [done|]); (split; [done|]); (split; [done|]);
    (split; [unfold Wire.header; simpl;
             by destruct (truthy (Gateway.authorization req))|]);
    (split; [intros [->| ->]; reflexivity|]);
    (split; [intros H1 H2; by rewrite !bool_decide_eq_true_2 by done|]);
    (split; [exact Hl|]); (split; [exact Ha|]);
    (split; [intros e' He; by simplify_eq|]);
    intros [He|He]; by simplify_eq.
Qed.

(** X2.  [forwardRequest] makes exactly one call of [circuit.fire], on
    the circuit and URL it was given, with the inbound method and query,
    the request id as [X-Request-ID] and a body only when the method is
    neither GET nor HEAD; it leaves the limiters alone.  An envelope the
    call resolves with is sent back unchanged under the status of the
    mapping; a rejection, or a call resolving with nothing, is answered
    503 SERVICE_UNAVAILABLE. *)
Theorem forwardRequest_relays C (x : Gateway.Externals C) circuit url req w :
  ∃ call,
    Gateway.fired (snd (Gateway.forwardRequest x circuit url req w))
    = (Gateway.fired w ++ [call])%list
    ∧ Gateway.fc_circuit call = circuit
    ∧ Gateway.fc_url call = url
    ∧ Gateway.fo_method (Gateway.fc_options call) = Gateway.method req
    ∧ Gateway.fo_params (Gateway.fc_options call) = Gateway.query req
    ∧ Wire.header "X-Request-ID" (Gateway.fo_headers (Gateway.fc_options call))
      = Some (Gateway.req_id req)
    ∧ Wire.header "Authorization" (Gateway.fo_headers (Gateway.fc_options call))
      = truthy (Gateway.authorization req)
    ∧ (Gateway.method req = "GET" ∨ Gateway.method req = "HEAD" →
       Gateway.fo_data (Gateway.fc_options call) = None)
    ∧ (Gateway.method req ≠ "GET" → Gateway.method req ≠ "HEAD" →
       Gateway.fo_data (Gateway.fc_options call) = Gateway.req_body req)
    ∧ Gateway.limiterHits (snd (Gateway.forwardRequest x circuit url req w))
      = Gateway.limiterHits w
    ∧ Gateway.authLimiterHits (snd (Gateway.forwardRequest x circuit url req w))
      = Gateway.authLimiterHits w
    ∧ (∀ e, fst (Gateway.fire x call (Gateway.circuits w)) = Fulfilled (Some e) →
            fst (Gateway.forwardRequest x circuit url req w)
            = mkResponse (Forwarder.statusCode e) e)
    ∧ (fst (Gateway.fire x call (Gateway.circuits w)) = Rejected
       ∨ fst (Gateway.fire x call (Gateway.circuits w)) = Fulfilled None →
       fst (Gateway.forwardRequest x circuit url req w)
       = mkResponse 503
           (fail "SERVICE_UNAVAILABLE" "Service temporarily unavailable")).
Proof. exact (forwardRequest_call C x circuit url req w). Qed.

Lemma forwardRequest_relays_witness :
  let req :=
    Gateway.mkRequest "GET" ["v1"; "users"; "profile"]
      (Some "Bearer alice-token") None "req-8"
      (Some (Gateway.PObject Scenario.aliceProfile)) [] "10.0.0.7" 1000 in
  ∃ call,
    Gateway.fired
      (snd (Gateway.forwardRequest (Scenario.externals Scenario.netUp 1000)
              Users "/v1/users/profile" req Scenario.world0))
    = [call]
    ∧ Gateway.fo_data (Gateway.fc_options call) = None
    ∧ fst (Gateway.forwardRequest (Scenario.externals Scenario.netUp 1000)
             Users "/v1/users/profile" req Scenario.world0)
      = mkResponse 200 (ok (Gateway.PObject Scenario.aliceProfile)).
Proof.
  intros req.
  destruct (forwardRequest_relays Gateway.Circuits
              (Scenario.externals Scenario.netUp 1000) Users
              "/v1/users/profile" req Scenario.world0)
    as (call & Hf & Hc & Hu & Hm & Hq & Hid & Hauth & Hget & _ & _ & _ & Hok & _).
  exists call. split; [exact Hf|]. split; [apply Hget; by left|].
  apply (Hok (ok (Gateway.PObject Scenario.aliceProfile))).
  destruct call as [c u o]. simpl in Hc, Hu. subst c u. reflexivity.
Defined.

Lemma truthy_idem h : truthy (truthy h) = truthy h.
Proof.
  destruct h as [s|]; [|done]. simpl.
  case_bool_decide as Hs; [done|]. simpl. by rewrite bool_decide_eq_false_2.
Qed.

Lemma authMiddleware_truthy B jwtVerify h :
  authMiddleware (B:=B) jwtVerify (truthy h) = authMiddleware jwtVerify h.
Proof. unfold authMiddleware. by rewrite truthy_idem. Qed.

Lemma userDetails_world C (x : Gateway.Externals C) userId user req w :
  Gateway.accessDenied user userId = false →
  Gateway.fired (snd (Gateway.userDetails x userId user req w))
  = (Gateway.fired w
     ++ [Gateway.userLookup userId req; Gateway.ordersLookup userId req])%list
  ∧ Gateway.limiterHits (snd (Gateway.userDetails x userId user req w))
    = Gateway.limiterHits w
  ∧ Gateway.authLimiterHits (snd (Gateway.userDetails x userId user req w))
    = Gateway.authLimiterHits w.
Proof.
  intros Hok. unfold Gateway.userDetails. rewrite Hok.
  pose proof (doFire_world C x (Gateway.userLookup userId req) w)
    as (Hf1 & Hl1 & Ha1 & _).
  destruct (Gateway.doFire x (Gateway.userLookup userId req) w) as [ur w1].
  pose proof (doFire_world C x (Gateway.ordersLookup userId req) w1)
    as (Hf2 & Hl2 & Ha2 & _).
  destruct (Gateway.doFire x (Gateway.ordersLookup userId req) w1) as [or w2].
  simpl in *. rewrite Hf2, Hf1, Hl2, Hl1, Ha2, Ha1.
  by rewrite <-app_assoc.
Qed.

(** X3.  When the caller may see the user, the aggregator calls
    [circuit.fire] exactly twice, whatever the calls come to: first the
    user lookup on the users circuit, then the orders lookup on the
    orders circuit with the same user id as [userId] parameter. *)
Theorem details_fires_both_lookups C (x : Gateway.Externals C) userId user
    req w :
  Gateway.accessDenied user userId = false →
  Gateway.fired (snd (Gateway.userDetails x userId user req w))
  = (Gateway.fired w
     ++ [Gateway.mkFireCall Users ("/v1/users/" ++ userId)
           (Gateway.mkFireOptions "GET" (Gateway.detailsHeaders req) None []);
         Gateway.mkFireCall Orders "/v1/orders"
           (Gateway.mkFireOptions "GET" (Gateway.detailsHeaders req) None
              [("userId", userId)])])%list.
Proof. intros Hok. by destruct (userDetails_world C x userId user req w Hok). Qed.

Lemma details_fires_both_lookups_witness :
  let req := Scenario.detailsRequest "root-token" "u1" 1000 in
  length
    (Gateway.fired
       (snd (Gateway.userDetails (Scenario.externals Scenario.netDown 1000)
               "u1" Scenario.root req Scenario.world0)))
  = 2%nat.
Proof.
  intros req.
  rewrite (details_fires_both_lookups Gateway.Circuits
             (Scenario.externals Scenario.netDown 1000) "u1" Scenario.root req
             Scenario.world0); reflexivity.
Defined.

(** X4.  A successful aggregate: when the caller may see the user and
    both lookups resolve with successful envelopes, the answer is 200
    with the user lookup's data, the orders of the orders payload (none
    when it has no [orders]), its [pagination.total] (0 when absent) and,
    as [byStatus], what the reducer
    [acc[order.status] = (acc[order.status] || 0) + 1] leaves when
    folded over those orders from [{}].  A successful orders envelope
    without [data] is answered 500 INTERNAL_ERROR instead. *)
Theorem details_success_body C (x : Gateway.Externals C) userId user req w
    (userEnv ordersEnv : Gateway.Body) :
  Gateway.accessDenied user userId = false →
  fst (Gateway.fire x (Gateway.userLookup userId req) (Gateway.circuits w))
  = Fulfilled (Some userEnv) →
  fst (Gateway.fire x (Gateway.ordersLookup userId req)
         (snd (Gateway.fire x (Gateway.userLookup userId req)
                 (Gateway.circuits w))))
  = Fulfilled (Some ordersEnv) →
  success userEnv = true →
  success ordersEnv = true →
  fst (Gateway.userDetails x userId user req w)
  = match data ordersEnv with
    | Some od =>
        mkResponse 200
          (ok (Gateway.PDetails (data userEnv)
                 (default [] (Gateway.orders_of od))
                 (Gateway.mkSummary (default 0 (Gateway.total_of od))
                    (Gateway.histogram (default [] (Gateway.orders_of od))))))
    | None => mkResponse 500 (fail "INTERNAL_ERROR" "Internal server error")
    end.
Proof.
  intros Hok Hu Ho Hsu Hso. rewrite userDetails_allowed by done.
  rewrite Hu, Ho. unfold Gateway.compose. simpl. rewrite Hsu, Hso. simpl.
  by destruct (data ordersEnv).
Qed.

Lemma details_success_body_witness :
  let req := Scenario.detailsRequest "alice-token" "u1" 1000 in
  status
    (fst (Gateway.userDetails (Scenario.externals Scenario.netUp 1000) "u1"
            Scenario.alice req Scenario.world0))
  = 200.
Proof.
  intros req.
  rewrite (details_success_body Gateway.Circuits
             (Scenario.externals Scenario.netUp 1000) "u1" Scenario.alice req
             Scenario.world0
             (ok (Gateway.PObject Scenario.aliceProfile))
             (ok (Gateway.POrders
                    (Gateway.mkOrdersData (Some Scenario.aliceOrders)
                       (Some (Gateway.mkPagination (Some 1) (Some 10) (Some 3)
                                (Some 1)))))));
    reflexivity.
Defined.

(** ** Routing at the gateway *)





(** ** Credentials from the gateway to the backends *)

Lemma authMiddleware_inr_any B1 B2 jwtVerify h user :
  authMiddleware (B:=B1) jwtVerify h = inr user →
  authMiddleware (B:=B2) jwtVerify h = inr user.
Proof.
  unfold authMiddleware. destruct (truthy h) as [a|]; [|discriminate].
  destruct (startsWith a "Bearer "); [|discriminate].
  by destruct (jwtVerify _); [intros [= <-]|discriminate].
Qed.

Lemma authMiddleware_inr_header B jwtVerify h user :
  authMiddleware (B:=B) jwtVerify h = inr user → ∃ a, h = Some a.
Proof.
  unfold authMiddleware. destruct h as [a|]; [by exists a|discriminate].
Qed.

Lemma dispatch_token_accepted C (x : Gateway.Externals C) cs req w user :
  Wire.tokenRequired (Gateway.route (Gateway.method req) (Gateway.path req))
  = true →
  Gateway.verifyToken x req = inr user →
  (∃ userId,
     Gateway.route (Gateway.method req) (Gateway.path req)
     = Gateway.UserDetails userId
     ∧ Gateway.dispatch x cs req w = Gateway.userDetails x userId user req w)
  ∨ (∃ circuit url,
       Gateway.target (Gateway.route (Gateway.method req) (Gateway.path req))
       = Some (circuit, url)
       ∧ Gateway.dispatch x cs req w
         = Gateway.forwardRequest x circuit url req w).
Proof.
  intros Hr Hv.
  rewrite dispatch_routed by (intros Hn; rewrite Hn in Hr; discriminate Hr).
  unfold Gateway.dispatchAs.
  destruct (Gateway.route _ _) eqn:Hroute; try discriminate Hr; simpl;
    rewrite Hv; first [left; by eexists | right; by do 2 eexists].
Qed.

(** X6.  A request the gateway's [verifyToken] has accepted reaches the
    backends with the credential it came with: every call of
    [circuit.fire] made for it carries an [Authorization] header that
    [authMiddleware], verifying with the same key, accepts as the same
    identity. *)
Theorem accepted_credential_is_forwarded C (x : Gateway.Externals C)
    (circuitState : Service → C → string) req w user :
  Wire.tokenRequired (Gateway.route (Gateway.method req) (Gateway.path req))
  = true →
  Gateway.verifyToken x req = inr user →
  ∃ new,
    Gateway.fired (snd (Gateway.dispatch x circuitState req w))
    = (Gateway.fired w ++ new)%list
    ∧ ∀ call B, call ∈ new →
        authMiddleware (B:=B) (Gateway.jwtVerify x)
          (Wire.header "Authorization"
             (Gateway.fo_headers (Gateway.fc_options call)))
        = inr user.
Proof.
  intros Hr Hv.
  pose proof Hv as Hv'. rewrite verifyToken_is_authMiddleware in Hv'.
  destruct (dispatch_token_accepted C x circuitState req w user Hr Hv)
    as [(userId & _ & ->)|(circuit & url & _ & ->)].
  - destruct (Gateway.accessDenied user userId) eqn:Hd.
    + exists []. unfold Gateway.userDetails. rewrite Hd. simpl.
      split; [by rewrite app_nil_r|]. intros call B Hin.
      by apply elem_of_nil in Hin.
    + destruct (userDetails_world C x userId user req w Hd) as (Hf & _).
      eexists. split; [exact Hf|]. intros call B Hin.
      destruct (authMiddleware_inr_header _ _ _ _ Hv') as [a Ha].
      assert (Hh : Wire.header "Authorization" (Gateway.detailsHeaders req)
                   = Gateway.authorization req).
      { unfold Gateway.detailsHeaders. by rewrite Ha. }
      apply elem_of_cons in Hin as [->|Hin];
        [|apply list_elem_of_singleton in Hin as ->]; simpl; rewrite Hh;
        by eapply authMiddleware_inr_any.
  - destruct (forwardRequest_call C x circuit url req w)
      as (call & Hf & _ & _ & _ & _ & _ & Hh & _).
    exists [call]. split; [exact Hf|]. intros call' B Hin.
    apply list_elem_of_singleton in Hin as ->. rewrite Hh.
    rewrite authMiddleware_truthy. by eapply authMiddleware_inr_any.
Qed.

Lemma accepted_credential_is_forwarded_witness :
  let req :=
    Gateway.mkRequest "GET" ["v1"; "orders"] (Some "Bearer alice-token") None
      "req-6" None [("page", "2")] "10.0.0.7" 1000 in
  ∃ new,
    Gateway.fired
      (snd (Gateway.dispatch (Scenario.externals Scenario.netUp 1000)
              Gateway.breakerState req Scenario.world0))
    = new
    ∧ ∀ call, call ∈ new →
        authMiddleware (B:=unit) Scenario.jwtVerify
          (Wire.header "Authorization"
             (Gateway.fo_headers (Gateway.fc_options call)))
        = inr Scenario.alice.
Proof.
  intros req.
  destruct (accepted_credential_is_forwarded Gateway.Circuits
              (Scenario.externals Scenario.netUp 1000) Gateway.breakerState
              req Scenario.world0 Scenario.alice) as (new & Hf & Hall);
    [reflexivity|reflexivity|].
  exists new. split; [exact Hf|]. intros call. apply Hall.
Defined.

(** ** The scope of the limiters *)

Lemma forwardRequest_hits C (x : Gateway.Externals C) circuit url req w :
  Gateway.limiterHits (snd (Gateway.forwardRequest x circuit url req w))
  = Gateway.limiterHits w
  ∧ Gateway.authLimiterHits (snd (Gateway.forwardRequest x circuit url req w))
    = Gateway.authLimiterHits w.
Proof.
  by destruct (forwardRequest_call C x circuit url req w)
    as (call & _ & _ & _ & _ & _ & _ & _ & _ & _ & Hl & Ha & _).
Qed.

Lemma userDetails_hits C (x : Gateway.Externals C) userId user req w :
  Gateway.limiterHits (snd (Gateway.userDetails x userId user req w))
  = Gateway.limiterHits w
  ∧ Gateway.authLimiterHits (snd (Gateway.userDetails x userId user req w))
    = Gateway.authLimiterHits w.
Proof.
  destruct (Gateway.accessDenied user userId) eqn:Hd.
  - unfold Gateway.userDetails. by rewrite Hd.
  - by destruct (userDetails_world C x userId user req w Hd) as (_ & Hl & Ha).
Qed.

Lemma dispatch_limiterHits C (x : Gateway.Externals C) cs req w :
  Gateway.limiterHits (snd (Gateway.dispatch x cs req w)) = Gateway.limiterHits w.
Proof.
  unfold Gateway.dispatch, Gateway.dispatchAs.
  destruct (Gateway.route _ _); simpl; try done;
    try (destruct (RateLimiter.check Gateway.authLimiter _ _ _) as [h [|]];
         simpl; [|done];
         by rewrite (proj1 (forwardRequest_hits C x _ _ req _)));
    destruct (Gateway.verifyToken x req); simpl; try done;
    first [ apply forwardRequest_hits | apply userDetails_hits ].
Qed.

Lemma route_GET_not_strict p :
  Gateway.strictLimited (Gateway.route "GET" p) = false.
Proof.
  unfold Gateway.route.
  destruct p as [|a [|b [|c [|d [|? ?]]]]]; simpl; try done;
    repeat (match goal with
            | |- context [Express.matches ?l ?s] =>
                destruct (Express.matches l s)
            end; simpl); done.
Qed.

Lemma routingVerb_not_strict m p :
  Gateway.strictLimited (Gateway.route m p) = false →
  Gateway.strictLimited (Gateway.route (Gateway.routingVerb m) p) = false.
Proof.
  unfold Gateway.routingVerb. case_bool_decide; [|done].
  intros _. apply route_GET_not_strict.
Qed.

Lemma dispatch_authLimiterHits C (x : Gateway.Externals C) cs req w :
  Gateway.strictLimited (Gateway.route (Gateway.method req) (Gateway.path req))
  = false →
  Gateway.authLimiterHits (snd (Gateway.dispatch x cs req w))
  = Gateway.authLimiterHits w.
Proof.
  intros Hs%routingVerb_not_strict. revert Hs.
  unfold Gateway.dispatch, Gateway.dispatchAs.
  destruct (Gateway.route _ _); simpl; try done; intros _;
    destruct (Gateway.verifyToken x req); simpl; try done;
    first [ apply forwardRequest_hits | apply userDetails_hits ].
Qed.

(** X7.  The strict limiter's counters move only on the registration
    and login routes, and the general limiter's only on paths under
    [/v1]: every other request leaves them as they were. *)
Theorem limiters_scope C (x : Gateway.Externals C)
    (circuitState : Service → C → string) req w :
  (Gateway.strictLimited
     (Gateway.route (Gateway.method req) (Gateway.path req)) = false →
   Gateway.authLimiterHits (snd (Gateway.app x circuitState req w))
   = Gateway.authLimiterHits w)
  ∧ (Gateway.underV1 (Gateway.path req) = false →
     Gateway.limiterHits (snd (Gateway.app x circuitState req w))
     = Gateway.limiterHits w).
Proof.
  rewrite app_eq. split.
  - intros Hs. destruct (Gateway.underV1 _).
    + destruct (RateLimiter.check Gateway.limiter _ _ _) as [h [|]]; simpl;
        [|done].
      by rewrite dispatch_authLimiterHits.
    + by apply dispatch_authLimiterHits.
  - intros ->. apply dispatch_limiterHits.
Qed.

Lemma limiters_scope_witness :
  let req := Scenario.detailsRequest "alice-token" "u1" 1000 in
  Gateway.authLimiterHits
    (snd (Gateway.app (Scenario.externals Scenario.netUp 1000)
            Gateway.breakerState req Scenario.world0))
  = ∅.
Proof.
  intros req.
  apply (proj1 (limiters_scope Gateway.Circuits
                  (Scenario.externals Scenario.netUp 1000) Gateway.breakerState
                  req Scenario.world0)).
  reflexivity.
Defined.

(** ** The users store *)


Lemma own_None id db :
  UsersService.own id db = None ↔ id ∉ UsersStore.keys db.
Proof.
  unfold UsersService.own, UsersStore.keys.
  induction db as [|[k v] db IH]; simpl.
  - split; [intros _; apply not_elem_of_nil|done].
  - rewrite not_elem_of_cons. case_bool_decide as Hk; simpl in *.
    + split; [discriminate|]. intros [Hne _]. by destruct Hne.
    + rewrite IH. split; [by split|by intros [_ ?]].
Qed.

Lemma own_overwrite_same id (u : gmap string JVal) db :
  id ∈ UsersStore.keys db →
  UsersService.own id (UsersService.overwrite id u db) = Some u.
Proof.
  unfold UsersService.own, UsersStore.keys.
  induction db as [|[k v] db IH]; simpl.
  - intros Hin. by apply elem_of_nil in Hin.
  - intros Hin. case_bool_decide as Hk; simpl.
    + by rewrite bool_decide_eq_true_2.
    + rewrite bool_decide_eq_false_2 by done. apply IH.
      apply elem_of_cons in Hin as [->|Hin]; done.
Qed.

Lemma own_overwrite_other id id' (u : gmap string JVal) db :
  id' ≠ id →
  UsersService.own id' (UsersService.overwrite id u db)
  = UsersService.own id' db.
Proof.
  intros Hne. unfold UsersService.own.
  induction db as [|[k v] db IH]; simpl; [done|].
  case_bool_decide as Hk; simpl.
  - subst k. by rewrite !bool_decide_eq_false_2 by done.
  - case_bool_decide; [done|exact IH].
Qed.

Lemma own_place_same id (u : gmap string JVal) db :
  id ∉ UsersStore.keys db →
  UsersService.own id (UsersService.place id u db) = Some u.
Proof.
  unfold UsersService.own, UsersStore.keys.
  induction db as [|[k v] db IH]; simpl.
  - intros _. by rewrite bool_decide_eq_true_2.
  - rewrite not_elem_of_cons. intros [Hne Hin].
    destruct (Js.before id k); simpl.
    + by rewrite bool_decide_eq_true_2.
    + rewrite bool_decide_eq_false_2 by done. by apply IH.
Qed.

Lemma own_place_other id id' (u : gmap string JVal) db :
  id' ≠ id →
  UsersService.own id' (UsersService.place id u db)
  = UsersService.own id' db.
Proof.
  intros Hne. unfold UsersService.own.
  induction db as [|[k v] db IH]; simpl.
  - by rewrite bool_decide_eq_false_2.
  - destruct (Js.before id k); simpl.
    + by rewrite (bool_decide_eq_false_2 (id = id')).
    + case_bool_decide; [done|exact IH].
Qed.

Lemma own_put_same id (u : gmap string JVal) db :
  UsersService.own id (UsersService.put id u db) = Some u.
Proof.
  unfold UsersService.put. case_bool_decide as Hin.
  - by apply own_overwrite_same.
  - by apply own_place_same.
Qed.

Lemma own_put_other id id' (u : gmap string JVal) db :
  id' ≠ id →
  UsersService.own id' (UsersService.put id u db) = UsersService.own id' db.
Proof.
  intros Hne. unfold UsersService.put. case_bool_decide as Hin.
  - by apply own_overwrite_other.
  - by apply own_place_other.
Qed.

Lemma findUserById_put_same id (u : gmap string JVal) db :
  UsersService.findUserById id (UsersService.put id u db) = Some u.
Proof. unfold UsersService.findUserById. by rewrite own_put_same. Qed.

Lemma findUserById_put_other id id' (u : gmap string JVal) db :
  id' ≠ id →
  UsersService.findUserById id' (UsersService.put id u db)
  = UsersService.findUserById id' db.
Proof.
  intros Hne. unfold UsersService.findUserById. by rewrite own_put_other.
Qed.



Lemma overwrite_keys id (u : gmap string JVal) db :
  UsersStore.keys (UsersService.overwrite id u db) = UsersStore.keys db.
Proof.
  unfold UsersStore.keys. induction db as [|[k v] db IH]; [done|].
  simpl UsersService.overwrite.
  case_bool_decide; rewrite !fmap_cons; simpl fst; [done|]. by rewrite IH.
Qed.

(** A new key is put in front of the first key it comes before. *)
Lemma place_keys id (u : gmap string JVal) db :
  ∃ l1 l2,
    UsersStore.keys db = (l1 ++ l2)%list
    ∧ UsersStore.keys (UsersService.place id u db) = (l1 ++ id :: l2)%list
    ∧ Forall (λ k, Js.before id k = false) l1
    ∧ match l2 with
      | k :: _ => Js.before id k = true
      | [] => True
      end.
Proof.
  unfold UsersStore.keys. induction db as [|[k v] db IH].
  - by exists [], [].
  - simpl UsersService.place. destruct (Js.before id k) eqn:Hb.
    + exists [], (k :: db.*1). rewrite !fmap_cons. by repeat split.
    + destruct IH as (l1 & l2 & H1 & H2 & H3 & H4).
      exists (k :: l1), l2. rewrite !fmap_cons. simpl fst. rewrite H1, H2.
      repeat split; [by constructor|done].
Qed.

Lemma before_name id k : Js.index id = None → Js.before id k = false.
Proof. unfold Js.before. by intros ->. Qed.

Lemma place_keys_name id (u : gmap string JVal) db :
  Js.index id = None →
  UsersStore.keys (UsersService.place id u db)
  = (UsersStore.keys db ++ [id])%list.
Proof.
  intros Hid. unfold UsersStore.keys.
  induction db as [|[k v] db IH]; [done|].
  simpl UsersService.place. rewrite (before_name _ _ Hid).
  rewrite !fmap_cons. simpl fst. by rewrite IH.
Qed.




Lemma put_keys_known id (u : gmap string JVal) db :
  id ∈ UsersStore.keys db →
  UsersStore.keys (UsersService.put id u db) = UsersStore.keys db.
Proof.
  intros Hin. unfold UsersService.put.
  rewrite bool_decide_eq_true_2 by done. apply overwrite_keys.
Qed.

Lemma put_keys_new id (u : gmap string JVal) db :
  id ∉ UsersStore.keys db →
  UsersStore.keys (UsersService.put id u db)
  = UsersStore.keys (UsersService.place id u db).
Proof.
  intros Hin. unfold UsersService.put. by rewrite bool_decide_eq_false_2.
Qed.

Lemma findUserByEmail_None e db :
  UsersService.findUserByEmail e db = None
  ↔ ∀ k u, (k, u) ∈ db → u !! "email" ≠ Some (JStr e).
Proof.
  unfold UsersService.findUserByEmail. split.
  - destruct (List.find _ db) as [kv|] eqn:Hf; [discriminate|].
    intros _ k u Hin%list_elem_of_In.
    pose proof (find_none _ _ Hf _ Hin) as Hb.
    by apply bool_decide_eq_false in Hb.
  - intros Hall. destruct (List.find _ db) as [[k u]|] eqn:Hf; [|done].
    apply find_some in Hf as [Hin Hb]. apply bool_decide_eq_true in Hb.
    by destruct (Hall k u (proj2 (list_elem_of_In _ _) Hin)).
Qed.

Lemma findUserByEmail_overwrite_fresh e id (u : gmap string JVal) db :
  UsersService.findUserByEmail e db = None →
  u !! "email" = Some (JStr e) →
  id ∈ UsersStore.keys db →
  UsersService.findUserByEmail e (UsersService.overwrite id u db) = Some u.
Proof.
  intros Hnone Hu. rewrite findUserByEmail_None in Hnone.
  unfold UsersService.findUserByEmail, UsersStore.keys.
  induction db as [|[k v] db IH]; simpl.
  - intros Hin. by apply elem_of_nil in Hin.
  - intros Hin. case_bool_decide as Hk; simpl.
    + by rewrite bool_decide_eq_true_2.
    + rewrite bool_decide_eq_false_2.
      * apply IH.
        -- intros k' u' Hin'. apply (Hnone k' u').
           apply elem_of_cons. by right.
        -- apply elem_of_cons in Hin as [->|Hin]; done.
      * apply (Hnone k v). apply elem_of_cons. by left.
Qed.

Lemma findUserByEmail_place_fresh e id (u : gmap string JVal) db :
  UsersService.findUserByEmail e db = None →
  u !! "email" = Some (JStr e) →
  UsersService.findUserByEmail e (UsersService.place id u db) = Some u.
Proof.
  intros Hnone Hu. rewrite findUserByEmail_None in Hnone.
  unfold UsersService.findUserByEmail.
  induction db as [|[k v] db IH]; simpl.
  - by rewrite bool_decide_eq_true_2.
  - destruct (Js.before id k); simpl.
    + by rewrite bool_decide_eq_true_2.
    + rewrite bool_decide_eq_false_2.
      * apply IH. intros k' u' Hin. apply (Hnone k' u').
        apply elem_of_cons. by right.
      * apply (Hnone k v). apply elem_of_cons. by left.
Qed.

Lemma findUserByEmail_put_fresh e id (u : gmap string JVal) db :
  UsersService.findUserByEmail e db = None →
  u !! "email" = Some (JStr e) →
  UsersService.findUserByEmail e (UsersService.put id u db) = Some u.
Proof.
  intros Hnone Hu. unfold UsersService.put. case_bool_decide.
  - by apply findUserByEmail_overwrite_fresh.
  - by apply findUserByEmail_place_fresh.
Qed.

(** X8.  Writing a user under an id other than [__proto__] and reading
    that id back gives the user; every other id reads as before.  A
    known id keeps its place among the keys.  A new id that is an array
    index goes in front of the first key that is a larger index or no
    index at all; any other new id goes last. *)
Theorem put_then_find id (u : gmap string JVal) db :
  id ≠ "__proto__" →
  UsersService.findUserById id (UsersService.put id u db) = Some u
  ∧ (∀ id', id' ≠ id →
       UsersService.findUserById id' (UsersService.put id u db)
       = UsersService.findUserById id' db)
  ∧ (id ∈ UsersStore.keys db →
     UsersStore.keys (UsersService.put id u db) = UsersStore.keys db)
  ∧ (id ∉ UsersStore.keys db →
     ∃ l1 l2,
       UsersStore.keys db = (l1 ++ l2)%list
       ∧ UsersStore.keys (UsersService.put id u db) = (l1 ++ id :: l2)%list
       ∧ Forall (λ k, Js.before id k = false) l1
       ∧ match l2 with
         | k :: _ => Js.before id k = true
         | [] => True
         end)
  ∧ (id ∉ UsersStore.keys db → Js.index id = None →
     UsersStore.keys (UsersService.put id u db)
     = (UsersStore.keys db ++ [id])%list).
Proof.
  intros _.
  split; [apply findUserById_put_same|].
  split; [intros; by apply findUserById_put_other|].
  split; [apply put_keys_known|].
  split.
  - intros Hin. rewrite put_keys_new by done. apply place_keys.
  - intros Hin Hid. rewrite put_keys_new by done. by apply place_keys_name.
Qed.

Lemma put_then_find_witness :
  UsersStore.keys (UsersService.put "u1" Scenario.aliceProfile Scenario.usersDb1)
  = ["u1"]
  ∧ UsersStore.keys
      (UsersService.put "u2" Scenario.aliceProfile Scenario.usersDb1)
    = ["u1"; "u2"].
Proof.
  split.
  - apply (put_then_find "u1" Scenario.aliceProfile Scenario.usersDb1);
      [discriminate|].
    apply list_elem_of_singleton. reflexivity.
  - apply (put_then_find "u2" Scenario.aliceProfile Scenario.usersDb1);
      [discriminate| |reflexivity].
    intros Hin%list_elem_of_singleton. discriminate Hin.
Defined.

(** Array indices are listed first, in ascending order, whenever they
    were written. *)
Example put_lists_array_indices_first :
  UsersStore.keys
    (UsersService.put "7" Scenario.aliceProfile
       (UsersService.put "u2" Scenario.aliceProfile
          (UsersService.put "10" Scenario.aliceProfile Scenario.usersDb1)))
  = ["7"; "10"; "u1"; "u2"].
Proof. vm_compute. reflexivity. Qed.

(** ** Registration and login *)

Lemma register_success x req db value :
  UsersService.validateRegister x (UsersService.req_body req) = inr value →
  UsersService.findUserByEmail (UsersService.reg_email value) db = None →
  status (fst (UsersService.register x req db)) = 201
  ∧ success (body (fst (UsersService.register x req db))) = true
  ∧ snd (UsersService.register x req db)
    = UsersService.put (UsersService.uuid req) (UsersStore.newUser x req value) db.
Proof.
  intros Hv He. unfold UsersService.register. by rewrite Hv, He.
Qed.

Lemma newUser_fields x req value :
  UsersStore.newUser x req value !! "id" = Some (JStr (UsersService.uuid req))
  ∧ UsersStore.newUser x req value !! "email"
    = Some (JStr (UsersService.reg_email value))
  ∧ UsersStore.newUser x req value !! "passwordHash"
    = Some (JStr (UsersService.bcryptHash x (UsersService.reg_password value)))
  ∧ UsersStore.newUser x req value !! "password" = None.
Proof. unfold UsersStore.newUser. repeat split; by simplify_map_eq. Qed.

(** X9.  A registration that passes validation with an email no stored
    user has is answered 201 and stores one user: looking up the new id,
    or the email, gives that user, whose [passwordHash] is the hash of
    the password and who has no [password] property; every other id
    reads as before. *)
Theorem register_stores_user x req db value :
  UsersService.validateRegister x (UsersService.req_body req) = inr value →
  UsersService.findUserByEmail (UsersService.reg_email value) db = None →
  let r := UsersService.register x req db in
  ∃ u,
    status (fst r) = 201
    ∧ UsersService.findUserById (UsersService.uuid req) (snd r) = Some u
    ∧ UsersService.findUserByEmail (UsersService.reg_email value) (snd r) = Some u
    ∧ u !! "passwordHash"
      = Some (JStr (UsersService.bcryptHash x (UsersService.reg_password value)))
    ∧ u !! "password" = None
    ∧ (∀ id', id' ≠ UsersService.uuid req →
         UsersService.findUserById id' (snd r) = UsersService.findUserById id' db).
Proof.
  intros Hv He r. subst r.
  destruct (register_success x req db value Hv He) as (Hst & _ & Hdb).
  destruct (newUser_fields x req value) as (_ & Hem & Hh & Hp).
  exists (UsersStore.newUser x req value). rewrite Hdb.
  split; [exact Hst|]. split; [apply findUserById_put_same|].
  split; [by apply findUserByEmail_put_fresh|].
  split; [exact Hh|]. split; [exact Hp|].
  intros id' Hne. by apply findUserById_put_other.
Qed.

Lemma register_stores_user_witness :
  let r := UsersService.register Scenario.usersExternals Fixtures.registerBob
             Scenario.usersDb1 in
  ∃ u, status (fst r) = 201
       ∧ UsersService.findUserById "u9" (snd r) = Some u
       ∧ u !! "passwordHash" = Some (JStr "hash:hunter22").
Proof.
  intros r.
  destruct (register_stores_user Scenario.usersExternals Fixtures.registerBob
              Scenario.usersDb1 Fixtures.bobValue)
    as (u & Hst & Hid & _ & Hh & _); [reflexivity|reflexivity|].
  exists u. split; [exact Hst|]. split; [exact Hid|exact Hh].
Defined.

(** X10.  Registration followed by login: after a successful
    registration, a login whose validated email and password are those
    that were registered is answered 200 with a token and the new user
    without its [passwordHash], provided the hash comparison accepts the
    password against its own hash; the store is not changed by the
    login. *)
Theorem register_then_login x req db value req' :
  UsersService.validateRegister x (UsersService.req_body req) = inr value →
  UsersService.findUserByEmail (UsersService.reg_email value) db = None →
  UsersService.validateLogin x (UsersService.req_body req')
  = inr (UsersService.mkLoginValue (UsersService.reg_email value)
           (UsersService.reg_password value)) →
  UsersService.bcryptCompare x (UsersService.reg_password value)
    (UsersService.bcryptHash x (UsersService.reg_password value)) = true →
  let db' := snd (UsersService.register x req db) in
  ∃ u,
    UsersService.findUserById (UsersService.uuid req) db' = Some u
    ∧ UsersService.login x req' db'
      = (mkResponse 200
           (ok (UsersService.PLogin (UsersService.generateToken x u)
                  (UsersService.sanitizeUser u))), db')
    ∧ UsersService.sanitizeUser u !! "email"
      = Some (JStr (UsersService.reg_email value))
    ∧ UsersService.sanitizeUser u !! "passwordHash" = None.
Proof.
  intros Hv He Hl Hc db'. subst db'.
  destruct (register_success x req db value Hv He) as (_ & _ & Hdb).
  destruct (newUser_fields x req value) as (_ & Hem & Hh & _).
  exists (UsersStore.newUser x req value). rewrite Hdb.
  split; [apply findUserById_put_same|].
  split.
  - unfold UsersService.login. rewrite Hl. simpl.
    rewrite (findUserByEmail_put_fresh _ _ _ _ He Hem), Hh.
    by rewrite Hc.
  - split; [by rewrite sanitizeUser_keeps|apply sanitizeUser_no_hash].
Qed.

Lemma register_then_login_witness :
  let db' := snd (UsersService.register Scenario.usersExternals
                    Fixtures.registerBob Scenario.usersDb1) in
  status (fst (UsersService.login Scenario.usersExternals
                 (Fixtures.loginBob "hunter22") db'))
  = 200.
Proof.
  intros db'.
  destruct (register_then_login Scenario.usersExternals Fixtures.registerBob
              Scenario.usersDb1 Fixtures.bobValue (Fixtures.loginBob "hunter22"))
    as (u & _ & Hlogin & _); [reflexivity ..|].
  fold db' in Hlogin. by rewrite Hlogin.
Defined.



(** X12.  A login with an email no user has and a login with a wrong
    password get the same answer, 401 INVALID_CREDENTIALS with the same
    message, and neither changes the store. *)
Theorem login_failures_indistinguishable x req1 req2 db v1 v2 u hash :
  UsersService.validateLogin x (UsersService.req_body req1) = inr v1 →
  UsersService.findUserByEmail (UsersService.login_email v1) db = None →
  UsersService.validateLogin x (UsersService.req_body req2) = inr v2 →
  UsersService.findUserByEmail (UsersService.login_email v2) db = Some u →
  u !! "passwordHash" = Some (JStr hash) →
  UsersService.bcryptCompare x (UsersService.login_password v2) hash = false →
  UsersService.login x req1 db = UsersService.login x req2 db
  ∧ UsersService.login x req1 db
    = (mkResponse 401 (fail "INVALID_CREDENTIALS" "Invalid email or password"),
       db).
Proof.
  intros H1 Hn H2 Hf Hh Hc. unfold UsersService.login.
  by rewrite H1, Hn, H2, Hf, Hh, Hc.
Qed.

Lemma login_failures_indistinguishable_witness :
  let db' := snd (UsersService.register Scenario.usersExternals
                    Fixtures.registerBob Scenario.usersDb1) in
  UsersService.login Scenario.usersExternals Fixtures.loginNobody db'
  = UsersService.login Scenario.usersExternals (Fixtures.loginBob "guess") db'.
Proof.
  intros db'.
  apply (login_failures_indistinguishable Scenario.usersExternals
           Fixtures.loginNobody (Fixtures.loginBob "guess") db'
           (UsersService.mkLoginValue "nobody@example.com" "whatever")
           (UsersService.mkLoginValue "bob@example.com" "guess")
           (UsersStore.newUser Scenario.usersExternals Fixtures.registerBob
              Fixtures.bobValue)
           "hash:hunter22");
    vm_compute; reflexivity.
Defined.

(** ** What changes the users store *)

Lemma register_changes x req db :
  snd (UsersService.register x req db) = db
  ∨ status (fst (UsersService.register x req db)) = 201.
Proof.
  unfold UsersService.register.
  destruct (UsersService.validateRegister x _); [by left|].
  destruct (UsersService.findUserByEmail _ db); [by left|by right].
Qed.

Lemma login_keeps x req db : snd (UsersService.login x req db) = db.
Proof.
  unfold UsersService.login.
  destruct (UsersService.validateLogin x _); [done|].
  destruct (UsersService.findUserByEmail _ db) as [u|]; [|done].
  destruct (u !! "passwordHash") as [[h| |]|]; try done.
  by destruct (UsersService.bcryptCompare x _ h).
Qed.

Lemma updateProfile_changes x user req db :
  snd (UsersService.updateProfile x user req db) = db
  ∨ status (fst (UsersService.updateProfile x user req db)) = 200.
Proof.
  unfold UsersService.updateProfile.
  destruct (UsersService.validateUpdate x _) as [msg|value]; [by left|].
  destruct (UsersService.findUserById _ db) as [u|]; [|by left].
  destruct (match UsersService.emailChanges value u with
            | Some e => _ | None => _ end); [by left|by right].
Qed.

Lemma listUsers_keeps req db : snd (UsersService.listUsers req db) = db.
Proof.
  unfold UsersService.listUsers.
  by destruct (match truthy (UsersService.query_role req) with
               | Some role => _ | None => _ end).
Qed.

Lemma getProfile_keeps user db : snd (UsersService.getProfile user db) = db.
Proof.
  unfold UsersService.getProfile. by destruct (UsersService.findUserById _ db).
Qed.

Lemma getUserById_keeps userId db :
  snd (UsersService.getUserById userId db) = db.
Proof.
  unfold UsersService.getUserById. by destruct (UsersService.findUserById _ db).
Qed.

(** The users application is the middleware chain of the route followed
    by its handler. *)
Lemma users_app_cases x req db r db' :
  UsersService.app x req db = Some (r, db') →
  (db' = db
   ∧ UsersService.runMiddleware x req
       (UsersService.middleware
          (UsersService.route (UsersService.method req) (UsersService.path req)))
       None = inl r)
  ∨ ∃ user,
      UsersService.runMiddleware x req
        (UsersService.middleware
           (UsersService.route (UsersService.method req) (UsersService.path req)))
        None = inr user
      ∧ UsersService.handler x
          (UsersService.route (UsersService.method req) (UsersService.path req))
          user req db = Some (r, db').
Proof.
  unfold UsersService.app.
  destruct (UsersService.runMiddleware x req _ None) as [rej|user] eqn:Hm.
  - destruct (UsersService.route _ _); [| | | | | | |discriminate];
      intros [= <- <-]; by left.
  - destruct (UsersService.route _ _); [| | | | | | |discriminate];
      intros Hh; right; by exists user.
Qed.

(** X13.  The users store changes only when a registration is answered
    201 or a profile update is answered 200: every other request, and
    every refused one, leaves it as it was. *)
Theorem users_store_changes_only_on_success x req db r db' :
  UsersService.app x req db = Some (r, db') →
  db' = db
  ∨ (UsersService.route (UsersService.method req) (UsersService.path req)
     = UsersService.Register ∧ status r = 201)
  ∨ (UsersService.route (UsersService.method req) (UsersService.path req)
     = UsersService.ProfilePut ∧ status r = 200).
Proof.
  intros Happ.
  destruct (users_app_cases x req db r db' Happ) as [[-> _]|(user & _ & Hh)];
    [by left|].
  destruct (UsersService.route _ _) eqn:Hroute, user as [u|]; simpl in Hh;
    try discriminate Hh; apply (inj Some) in Hh;
    pose proof (f_equal fst Hh) as H1; pose proof (f_equal snd Hh) as H2;
    simpl in H1, H2; subst r db'.
  all: first
    [ left; reflexivity
    | left; apply login_keeps
    | left; apply getProfile_keeps
    | left; apply listUsers_keeps
    | left; apply getUserById_keeps
    | destruct (register_changes x req db) as [?|?]; [by left|right; left; done]
    | destruct (updateProfile_changes x u req db) as [?|?];
        [by left|right; right; done] ].
Qed.

Lemma users_store_changes_only_on_success_witness :
  snd (UsersService.login Scenario.usersExternals
         (Scenario.usersRequest "POST" ["v1"; "users"; "login"] None
            Scenario.loginBody)
         Scenario.usersDb1)
  = Scenario.usersDb1.
Proof.
  destruct (users_store_changes_only_on_success Scenario.usersExternals
              (Scenario.usersRequest "POST" ["v1"; "users"; "login"] None
                 Scenario.loginBody)
              Scenario.usersDb1
              (fst (UsersService.login Scenario.usersExternals
                      (Scenario.usersRequest "POST" ["v1"; "users"; "login"]
                         None Scenario.loginBody)
                      Scenario.usersDb1))
              (snd (UsersService.login Scenario.usersExternals
                      (Scenario.usersRequest "POST" ["v1"; "users"; "login"]
                         None Scenario.loginBody)
                      Scenario.usersDb1)))
    as [H|[[H _]|[H _]]]; [reflexivity|exact H|discriminate H|discriminate H].
Defined.

(** ** Consistency of the users store *)






Lemma updated_fields (value u : gmap string JVal) t k :
  UsersStore.updateSchema value →
  k ≠ "name" → k ≠ "email" → k ≠ "updatedAt" →
  (<["updatedAt" := JStr t]> (value ∪ u) : gmap string JVal) !! k = u !! k.
Proof.
  intros [Hdom _] H1 H2 H3. rewrite lookup_insert_ne by done.
  apply lookup_union_r. destruct (value !! k) eqn:Hv; [|done].
  destruct (Hdom k) as [?|?]; [by eexists|done|done].
Qed.




(** A profile update by a caller whose id names a member of
    [Object.prototype]: [usersDb[id]] is that member, the update is
    answered 200, and a record without [id] is written under the key
    [undefined]. *)
Example inherited_id_writes_stray_record :
  let caller := mkIdentity "constructor" "eve@example.com" (Some ["user"]) in
  let r := UsersService.updateProfile Fixtures.usersExternals caller
             Fixtures.renameAlice Scenario.usersDb1 in
  status (fst r) = 200
  ∧ UsersStore.keys (snd r) = ["u1"; "undefined"]
  ∧ (∀ u, UsersService.own "undefined" (snd r) = Some u → u !! "id" = None).
Proof.
  intros caller r. split; [reflexivity|]. split; [reflexivity|].
  intros u. vm_compute. intros [= <-]. reflexivity.
Qed.


Lemma fixture_validateUpdate_schema b v :
  Fixtures.validateUpdate b = inr v → UsersStore.updateSchema v.
Proof.
  unfold Fixtures.validateUpdate.
  destruct (Scenario.readString b "name") as [n|],
    (Scenario.readString b "email") as [e|];
    try case_bool_decide; intros [= <-]; split.
  all: try (intros k [j Hk]; destruct (decide (k = "name")) as [->|?];
            [by left|];
            destruct (decide (k = "email")) as [->|?]; [by right|];
            by simplify_map_eq).
  all: intros j Hj; simplify_map_eq; eauto.
Qed.




(** X15.  A profile update that is answered 200 rewrites the caller's
    record only, and of it nothing but [name], [email] and [updatedAt]:
    [id], [passwordHash], [roles] and [createdAt] are as before, and
    every other user reads as before, provided the update schema lets
    through only [name] and [email]. *)
Theorem updateProfile_keeps_protected_fields x user req db value u :
  UsersService.validateUpdate x (UsersService.req_body req) = inr value →
  UsersStore.updateSchema value →
  UsersService.findUserById (user_id user) db = Some u →
  u !! "id" = Some (JStr (user_id user)) →
  status (fst (UsersService.updateProfile x user req db)) = 200 →
  let db' := snd (UsersService.updateProfile x user req db) in
  ∃ u',
    UsersService.findUserById (user_id user) db' = Some u'
    ∧ (∀ k, k ≠ "name" → k ≠ "email" → k ≠ "updatedAt" → u' !! k = u !! k)
    ∧ u' !! "updatedAt" = Some (JStr (UsersService.timestamp req))
    ∧ (∀ k j, value !! k = Some j → u' !! k = Some j)
    ∧ (∀ id', id' ≠ user_id user →
         UsersService.findUserById id' db' = UsersService.findUserById id' db).
Proof.
  intros Hv Hs Hf Hid Hst db'. subst db'.
  unfold UsersService.updateProfile in *. rewrite Hv, Hf in *.
  destruct (match UsersService.emailChanges value u with
            | Some e => _ | None => _ end); [discriminate Hst|].
  simpl.
  assert (Hkey : UsersService.keyOf u = user_id user)
    by (unfold UsersService.keyOf; by rewrite Hid).
  rewrite Hkey. eexists. split; [apply findUserById_put_same|].
  split; [intros k H1 H2 H3; by apply updated_fields|].
  split; [by rewrite lookup_insert_eq|].
  split.
  - intros k j Hk. destruct Hs as [Hdom _].
    rewrite lookup_insert_ne.
    + by apply lookup_union_Some_l.
    + intros <-. destruct (Hdom "updatedAt") as [?|?]; [by eexists|done|done].
  - intros id' Hne. by apply findUserById_put_other.
Qed.

Lemma updateProfile_keeps_protected_fields_witness :
  ∃ u',
    UsersService.findUserById "u1"
      (snd (UsersService.updateProfile Fixtures.usersExternals Scenario.alice
              Fixtures.renameAlice Scenario.usersDb1))
    = Some u'
    ∧ u' !! "roles" = Some (JStrs ["user"])
    ∧ u' !! "passwordHash" = Some (JStr "hash:secret1")
    ∧ u' !! "name" = Some (JStr "Alice B.").
Proof.
  destruct (updateProfile_keeps_protected_fields Fixtures.usersExternals
              Scenario.alice Fixtures.renameAlice Scenario.usersDb1
              {["name" := JStr "Alice B."]} Scenario.storedAlice)
    as (u' & Hf & Hkeep & _ & Hnew & _).
  - vm_compute; reflexivity.
  - apply (fixture_validateUpdate_schema (UsersService.req_body Fixtures.renameAlice)).
    vm_compute; reflexivity.
  - reflexivity.
  - vm_compute; reflexivity.
  - vm_compute; reflexivity.
  - exists u'. split; [exact Hf|].
    split; [rewrite Hkeep by done; vm_compute; reflexivity|].
    split; [rewrite Hkeep by done; vm_compute; reflexivity|].
    apply Hnew. vm_compute; reflexivity.
Defined.

(** ** The users list *)

Lemma slice_window {A} (l : list A) (a b : Z) :
  0 ≤ a → a ≤ b →
  UsersService.slice l a b = take (Z.to_nat (b - a)) (drop (Z.to_nat a) l).
Proof.
  intros Ha Hab. unfold UsersService.slice.
  destruct (Z.ltb_spec a 0); [lia|]. destruct (Z.ltb_spec b 0); [lia|].
  destruct (Z_lt_le_dec a (Z.of_nat (length l))) as [Hlt|Hge].
  - rewrite (Z.min_l a) by lia.
    destruct (Z_le_gt_dec b (Z.of_nat (length l))) as [Hb|Hb].
    + by rewrite (Z.min_l b) by lia.
    + rewrite (Z.min_r b) by lia.
      rewrite !take_ge; [done|rewrite length_drop; lia ..].
  - rewrite (Z.min_r a), (Z.min_r b) by lia.
    rewrite (drop_ge l (Z.to_nat a)) by lia.
    rewrite drop_ge by lia. by rewrite !take_nil.
Qed.

Lemma ceilDiv_covers n d : 0 < d → n ≤ d * UsersService.ceilDiv n d.
Proof.
  intros Hd. unfold UsersService.ceilDiv.
  pose proof (Z.mul_div_le (- n) d Hd). lia.
Qed.

Lemma filterByRole_Some role us l :
  UsersService.filterByRole role us = Some l →
  ∀ u, u ∈ l ↔ u ∈ us ∧ ∃ rs, u !! "roles" = Some (JStrs rs) ∧ role ∈ rs.
Proof.
  revert l. induction us as [|v us IH]; intros l; simpl.
  - intros [= <-] u. split; [by intros ?%elem_of_nil|].
    by intros [?%elem_of_nil _].
  - unfold UsersService.hasRole at 1.
    destruct (v !! "roles") as [[| |rs]|] eqn:Hr; try discriminate.
    destruct (UsersService.filterByRole role us) as [l'|]; [|discriminate].
    specialize (IH l' eq_refl).
    case_bool_decide as Hin; intros [= <-] u.
    + rewrite !elem_of_cons, IH. split.
      * intros [->|[? ?]]; [split; [by left|by exists rs]|split; [by right|done]].
      * intros [[->|?] ?]; [by left|right; done].
    + rewrite IH, elem_of_cons. split.
      * intros [? ?]. split; [by right|done].
      * intros [[->|?] Hex]; [|done].
        destruct Hex as (rs' & Hrs' & Hin'). congruence.
Qed.

(** X16.  [GET /v1/users] with a page and a limit of at least 1 (1 and
    10 when the query gives none, or 0) answers 200 with the page-th
    run of [limit] users among those selected, each without its
    [passwordHash]: never more than [limit] users, none at all past the
    last page, [total] counting all the selected users; with a [role]
    in the query every selected user is a stored user whose [roles]
    include it.  The store is not changed. *)
Theorem listUsers_page req db users :
  UsersStore.selected req db = Some users →
  1 ≤ UsersService.orDefault (UsersService.query_page req) 1 →
  1 ≤ UsersService.orDefault (UsersService.query_limit req) 10 →
  let page := UsersService.orDefault (UsersService.query_page req) 1 in
  let limit := UsersService.orDefault (UsersService.query_limit req) 10 in
  let shown :=
    UsersService.sanitizeUser
    <$> take (Z.to_nat limit) (drop (Z.to_nat ((page - 1) * limit)) users) in
  UsersService.listUsers req db
  = (mkResponse 200
       (ok (UsersService.PUsers shown
              (UsersService.mkPagination page limit (Z.of_nat (length users))
                 (UsersService.ceilDiv (Z.of_nat (length users)) limit)))),
     db)
  ∧ Z.of_nat (length shown) ≤ limit
  ∧ (UsersService.ceilDiv (Z.of_nat (length users)) limit < page → shown = [])
  ∧ (∀ u, u ∈ users → u ∈ (snd <$> db))
  ∧ (∀ role u, truthy (UsersService.query_role req) = Some role → u ∈ users →
       ∃ rs, u !! "roles" = Some (JStrs rs) ∧ role ∈ rs).
Proof.
  intros Hsel Hp Hl page limit shown. subst shown.
  fold page in Hp. fold limit in Hl.
  split; [|split; [|split; [|split]]].
  - unfold UsersService.listUsers. fold page limit.
    unfold UsersStore.selected in Hsel. rewrite Hsel.
    rewrite slice_window by nia.
    by replace (page * limit - (page - 1) * limit) with limit by lia.
  - rewrite length_fmap, length_take. lia.
  - intros Hlast. pose proof (ceilDiv_covers (Z.of_nat (length users)) limit).
    rewrite drop_ge by nia. by rewrite take_nil.
  - unfold UsersStore.selected in Hsel.
    destruct (truthy _) as [role|]; [|by injection Hsel as <-].
    intros u Hin. by apply (filterByRole_Some _ _ _ Hsel).
  - intros role u Hrole Hin. unfold UsersStore.selected in Hsel.
    rewrite Hrole in Hsel. by apply (filterByRole_Some _ _ _ Hsel).
Qed.

Lemma listUsers_page_witness :
  let req :=
    UsersService.mkRequest "GET" ["v1"; "users"] (Some "Bearer root-token") ∅
      (Some 2) (Some 1) (Some "user") "u9" "2024-01-01T00:00:00.000Z" in
  let db :=
    snd (UsersService.register Scenario.usersExternals Fixtures.registerBob
           Scenario.usersDb1) in
  ∃ bob,
    UsersService.findUserById "u9" db = Some bob
    ∧ fst (UsersService.listUsers req db)
      = mkResponse 200
          (ok (UsersService.PUsers [UsersService.sanitizeUser bob]
                 (UsersService.mkPagination 2 1 2 2))).
Proof.
  intros req db.
  exists (UsersStore.newUser Scenario.usersExternals Fixtures.registerBob
            Fixtures.bobValue).
  split; [vm_compute; reflexivity|].
  destruct (listUsers_page req db
              [Scenario.storedAlice;
               UsersStore.newUser Scenario.usersExternals Fixtures.registerBob
                 Fixtures.bobValue]) as (Hpage & _).
  - vm_compute; reflexivity.
  - vm_compute; discriminate.
  - vm_compute; discriminate.
  - rewrite Hpage. reflexivity.
Defined.

(** ** Backend statuses and the gateway's mapping *)

Ltac agrees_tac :=
  first
    [ left; reflexivity
    | right; left; repeat split; reflexivity
    | right; right; split; [reflexivity|]; split; [reflexivity|];
      eexists; split; [reflexivity|];
      rewrite !elem_of_cons; auto ].

Lemma users_handlers_agree x r user req db resp db' :
  UsersService.handler x r user req db = Some (resp, db') →
  Wire.agrees [("INVALID_TOKEN", 401); ("INVALID_CREDENTIALS", 401)] resp.
Proof.
  destruct r, user as [u|]; simpl; intros H; try discriminate H;
    apply (inj Some) in H; apply (f_equal fst) in H; simpl in H; subst resp.
  all: unfold UsersService.register, UsersService.login,
         UsersService.getProfile, UsersService.updateProfile,
         UsersService.listUsers, UsersService.getUserById.
  all: repeat match goal with
         | |- context [match ?t with _ => _ end] => destruct t
         | |- context [if ?b then _ else _] => destruct b
         end; simpl; agrees_tac.
Qed.

Lemma users_middleware_agree x req ms user rej :
  (∀ roles u st err,
     UsersService.requireRole x roles u = Some (st, err) →
     Forwarder.statusCode (mkEnvelope (D:=UsersService.Payload) false None
                             (Some err)) = st) →
  UsersService.runMiddleware x req ms user = inl rej →
  Wire.agrees [("INVALID_TOKEN", 401); ("INVALID_CREDENTIALS", 401)] rej.
Proof.
  intros Hrole. revert user.
  induction ms as [|m ms IH]; intros user; [discriminate|].
  destruct m as [|roles]; simpl.
  - unfold authMiddleware. destruct (truthy _) as [h|].
    + destruct (startsWith h "Bearer ").
      * destruct (UsersService.jwtVerify x _); [apply IH|].
        intros [= <-]. agrees_tac.
      * intros [= <-]. agrees_tac.
    + intros [= <-]. agrees_tac.
  - destruct (UsersService.requireRole x roles user) as [[st err]|] eqn:Hr;
      [|apply IH].
    intros [= <-]. left. simpl. by apply (Hrole roles user).
Qed.

(** X17.  The status the users service sends with an envelope and the
    status the gateway's mapping gives the same envelope differ in two
    cases only: a registration's 201, which the mapping turns into 200,
    and the 401 of INVALID_TOKEN and INVALID_CREDENTIALS, which it turns
    into 500; this for a [requireRole] whose refusals carry a status the
    mapping agrees with. *)
Theorem gateway_mapping_on_users_responses x req db r db' :
  (∀ roles u st err,
     UsersService.requireRole x roles u = Some (st, err) →
     Forwarder.statusCode (mkEnvelope (D:=UsersService.Payload) false None
                             (Some err)) = st) →
  UsersService.app x req db = Some (r, db') →
  Forwarder.statusCode (body r) = status r
  ∨ (success (body r) = true ∧ status r = 201
     ∧ Forwarder.statusCode (body r) = 200)
  ∨ (success (body r) = false ∧ status r = 401
     ∧ Forwarder.statusCode (body r) = 500
     ∧ (errorCode (body r) = Some "INVALID_TOKEN"
        ∨ errorCode (body r) = Some "INVALID_CREDENTIALS")).
Proof.
  intros Hrole Happ.
  assert (Hag : Wire.agrees
                  [("INVALID_TOKEN", 401); ("INVALID_CREDENTIALS", 401)] r).
  { destruct (users_app_cases x req db r db' Happ)
      as [[_ Hm]|(user & _ & Hh)].
    - by eapply users_middleware_agree.
    - by eapply users_handlers_agree. }
  destruct Hag as [?|[?|(Hs & H500 & c & Hc & Hin)]]; [by left|by right; left|].
  right; right.
  rewrite !elem_of_cons, elem_of_nil in Hin.
  destruct Hin as [[= -> Hst]|[[= -> Hst]|[]]]; repeat split; auto.
Qed.

Lemma gateway_mapping_on_users_responses_witness :
  let r := fst (UsersService.login Scenario.usersExternals
                  (Fixtures.loginBob "guess") Scenario.usersDb1) in
  status r = 401 ∧ Forwarder.statusCode (body r) = 500.
Proof.
  intros r.
  destruct (gateway_mapping_on_users_responses Scenario.usersExternals
              (Fixtures.loginBob "guess") Scenario.usersDb1 r Scenario.usersDb1)
    as [H|[(H & _)|(_ & Hst & H500 & _)]].
  - intros roles u st err. simpl.
    destruct u as [u|]; [case_bool_decide|]; intros [= <- <-]; reflexivity.
  - vm_compute; reflexivity.
  - vm_compute in H. discriminate H.
  - vm_compute in H. discriminate H.
  - split; [exact Hst|exact H500].
Defined.

(** ** The orders store *)

Section OrdersStoreLemmas.
Context {I A : Type}.
Implicit Types (db : list (string * OrdersHandlers.Order I A)).
Implicit Types (o : OrdersHandlers.Order I A).

Lemma findOrderById_put_same id o db :
  OrdersHandlers.findOrderById id (OrdersHandlers.put id o db) = Some o.
Proof.
  unfold OrdersHandlers.findOrderById.
  induction db as [|[k v] db IH]; simpl.
  - by rewrite bool_decide_eq_true_2.
  - case_bool_decide as Hk; simpl.
    + by rewrite bool_decide_eq_true_2.
    + by rewrite bool_decide_eq_false_2.
Qed.

Lemma findOrderById_put_other id id' o db :
  id' ≠ id →
  OrdersHandlers.findOrderById id' (OrdersHandlers.put id o db)
  = OrdersHandlers.findOrderById id' db.
Proof.
  intros Hne. unfold OrdersHandlers.findOrderById.
  induction db as [|[k v] db IH]; simpl.
  - by rewrite bool_decide_eq_false_2.
  - case_bool_decide as Hk; simpl.
    + subst k. by rewrite !bool_decide_eq_false_2 by done.
    + case_bool_decide; [done|exact IH].
Qed.

Lemma order_put_elem id o db k v :
  (k, v) ∈ OrdersHandlers.put id o db → (k, v) ∈ db ∨ (k, v) = (id, o).
Proof.
  induction db as [|[k0 v0] db IH]; simpl.
  - intros Hin%list_elem_of_singleton. by right.
  - case_bool_decide as Hk.
    + subst k0. rewrite !elem_of_cons. intros [?|?]; auto.
    + rewrite !elem_of_cons. intros [?|Hin]; [auto|].
      destruct (IH Hin); auto.
Qed.

Lemma findOrderById_elem id db o :
  OrdersHandlers.findOrderById id db = Some o → (id, o) ∈ db.
Proof.
  unfold OrdersHandlers.findOrderById.
  destruct (List.find _ db) as [[k v]|] eqn:Hf; [|discriminate].
  intros [= <-]. apply find_some in Hf as [Hin Hk].
  apply bool_decide_eq_true in Hk. simpl in Hk. subst k.
  by apply list_elem_of_In.
Qed.

Lemma keyed_put id o db :
  OrdersHandlers.keyed db → OrdersHandlers.o_id o = id →
  OrdersHandlers.keyed (OrdersHandlers.put id o db).
Proof.
  intros Hk Hid k v [Hin|[= -> ->]]%order_put_elem; [by apply Hk|done].
Qed.

Lemma keyed_find id db o :
  OrdersHandlers.keyed db →
  OrdersHandlers.findOrderById id db = Some o → OrdersHandlers.o_id o = id.
Proof. intros Hk Hf. apply Hk. by apply findOrderById_elem. Qed.

Lemma sameIdentity_refl o : OrdersHandlers.sameIdentity o o.
Proof. by repeat split. Qed.

End OrdersStoreLemmas.

(** What a handler does to the store: nothing, or one write of an order
    under its own id. *)
Lemma handle_effect {B I A U} (x : OrdersHandlers.Externals B I A U) c user
    rest (db : list (string * OrdersHandlers.Order I A)) :
  let r := OrdersStore.handle x c user rest db in
  (snd r = db ∧ (data (body (fst r)) = None ∨ ∃ i, c = OrdersStore.Read i))
  ∨ ∃ p o,
      data (body (fst r)) = Some p ∧ OrdersStore.orderOf p = o
      ∧ snd r = OrdersHandlers.put (OrdersHandlers.o_id o) o db
      ∧ (c = OrdersStore.Create
         ∧ OrdersHandlers.o_id o = OrdersHandlers.r_uuid rest
         ∧ OrdersHandlers.o_userId o = user_id user
         ∧ OrdersHandlers.o_status o = "created"
         ∧ status (fst r) = 201
         ∨ ∃ i old,
             (c = OrdersStore.Update i ∨ c = OrdersStore.Cancel i)
             ∧ OrdersHandlers.findOrderById i db = Some old
             ∧ OrdersHandlers.sameIdentity old o
             ∧ status (fst r) = 200
             ∧ (OrdersHandlers.o_userId old = user_id user
                ∨ OrdersHandlers.hasRole "admin" user = true
                ∨ (OrdersHandlers.hasRole "manager" user = true
                   ∧ c = OrdersStore.Update i))
             ∧ (OrdersHandlers.o_status o = "cancelled"
                ∨ (c = OrdersStore.Update i
                   ∧ (OrdersHandlers.hasRole "admin" user = true
                      ∨ OrdersHandlers.hasRole "manager" user = true)))).
Proof.
  destruct c as [|i|i|i]; simpl.
  - unfold OrdersHandlers.createOrder.
    destruct (OrdersHandlers.validateCreate x _) as [msg|items];
      [left; auto|].
    destruct (OrdersHandlers.checkUserExists x _ _); simpl; [|left; auto].
    right. do 2 eexists. split; [reflexivity|]. split; [reflexivity|].
    split; [reflexivity|]. left. by repeat split.
  - left. unfold OrdersHandlers.getOrder.
    destruct (OrdersHandlers.findOrderById i db) as [old|]; [|eauto].
    destruct (negb _ && negb _); eauto.
  - unfold OrdersHandlers.updateOrder.
    destruct (OrdersHandlers.validateUpdate x _) as [msg|st]; [left; auto|].
    destruct (OrdersHandlers.findOrderById i db) as [old|] eqn:Hf;
      [|left; auto].
    destruct (bool_decide (OrdersHandlers.o_userId old = user_id user)) eqn:Ho,
      (OrdersHandlers.hasRole "admin" user) eqn:Ha,
      (OrdersHandlers.hasRole "manager" user) eqn:Hm; simpl;
      try (left; by auto);
      try (destruct (bool_decide (st = "cancelled")) eqn:Hc; simpl;
           [apply bool_decide_eq_true in Hc; subst st|left; by auto]);
      try apply bool_decide_eq_true in Ho;
      right; do 2 eexists; (split; [reflexivity|]); (split; [reflexivity|]);
      (split; [reflexivity|]); right; exists i, old;
      (split; [by left|]); (split; [done|]);
      (split; [by repeat split|]); (split; [done|]); simpl; split; auto.
  - unfold OrdersHandlers.cancelOrder.
    destruct (OrdersHandlers.findOrderById i db) as [old|] eqn:Hf;
      [|left; auto].
    destruct (bool_decide (OrdersHandlers.o_userId old = user_id user)) eqn:Ho,
      (OrdersHandlers.hasRole "admin" user) eqn:Ha; simpl;
      try (left; by auto);
      (destruct (bool_decide (OrdersHandlers.o_status old = "completed"));
       [left; by auto|]);
      (destruct (bool_decide (OrdersHandlers.o_status old = "cancelled"));
       [left; by auto|]);
      try apply bool_decide_eq_true in Ho;
      right; do 2 eexists; (split; [reflexivity|]); (split; [reflexivity|]);
      (split; [reflexivity|]); right; exists i, old;
      (split; [by right|]); (split; [done|]);
      (split; [by repeat split|]); (split; [done|]); simpl; split; auto.
Qed.

(** X18.  No order handler rewrites what identifies an order: after
    any of create, read, update and cancel, on a store keyed by order
    id, the store is still keyed by order id and every order that was
    there is still there with the same [id], [userId], [items],
    [totalAmount] and [createdAt].  The order id of the request names
    no member of [Object.prototype] (under such a name
    [ordersDb[orderId]] is the inherited member, which the handlers
    would take for an order); for a creation the new id is unused. *)
Theorem orders_keep_identity {B I A U} (x : OrdersHandlers.Externals B I A U)
    c user rest (db : list (string * OrdersHandlers.Order I A)) :
  OrdersHandlers.keyed db →
  (∀ i, c = OrdersStore.Read i ∨ c = OrdersStore.Update i
        ∨ c = OrdersStore.Cancel i → Js.inherited i = false) →
  (c = OrdersStore.Create →
   Js.inherited (OrdersHandlers.r_uuid rest) = false
   ∧ OrdersHandlers.findOrderById (OrdersHandlers.r_uuid rest) db = None) →
  let db' := snd (OrdersStore.handle x c user rest db) in
  OrdersHandlers.keyed db'
  ∧ ∀ k o, OrdersHandlers.findOrderById k db = Some o →
      ∃ o', OrdersHandlers.findOrderById k db' = Some o'
            ∧ OrdersHandlers.sameIdentity o o'.
Proof.
  intros Hk _ Hfresh db'. subst db'.
  destruct (handle_effect x c user rest db)
    as [[-> _]|(p & o & _ & _ & -> & Hcase)].
  { split; [done|]. intros k o Hf. exists o. split; [done|].
    apply sameIdentity_refl. }
  split; [by apply keyed_put|].
  intros k old Hf.
  destruct Hcase as [(-> & Hid & _)|(i & old' & Hc & Hf' & Hsame & _)].
  - rewrite Hid. exists old. split; [|apply sameIdentity_refl].
    rewrite findOrderById_put_other; [done|].
    intros ->. rewrite (proj2 (Hfresh eq_refl)) in Hf. discriminate Hf.
  - pose proof (keyed_find _ _ _ Hk Hf') as Hi.
    assert (Hoi : OrdersHandlers.o_id o = i)
      by (destruct Hsame as (-> & _); exact Hi).
    rewrite Hoi. destruct (decide (k = i)) as [->|Hne].
    + exists o. rewrite findOrderById_put_same. split; [done|]. congruence.
    + exists old. rewrite findOrderById_put_other by done.
      split; [done|apply sameIdentity_refl].
Qed.

Lemma fixture_ordersDb1_keyed : OrdersHandlers.keyed OrderFixtures.ordersDb1.
Proof.
  intros k o Hin. unfold OrderFixtures.ordersDb1 in Hin.
  rewrite !elem_of_cons, elem_of_nil in Hin.
  destruct Hin as [[= -> ->]|[[= -> ->]|[[= -> ->]|[]]]]; reflexivity.
Qed.

Lemma orders_keep_identity_witness :
  let db' :=
    snd (OrdersStore.handle OrderFixtures.externals (OrdersStore.Update "o3")
           OrderFixtures.manager (OrderFixtures.rest "completed")
           OrderFixtures.ordersDb1) in
  ∃ o', OrdersHandlers.findOrderById "o3" db' = Some o'
        ∧ OrdersHandlers.o_userId o' = "u5".
Proof.
  intros db'.
  destruct (orders_keep_identity OrderFixtures.externals
              (OrdersStore.Update "o3") OrderFixtures.manager
              (OrderFixtures.rest "completed") OrderFixtures.ordersDb1)
    as (_ & Hkeep);
    [exact fixture_ordersDb1_keyed
    |intros i [H|[H|H]]; inversion H; reflexivity
    |discriminate|].
  destruct (Hkeep "o3" (OrderFixtures.order "o3" "u5" "in_progress") eq_refl)
    as (o' & Hf & _ & Hu & _).
  exists o'. split; [exact Hf|exact Hu].
Defined.

(** X19.  A caller who is neither admin nor manager changes no order
    but their own, and that only into a cancelled one: after any
    handler run for such a caller, every order of the store is what it
    was, or belongs to the caller and is now cancelled. *)
Theorem plain_caller_only_cancels_own {B I A U}
    (x : OrdersHandlers.Externals B I A U) c user rest
    (db : list (string * OrdersHandlers.Order I A)) :
  OrdersHandlers.hasRole "admin" user = false →
  OrdersHandlers.hasRole "manager" user = false →
  OrdersHandlers.keyed db →
  (c = OrdersStore.Create →
   OrdersHandlers.findOrderById (OrdersHandlers.r_uuid rest) db = None) →
  let db' := snd (OrdersStore.handle x c user rest db) in
  ∀ k o o',
    OrdersHandlers.findOrderById k db = Some o →
    OrdersHandlers.findOrderById k db' = Some o' →
    o' = o
    ∨ (OrdersHandlers.o_userId o = user_id user
       ∧ OrdersHandlers.o_status o' = "cancelled"
       ∧ OrdersHandlers.sameIdentity o o').
Proof.
  intros Ha Hm Hk Hfresh db' k old o' Hf Hf'. subst db'.
  destruct (handle_effect x c user rest db)
    as [[Heq _]|(p & o & _ & _ & Heq & Hcase)]; rewrite Heq in Hf'.
  { left. congruence. }
  destruct Hcase as [(-> & Hid & _)
                    |(i & old' & Hc & Hfi & Hsame & _ & Hent & Hst)].
  - left. rewrite Hid, findOrderById_put_other in Hf'; [congruence|].
    intros ->. rewrite (Hfresh eq_refl) in Hf. discriminate Hf.
  - pose proof (keyed_find _ _ _ Hk Hfi) as Hi.
    assert (Hoi : OrdersHandlers.o_id o = i)
      by (destruct Hsame as (-> & _); exact Hi).
    rewrite Hoi in Hf'. destruct (decide (k = i)) as [->|Hne].
    + rewrite findOrderById_put_same in Hf'. injection Hf' as <-.
      assert (old' = old) as -> by congruence.
      right. split; [|split; [|done]].
      * destruct Hent as [?|[?|[? _]]]; [done|congruence|congruence].
      * destruct Hst as [?|[_ [?|?]]]; [done|congruence|congruence].
    + rewrite findOrderById_put_other in Hf' by done. left. congruence.
Qed.

Lemma plain_caller_only_cancels_own_witness :
  let db' :=
    snd (OrdersStore.handle OrderFixtures.externals (OrdersStore.Cancel "o1")
           Scenario.alice (OrderFixtures.rest "") OrderFixtures.ordersDb1) in
  let o' :=
    OrdersHandlers.mkOrder "o1" "u1" 2%nat "cancelled" 200
      "2024-01-01T00:00:00.000Z" "2024-02-02T00:00:00.000Z" in
  OrdersHandlers.findOrderById "o1" db' = Some o'
  ∧ (o' = OrderFixtures.order "o1" "u1" "created"
     ∨ (OrdersHandlers.o_userId (OrderFixtures.order "o1" "u1" "created")
        = user_id Scenario.alice
        ∧ OrdersHandlers.o_status o' = "cancelled"
        ∧ OrdersHandlers.sameIdentity
            (OrderFixtures.order "o1" "u1" "created") o')).
Proof.
  intros db' o'.
  assert (Hf' : OrdersHandlers.findOrderById "o1" db' = Some o')
    by (vm_compute; reflexivity).
  split; [exact Hf'|].
  exact (plain_caller_only_cancels_own OrderFixtures.externals
           (OrdersStore.Cancel "o1") Scenario.alice (OrderFixtures.rest "")
           OrderFixtures.ordersDb1 eq_refl eq_refl fixture_ordersDb1_keyed
           ltac:(discriminate) "o1" (OrderFixtures.order "o1" "u1" "created")
           o' eq_refl Hf').
Defined.

(** X20.  An order leaves the service only towards a caller entitled to
    it: whenever a handler's answer carries an order, the caller is its
    owner or an admin, or a manager who has just updated it. *)
Theorem orders_disclosed_to_entitled_callers {B I A U}
    (x : OrdersHandlers.Externals B I A U) c user rest
    (db : list (string * OrdersHandlers.Order I A)) p :
  data (body (fst (OrdersStore.handle x c user rest db))) = Some p →
  OrdersHandlers.o_userId (OrdersStore.orderOf p) = user_id user
  ∨ OrdersHandlers.hasRole "admin" user = true
  ∨ (OrdersHandlers.hasRole "manager" user = true
     ∧ ∃ i, c = OrdersStore.Update i).
Proof.
  intros Hp.
  destruct (handle_effect x c user rest db)
    as [[_ [Hnone|[i ->]]]|(p' & o & Hp' & Ho & _ & Hcase)].
  - rewrite Hnone in Hp. discriminate Hp.
  - simpl in Hp. unfold OrdersHandlers.getOrder in Hp.
    destruct (OrdersHandlers.findOrderById i db) as [old|]; [|discriminate Hp].
    destruct (bool_decide (OrdersHandlers.o_userId old = user_id user)) eqn:Ho,
      (OrdersHandlers.hasRole "admin" user) eqn:Ha; simpl in Hp;
      try discriminate Hp; injection Hp as <-; simpl; auto;
      apply bool_decide_eq_true in Ho; auto.
  - rewrite Hp' in Hp. injection Hp as <-. rewrite Ho.
    destruct Hcase as [(_ & _ & Hu & _)|(i & old & Hc & _ & Hsame & _ & Hent & _)];
      [by left|].
    destruct Hsame as (_ & -> & _).
    destruct Hent as [?|[?|[? ->]]]; eauto.
Qed.

Lemma orders_disclosed_to_entitled_callers_witness :
  OrdersHandlers.o_userId (OrderFixtures.order "o2" "u1" "completed")
  = user_id Scenario.alice
  ∨ OrdersHandlers.hasRole "admin" Scenario.alice = true
  ∨ (OrdersHandlers.hasRole "manager" Scenario.alice = true
     ∧ ∃ i, OrdersStore.Read "o2" = OrdersStore.Update i).
Proof.
  apply (orders_disclosed_to_entitled_callers OrderFixtures.externals
           (OrdersStore.Read "o2") Scenario.alice (OrderFixtures.rest "")
           OrderFixtures.ordersDb1
           (OrdersHandlers.POrder (OrderFixtures.order "o2" "u1" "completed"))).
  reflexivity.
Defined.

(** ** Splitting headers and paths *)

Lemma split_nonempty sep s : Wire.split sep s ≠ [].
Proof.
  destruct s as [|c s]; simpl; [done|].
  destruct (Ascii.eqb c sep); [done|]. by destruct (Wire.split sep s).
Qed.

Lemma split_free sep s : Wire.free sep s → Wire.split sep s = [s].
Proof.
  induction s as [|c s IH]; simpl; [done|]. intros [Hc Hs].
  destruct (Ascii.eqb_spec c sep); [done|]. by rewrite IH.
Qed.

Lemma split_app sep s t :
  Wire.free sep s →
  Wire.split sep (s ++ String sep t) = s :: Wire.split sep t.
Proof.
  induction s as [|c s IH]; simpl.
  - intros _. by rewrite Ascii.eqb_refl.
  - intros [Hc Hs]. destruct (Ascii.eqb_spec c sep); [done|].
    change (Wire.split sep (s +:+ String sep t))
      with (Wire.split sep (s ++ String sep t)).
    by rewrite IH.
Qed.

Lemma allChars_free p c s :
  p c = false → Wire.allChars p s = true → Wire.free c s.
Proof.
  intros Hc. induction s as [|a s IH]; simpl; [done|].
  intros [Ha Hs]%andb_true_iff. split; [|by apply IH].
  intros ->. congruence.
Qed.

Lemma plain_nonempty s : Wire.plain s = true → s ≠ "".
Proof.
  unfold Wire.plain. intros [Hne _]%andb_true_iff.
  by apply negb_true_iff, bool_decide_eq_false in Hne.
Qed.

Lemma plain_free c s :
  Wire.plainChar c = false → Wire.plain s = true → Wire.free c s.
Proof.
  unfold Wire.plain. intros Hc [_ Hs]%andb_true_iff.
  by eapply allChars_free.
Qed.

Lemma pathOf_free s :
  Wire.free Wire.question s → Wire.free Wire.hash s → Wire.pathOf s = s.
Proof.
  induction s as [|c s IH]; simpl; [done|]. intros [Hq Hs] [Hh Hs'].
  destruct (Ascii.eqb_spec c Wire.question); [done|].
  destruct (Ascii.eqb_spec c Wire.hash); [done|]. simpl. by rewrite IH.
Qed.

Lemma pathOf_plain s : Wire.plain s = true → Wire.pathOf s = s.
Proof. intros Hs. apply pathOf_free; by apply plain_free. Qed.

Lemma lowerChar_plain c : Wire.plainChar c = true → Express.lowerChar c = c.
Proof.
  unfold Wire.plainChar, Express.lowerChar.
  destruct ((65 <=? Ascii.N_of_ascii c)%N && (Ascii.N_of_ascii c <=? 90)%N)
    eqn:Hup; [|done].
  apply andb_true_iff in Hup as [H1%N.leb_le H2%N.leb_le].
  intros H. exfalso.
  repeat (apply orb_true_iff in H as [H|H]);
    try apply andb_true_iff in H as [H3%N.leb_le H4%N.leb_le];
    try apply N.eqb_eq in H; lia.
Qed.

Lemma lower_plain s : Wire.plain s = true → Express.lower s = s.
Proof.
  unfold Wire.plain. intros [_ Hs]%andb_true_iff.
  induction s as [|c s IH]; simpl in *; [done|].
  apply andb_true_iff in Hs as [Hc Hs].
  by rewrite lowerChar_plain, IH.
Qed.

Lemma matches_plain lit s :
  Wire.plain s = true → Express.matches lit s = bool_decide (s = lit).
Proof. intros Hs. unfold Express.matches. by rewrite lower_plain. Qed.

Lemma segments_user_url userId :
  Wire.plain userId = true →
  Wire.segments ("/v1/users/" ++ userId) = ["v1"; "users"; userId].
Proof.
  intros Hplain. unfold Wire.segments.
  assert (Hpath : Wire.pathOf ("/v1/users/" ++ userId) = "/v1/users/" ++ userId).
  { apply pathOf_free.
    - simpl. repeat (split; [discriminate|]). by apply plain_free.
    - simpl. repeat (split; [discriminate|]). by apply plain_free. }
  rewrite Hpath.
  change ("/v1/users/" ++ userId)
    with ("" ++ String Wire.slash ("v1" ++ String Wire.slash
            ("users" ++ String Wire.slash userId))).
  rewrite !split_app by (simpl; repeat split; discriminate).
  rewrite split_free by by apply plain_free.
  rewrite filter_cons_False by (intros H; by apply H).
  rewrite !filter_cons_True; [by rewrite filter_nil|by apply plain_nonempty|done..].
Qed.

Lemma users_route_by_id userId :
  Wire.plain userId = true → userId ≠ "profile" →
  UsersService.route "GET" ["v1"; "users"; userId] = UsersService.UserById userId.
Proof.
  intros Hplain Hne. unfold UsersService.route. cbv zeta beta.
  rewrite !(matches_plain _ userId) by done.
  change (Express.matches "v1" "v1") with true.
  change (Express.matches "users" "users") with true.
  repeat (case_bool_decide; simpl; try done).
Qed.

(** [checkUserExists] against the users service. *)
Lemma checkUserExists_over_http {B I A}
    (x : OrdersHandlers.Externals B I A UsersService.Payload)
    accepts ux udb userId requestId :
  OrdersHandlers.axiosGet x = Wire.usersOverHttp accepts ux udb →
  accepts 200 = true →
  (Wire.plain userId = true → userId ≠ "profile" →
   OrdersHandlers.checkUserExists x userId requestId
   = bool_decide (is_Some (UsersService.findUserById userId udb)))
  ∧ (userId = "profile" →
     OrdersHandlers.checkUserExists x userId requestId = false).
Proof.
  intros Hget H200. unfold OrdersHandlers.checkUserExists. rewrite Hget.
  unfold Wire.usersOverHttp. split.
  - intros Hplain Hprof. rewrite segments_user_url by done.
    unfold UsersService.app. simpl UsersService.method.
    simpl UsersService.path. rewrite users_route_by_id by done. simpl.
    unfold UsersService.getUserById.
    destruct (UsersService.findUserById userId udb) as [u|]; simpl.
    + by rewrite H200.
    + by destruct (accepts 404).
  - intros ->. vm_compute Wire.segments. unfold UsersService.app. simpl.
    by destruct (accepts 401).
Qed.

(** X21.  The orders service's user check, run against the users
    service: for a user id made of the letters a to z, digits, [-] and
    [_] (as the ids [uuidv4()] returns are) other than the word
    [profile], [checkUserExists] is true exactly when [usersDb[userId]]
    is something in the users service - a stored user or, for a name
    such as [constructor], the member every object inherits - whatever
    statuses other than 200 the HTTP client accepts; the id [profile]
    is always reported missing, since its path is that of the protected
    profile route and the check sends no credential. *)
Theorem checkUserExists_asks_users_service {B I A}
    (x : OrdersHandlers.Externals B I A UsersService.Payload)
    accepts ux udb userId requestId :
  OrdersHandlers.axiosGet x = Wire.usersOverHttp accepts ux udb →
  accepts 200 = true →
  (Wire.plain userId = true → userId ≠ "profile" →
   OrdersHandlers.checkUserExists x userId requestId
   = bool_decide (is_Some (UsersService.findUserById userId udb)))
  ∧ (userId = "profile" →
     OrdersHandlers.checkUserExists x userId requestId = false).
Proof.
  exact (checkUserExists_over_http x accepts ux udb userId requestId).
Qed.

Lemma checkUserExists_asks_users_service_witness :
  OrdersHandlers.checkUserExists OrderFixtures.externals "u1" "req-7" = true
  ∧ OrdersHandlers.checkUserExists OrderFixtures.externals "u2" "req-7" = false
  ∧ OrdersHandlers.checkUserExists OrderFixtures.externals "constructor" "req-7"
    = true.
Proof.
  destruct (checkUserExists_asks_users_service OrderFixtures.externals
              OrderFixtures.validateStatus Scenario.usersExternals
              Scenario.usersDb1 "u1" "req-7" eq_refl eq_refl) as [H1 _].
  destruct (checkUserExists_asks_users_service OrderFixtures.externals
              OrderFixtures.validateStatus Scenario.usersExternals
              Scenario.usersDb1 "u2" "req-7" eq_refl eq_refl) as [H2 _].
  destruct (checkUserExists_asks_users_service OrderFixtures.externals
              OrderFixtures.validateStatus Scenario.usersExternals
              Scenario.usersDb1 "constructor" "req-7" eq_refl eq_refl)
    as [H3 _].
  split; [|split].
  - rewrite H1; [reflexivity|reflexivity|discriminate].
  - rewrite H2; [reflexivity|reflexivity|discriminate].
  - rewrite H3; [reflexivity|reflexivity|discriminate].
Defined.

(** ** Creating and cancelling orders *)

(** X22.  An order is created exactly when the body passes validation
    and the users service has something under the caller's id (a stored
    user or an inherited member, see X21): then the answer is 201 and
    the store holds, under the new id, an order of the caller with
    status [created] and the computed total; otherwise the answer is a
    refusal and the store is not changed.  The caller's id is made of
    the letters a to z, digits, [-] and [_] and is not the word
    [profile]; the new id is not [__proto__]. *)
Theorem order_created_only_for_known_user {B I A}
    (x : OrdersHandlers.Externals B I A UsersService.Payload)
    accepts ux udb user rest
    (db : list (string * OrdersHandlers.Order I A)) :
  OrdersHandlers.axiosGet x = Wire.usersOverHttp accepts ux udb →
  accepts 200 = true →
  Wire.plain (user_id user) = true →
  user_id user ≠ "profile" →
  OrdersHandlers.r_uuid rest ≠ "__proto__" →
  let r := OrdersHandlers.createOrder x user rest db in
  (status (fst r) = 201
   ↔ (∃ items, OrdersHandlers.validateCreate x (OrdersHandlers.r_body rest)
               = inr items)
     ∧ is_Some (UsersService.findUserById (user_id user) udb))
  ∧ (status (fst r) = 201 →
     ∃ o, OrdersHandlers.findOrderById (OrdersHandlers.r_uuid rest) (snd r)
          = Some o
          ∧ data (body (fst r)) = Some (OrdersHandlers.POrder o)
          ∧ OrdersHandlers.o_userId o = user_id user
          ∧ OrdersHandlers.o_status o = "created"
          ∧ OrdersHandlers.o_totalAmount o
            = OrdersHandlers.calculateTotal x (OrdersHandlers.o_items o))
  ∧ (status (fst r) ≠ 201 → snd r = db ∧ success (body (fst r)) = false).
Proof.
  intros Hget H200 Hplain Hprof _ r. subst r.
  destruct (checkUserExists_over_http x accepts ux udb
              (user_id user) (OrdersHandlers.r_id rest) Hget H200)
    as [Hcheck _].
  specialize (Hcheck Hplain Hprof).
  unfold OrdersHandlers.createOrder.
  destruct (OrdersHandlers.validateCreate x _) as [msg|items]; simpl.
  { split; [split; [discriminate|by intros [[? ?] _]]|].
    split; [discriminate|done]. }
  rewrite Hcheck. case_bool_decide as Hknown; simpl.
  - split; [split; [intros _; eauto|done]|].
    split; [|done]. intros _. eexists.
    rewrite findOrderById_put_same. by repeat split.
  - split; [split; [discriminate|by intros [_ ?]]|].
    split; [discriminate|done].
Qed.

Lemma order_created_only_for_known_user_witness :
  status (fst (OrdersHandlers.createOrder OrderFixtures.externals
                 Scenario.alice (OrderFixtures.rest "bricks")
                 OrderFixtures.ordersDb1))
  = 201.
Proof.
  destruct (order_created_only_for_known_user OrderFixtures.externals
              OrderFixtures.validateStatus Scenario.usersExternals
              Scenario.usersDb1 Scenario.alice (OrderFixtures.rest "bricks")
              OrderFixtures.ordersDb1 eq_refl eq_refl) as [[_ H] _].
  - reflexivity.
  - discriminate.
  - discriminate.
  - apply H. split; [by eexists|by eexists].
Defined.

(** X23.  A completed order of the caller: [DELETE] refuses to cancel it
    (400 INVALID_OPERATION, store unchanged), while [PUT] with the
    validated status [cancelled] by the same caller is answered 200 and
    leaves the order cancelled. *)
Theorem completed_order_delete_refuses_put_cancels {B I A U}
    (x : OrdersHandlers.Externals B I A U) user i rest
    (db : list (string * OrdersHandlers.Order I A)) o :
  OrdersHandlers.keyed db →
  OrdersHandlers.findOrderById i db = Some o →
  OrdersHandlers.o_userId o = user_id user →
  OrdersHandlers.o_status o = "completed" →
  OrdersHandlers.validateUpdate x (OrdersHandlers.r_body rest) = inr "cancelled" →
  OrdersHandlers.cancelOrder user i rest db
  = (mkResponse 400 (fail "INVALID_OPERATION" "Cannot cancel completed order"),
     db)
  ∧ status (fst (OrdersHandlers.updateOrder x user i rest db)) = 200
  ∧ ∃ o', OrdersHandlers.findOrderById i
            (snd (OrdersHandlers.updateOrder x user i rest db)) = Some o'
          ∧ OrdersHandlers.o_status o' = "cancelled"
          ∧ OrdersHandlers.sameIdentity o o'.
Proof.
  intros Hk Hf Ho Hs Hv.
  pose proof (keyed_find _ _ _ Hk Hf) as Hid.
  unfold OrdersHandlers.cancelOrder, OrdersHandlers.updateOrder.
  rewrite Hv, Hf. rewrite !(bool_decide_eq_true_2 _ Ho). simpl.
  rewrite (bool_decide_eq_true_2 _ Hs).
  split; [done|].
  rewrite !andb_false_r. simpl. split; [done|].
  eexists. rewrite Hid, findOrderById_put_same. by repeat split.
Qed.

Lemma completed_order_delete_refuses_put_cancels_witness :
  status (fst (OrdersHandlers.cancelOrder Scenario.alice "o2"
                 (OrderFixtures.rest "cancelled") OrderFixtures.ordersDb1))
  = 400
  ∧ status (fst (OrdersHandlers.updateOrder OrderFixtures.externals
                   Scenario.alice "o2" (OrderFixtures.rest "cancelled")
                   OrderFixtures.ordersDb1))
    = 200.
Proof.
  destruct (completed_order_delete_refuses_put_cancels OrderFixtures.externals
              Scenario.alice "o2" (OrderFixtures.rest "cancelled")
              OrderFixtures.ordersDb1
              (OrderFixtures.order "o2" "u1" "completed")
              fixture_ordersDb1_keyed eq_refl eq_refl eq_refl eq_refl)
    as (Hd & Hp & _).
  split; [by rewrite Hd|exact Hp].
Defined.



(** X25.  The status the order handlers send with an envelope and the
    status the gateway's mapping gives the same envelope differ in two
    cases only: a creation's 201, which the mapping turns into 200, and
    the 400 of INVALID_OPERATION, which it turns into 500. *)
Theorem gateway_mapping_on_orders_responses {B I A U}
    (x : OrdersHandlers.Externals B I A U) c user rest
    (db : list (string * OrdersHandlers.Order I A)) :
  let r := fst (OrdersStore.handle x c user rest db) in
  Forwarder.statusCode (body r) = status r
  ∨ (success (body r) = true ∧ status r = 201
     ∧ Forwarder.statusCode (body r) = 200)
  ∨ (success (body r) = false ∧ status r = 400
     ∧ Forwarder.statusCode (body r) = 500
     ∧ errorCode (body r) = Some "INVALID_OPERATION").
Proof.
  intros r. subst r.
  destruct c as [|i|i|i]; simpl;
    unfold OrdersHandlers.createOrder, OrdersHandlers.getOrder,
      OrdersHandlers.updateOrder, OrdersHandlers.cancelOrder;
    repeat match goal with
      | |- context [match ?t with _ => _ end] => destruct t
      | |- context [if ?b then _ else _] => destruct b
      end; simpl;
    first [ left; reflexivity
          | right; left; repeat split; reflexivity
          | right; right; repeat split; reflexivity ].
Qed.

(** ** The orders router's token check *)

Lemma startsWith_app s p : startsWith (p ++ s) p = true.
Proof.
  induction p as [|a p IH]; simpl; [by destruct s|].
  by rewrite Ascii.eqb_refl.
Qed.

Lemma free_app_neq c s t s' t' :
  Wire.free c s → Wire.free c s' →
  s ++ String c t = s' ++ String c t' → s = s'.
Proof.
  intros Hs Hs' Heq.
  assert (H : Wire.split c (s ++ String c t) = Wire.split c (s' ++ String c t'))
    by by rewrite Heq.
  rewrite !split_app in H by done. by injection H.
Qed.

(** X26.  [authenticateToken] reads the token after the first space of
    the header and does not look at the word before it: for a token
    without spaces, any scheme word gives the verdict of the verifier
    on that token.  On a [Bearer] header it agrees with
    [authMiddleware]; on any other scheme [authMiddleware] answers 401
    UNAUTHORIZED without consulting the verifier. *)
Theorem authenticateToken_ignores_scheme {B}
    (jwtVerify : string → option Identity) scheme token :
  Wire.free Wire.space scheme →
  Wire.free Wire.space token →
  token ≠ "" →
  Wire.authenticateToken (B:=B) jwtVerify
    (Some (scheme ++ String Wire.space token))
  = match jwtVerify token with
    | Some decoded => inr decoded
    | None => inl (mkResponse 401
                     (fail "INVALID_TOKEN" "Invalid or expired token"))
    end
  ∧ (scheme = "Bearer" →
     authMiddleware (B:=B) jwtVerify (Some (scheme ++ String Wire.space token))
     = Wire.authenticateToken jwtVerify
         (Some (scheme ++ String Wire.space token)))
  ∧ (scheme ≠ "Bearer" →
     authMiddleware (B:=B) jwtVerify (Some (scheme ++ String Wire.space token))
     = inl (mkResponse 401 (fail "UNAUTHORIZED" "No token provided"))).
Proof.
  intros Hs Ht Hne.
  assert (Htruthy : truthy (Some (scheme ++ String Wire.space token))
                    = Some (scheme ++ String Wire.space token)).
  { simpl. rewrite bool_decide_eq_false_2; [done|]. by destruct scheme. }
  assert (Hauth :
    Wire.authenticateToken (B:=B) jwtVerify
      (Some (scheme ++ String Wire.space token))
    = match jwtVerify token with
      | Some decoded => inr decoded
      | None => inl (mkResponse 401
                       (fail "INVALID_TOKEN" "Invalid or expired token"))
      end).
  { unfold Wire.authenticateToken. rewrite Htruthy.
    rewrite split_app, split_free by done. simpl.
    by rewrite bool_decide_eq_false_2 by done. }
  split; [exact Hauth|]. split.
  - intros ->. rewrite Hauth. unfold authMiddleware. rewrite Htruthy.
    unfold Wire.space. simpl. by destruct token.
  - intros Hscheme. unfold authMiddleware. rewrite Htruthy.
    destruct (startsWith (scheme ++ String Wire.space token) "Bearer ") eqn:Hp;
      [|done].
    apply startsWith_split in Hp. destruct Hscheme.
    apply (free_app_neq Wire.space scheme token "Bearer"
             (substringFrom 7 (scheme ++ String Wire.space token)));
      [done|simpl; repeat split; discriminate|exact Hp].
Qed.

Lemma authenticateToken_ignores_scheme_witness :
  Wire.authenticateToken (B:=unit) Scenario.jwtVerify (Some "Basic alice-token")
  = inr Scenario.alice
  ∧ authMiddleware (B:=unit) Scenario.jwtVerify (Some "Basic alice-token")
    = inl (mkResponse 401 (fail "UNAUTHORIZED" "No token provided")).
Proof.
  destruct (authenticateToken_ignores_scheme (B:=unit) Scenario.jwtVerify
              "Basic" "alice-token") as (H1 & _ & H3).
  - simpl; repeat split; discriminate.
  - simpl; repeat split; discriminate.
  - discriminate.
  - split; [exact H1|]. apply H3. discriminate.
Defined.

(** ** The route tables of the gateway and of the backends *)


(** A parameter cut short: the gateway pastes [req.params.userId] into
    the URL as it is, so what follows a [?] in it is not part of the
    path the users service sees. *)
Example pasted_parameter_is_cut :
  Gateway.target (Gateway.route "GET" ["v1"; "users"; "u1?x=1"])
  = Some (Users, "/v1/users/u1?x=1")
  ∧ UsersService.route "GET" (Wire.segments "/v1/users/u1?x=1")
    = UsersService.UserById "u1".
Proof. vm_compute. by split. Qed.


